(** * tsbootstrap: block generation and resampling

    A shallow embedding of the block bootstrap of [src/bootstrap.py] and of
    the validators of [ts_bs/utils/validate.py], with the properties the
    specification states about them.

    Layout: the data model and every function first (validators, the block
    engine, the bootstrap classes), the theorems afterwards. *)

From Stdlib Require Import ZArith QArith Qround List Bool Lia Lqa String.
From Stdlib Require Import Permutation.
Import ListNotations.

Local Open Scope Z_scope.

(* ================================================================== *)
(** * Exceptions and results *)
(* ================================================================== *)

(** The Python exception classes the sources raise, with their messages, and
    the two error kinds of the specification's section 7, which the block
    engine raises. *)
Inductive exn : Type :=
| TypeError (msg : string)
| ValueError (msg : string)
| IndexError
| AttributeError
| ConfigurationError
| ValidationError.

(** A call either returns or raises. *)
Definition result (A : Type) : Type := (exn + A)%type.

Definition ok {A : Type} (a : A) : result A := inr a.
Definition raise {A : Type} (e : exn) : result A := inl e.

Definition raises {A : Type} (r : result A) : Prop := exists e, r = raise e.

Definition is_raise {A : Type} (r : result A) : bool :=
  match r with inl _ => true | inr _ => false end.

(* ================================================================== *)
(** * NumPy arrays *)
(* ================================================================== *)

(** A double: a finite value (kept exact, as a rational), an infinity or a
    NaN. *)
Inductive float64 : Type :=
| Finite (q : Q)
| PosInf
| NegInf
| NaN.

(** The buffer of an array fixes its dtype kind: integer ("i"/"u"), float
    ("f") or complex ("c", real and imaginary part). *)
Inductive buffer : Type :=
| IntBuf (l : list Z)
| FloatBuf (l : list float64)
| ComplexBuf (l : list (float64 * float64)).

Record ndarray : Type := mk_ndarray {
  shape : list nat;
  data : buffer
}.

Definition ndim (a : ndarray) : nat := List.length (shape a).

(** [a.size]: the product of the shape. *)
Definition size (a : ndarray) : nat := fold_right Nat.mul 1%nat (shape a).

(** [a.shape[k]]; the validators read it only where it exists. *)
Definition shape_at (a : ndarray) (k : nat) : nat := nth k (shape a) 0%nat.

Definition buffer_length (b : buffer) : nat :=
  match b with
  | IntBuf l => List.length l
  | FloatBuf l => List.length l
  | ComplexBuf l => List.length l
  end.

(** An array holds as many elements as its shape says. *)
Definition wf_ndarray (a : ndarray) : Prop := buffer_length (data a) = size a.

(** [np.issubdtype(a.dtype, np.integer)]. *)
Definition is_integer_dtype (a : ndarray) : bool :=
  match data a with IntBuf _ => true | _ => false end.

(** ** Elementwise predicates on doubles *)

Definition Qltb (a b : Q) : bool := negb (Qle_bool b a).

Definition float_isfinite (x : float64) : bool :=
  match x with Finite _ => true | _ => false end.

(** [x < 0]; every comparison with a NaN is false. *)
Definition float_lt0 (x : float64) : bool :=
  match x with
  | Finite q => Qltb q 0
  | NegInf => true
  | PosInf | NaN => false
  end.

(** [x == 0]. *)
Definition float_eq0 (x : float64) : bool :=
  match x with
  | Finite q => Qeq_bool q 0
  | _ => false
  end.

(** [x < y] for a float [x] and an integer [y]. *)
Definition float_ltZ (x : float64) (y : Z) : bool :=
  match x with
  | Finite q => Qltb q (inject_Z y)
  | NegInf => true
  | PosInf | NaN => false
  end.

(** NumPy orders complex numbers lexicographically, real part first. *)
Definition complex_lt0 (z : float64 * float64) : bool :=
  float_lt0 (fst z) || (float_eq0 (fst z) && float_lt0 (snd z)).

Definition complex_eq0 (z : float64 * float64) : bool :=
  float_eq0 (fst z) && float_eq0 (snd z).

(** ** Reductions over a whole array *)

(** [np.isfinite(a).all()]. *)
Definition all_isfinite (a : ndarray) : bool :=
  match data a with
  | IntBuf _ => true
  | FloatBuf l => forallb float_isfinite l
  | ComplexBuf l =>
      forallb (fun z => float_isfinite (fst z) && float_isfinite (snd z)) l
  end.

(** [np.any(a < 0)]. *)
Definition any_lt0 (a : ndarray) : bool :=
  match data a with
  | IntBuf l => existsb (fun z => z <? 0) l
  | FloatBuf l => existsb float_lt0 l
  | ComplexBuf l => existsb complex_lt0 l
  end.

(** [np.any(np.iscomplex(a))]: a non-zero imaginary part. *)
Definition any_iscomplex (a : ndarray) : bool :=
  match data a with
  | IntBuf _ | FloatBuf _ => false
  | ComplexBuf l => existsb (fun z => negb (float_eq0 (snd z))) l
  end.

(** [np.all(a == 0)]; true of an array without elements. *)
Definition all_eq0 (a : ndarray) : bool :=
  match data a with
  | IntBuf l => forallb (fun z => z =? 0) l
  | FloatBuf l => forallb float_eq0 l
  | ComplexBuf l => forallb complex_eq0 l
  end.

(** [np.all(a < n)] for an integer [n]. *)
Definition all_ltZ (a : ndarray) (n : Z) : bool :=
  match data a with
  | IntBuf l => forallb (fun z => z <? n) l
  | FloatBuf l => forallb (fun x => float_ltZ x n) l
  | ComplexBuf l =>
      forallb (fun z => float_ltZ (fst z) n
                        || (match fst z with
                            | Finite q => Qeq_bool q (inject_Z n)
                            | _ => false
                            end && float_lt0 (snd z))) l
  end.

(* ================================================================== *)
(** * The random stream *)
(* ================================================================== *)

(** A [numpy.random.Generator]: the sequence of 64-bit words its bit
    generator produces, and how many of them have been consumed.  Every
    draw reads the next words and advances the position; nothing reseeds
    or rewinds it. *)
Record Generator : Type := mk_Generator {
  words : nat -> Z;
  pos : nat
}.

Definition next_word (g : Generator) : Z * Generator :=
  (words g (pos g), mk_Generator (words g) (S (pos g))).

Fixpoint next_words (n : nat) (g : Generator) : list Z * Generator :=
  match n with
  | O => ([], g)
  | S k =>
      let (w, g1) := next_word g in
      let (ws, g2) := next_words k g1 in
      (w :: ws, g2)
  end.

(** [rng.random()]: a uniform double in [0, 1), the top 53 bits of a word. *)
Definition random (g : Generator) : Q * Generator :=
  let (w, g1) := next_word g in
  (Qmake (w mod 2 ^ 53) (2 ^ 53)%positive, g1).

(** Two generator states are the same stream state when they will produce
    the same words from here on. *)
Definition same_stream (g1 g2 : Generator) : Prop :=
  forall k : nat, words g1 (pos g1 + k)%nat = words g2 (pos g2 + k)%nat.

(* ================================================================== *)
(** * Python values handed to the validators *)
(* ================================================================== *)

#[warnings="-register-all"]
Inductive pyobj : Type :=
| PyNone
| PyBool (b : bool)
| PyInt (z : Z)
| PyFloat (x : float64)
| PyStr (s : string)
| PyArray (a : ndarray)
| PyGenerator (g : Generator)
| PyList (l : list pyobj).

(** The arrays of a list when every element [isinstance(_, np.ndarray)]. *)
Fixpoint as_arrays (l : list pyobj) : option (list ndarray) :=
  match l with
  | [] => Some []
  | PyArray a :: t =>
      match as_arrays t with
      | Some r => Some (a :: r)
      | None => None
      end
  | _ :: _ => None
  end.

(* ================================================================== *)
(** * ts_bs/utils/validate.py *)
(* ================================================================== *)

(** [validate_weights(weights)]: five checks in the order of the source. *)
Definition validate_weights (weights : ndarray) : result unit :=
  if negb (all_isfinite weights) then
    raise (ValueError "The provided callable function or array resulted in non-finite values. Please check your inputs.")
  else if any_lt0 weights then
    raise (ValueError "The provided callable function resulted in negative values. Please check your function.")
  else if any_iscomplex weights then
    raise (ValueError "The provided callable function resulted in complex values. Please check your function.")
  else if all_eq0 weights then
    raise (ValueError "The provided callable function resulted in all zero values. Please check your function.")
  else if ((ndim weights =? 2)%nat && negb (shape_at weights 1 =? 1)%nat)
          || (2 <? ndim weights)%nat then
    raise (ValueError "The provided callable function resulted in a 2D array with more than one column. Please check your function.")
  else ok tt.

(** [validate_block_indices(block_indices, input_length)]. *)
Definition validate_block_indices (block_indices : pyobj) (input_length : Z)
  : result unit :=
  match block_indices with
  | PyList l =>
      if (List.length l =? 0)%nat then
        raise (ValueError "Input 'block_indices' must not be empty.")
      else
        match as_arrays l with
        | None =>
            raise (TypeError "Input 'block_indices' must be a list of NumPy arrays.")
        | Some bs =>
            if negb (forallb (fun block => (ndim block =? 1)%nat
                                           && is_integer_dtype block) bs) then
              raise (ValueError "Input 'block_indices' must be a list of 1D NumPy arrays with integer values.")
            else if negb (forallb (fun block => (0 <? size block)%nat) bs) then
              raise (ValueError "Input 'block_indices' must be a list of 1D NumPy arrays with at least one index.")
            else if negb (forallb (fun block => all_ltZ block input_length) bs) then
              raise (ValueError "Input 'block_indices' must be a list of 1D NumPy arrays with indices within the range of X.")
            else ok tt
        end
  | _ => raise (TypeError "Input 'block_indices' must be a list.")
  end.

(** [validate_blocks(blocks)], for the data blocks (2-D arrays). *)
Definition validate_blocks (blocks : pyobj) : result unit :=
  match blocks with
  | PyList l =>
      if (List.length l =? 0)%nat then
        raise (ValueError "Input 'blocks' must not be empty.")
      else
        match as_arrays l with
        | None => raise (TypeError "Input 'blocks' must be a list of NumPy arrays.")
        | Some bs =>
            if negb (forallb (fun block => (ndim block =? 2)%nat) bs) then
              raise (ValueError "Input 'blocks' must be a list of 2D NumPy arrays.")
            else if negb (forallb (fun block => (0 <? shape_at block 0)%nat) bs) then
              raise (ValueError "Input 'blocks' must be a list of 2D NumPy arrays with at least one element.")
            else if negb (forallb (fun block => (0 <? shape_at block 1)%nat) bs) then
              raise (ValueError "Input 'blocks' must be a list of 2D NumPy arrays with at least one feature.")
            else if negb (forallb (fun block =>
                            (shape_at block 1
                             =? match bs with
                                | b0 :: _ => shape_at b0 1
                                | [] => 0
                                end)%nat) bs) then
              raise (ValueError "Input 'blocks' must be a list of 2D NumPy arrays with the same number of features.")
            else if negb (forallb all_isfinite bs) then
              raise (ValueError "Input 'blocks' must be a list of 2D NumPy arrays with finite values.")
            else ok tt
        end
  | _ => raise (TypeError "Input 'blocks' must be a list.")
  end.

(** ** The specification's wording of weight validation

    Section 4.3 and 7: a weight array is rejected when it contains a
    non-finite value, a negative value, a complex value, when all its values
    are zero, or when it is 2-D with more than one column. *)

Definition is_nonfinite_value (z : float64 * float64) : bool :=
  negb (float_isfinite (fst z)) || negb (float_isfinite (snd z)).

(** A complex value: one with a non-zero imaginary part. *)
Definition is_complex_value (z : float64 * float64) : bool :=
  negb (float_eq0 (snd z)).

(** A negative value: a real number below zero. *)
Definition is_negative_value (z : float64 * float64) : bool :=
  float_lt0 (fst z) && float_eq0 (snd z).

Definition is_zero_value (z : float64 * float64) : bool :=
  float_eq0 (fst z) && float_eq0 (snd z).

(** The elements of an array as complex numbers. *)
Definition values (a : ndarray) : list (float64 * float64) :=
  match data a with
  | IntBuf l => map (fun z => (Finite (inject_Z z), Finite 0%Q)) l
  | FloatBuf l => map (fun x => (x, Finite 0%Q)) l
  | ComplexBuf l => l
  end.

Definition spec_rejects_weights (w : ndarray) : bool :=
  existsb is_nonfinite_value (values w)
  || existsb is_negative_value (values w)
  || existsb is_complex_value (values w)
  || forallb is_zero_value (values w)
  || ((ndim w =? 2)%nat && (1 <? shape_at w 1)%nat).

(* ================================================================== *)
(** * LengthSampler (specification, section 4.1) *)
(* ================================================================== *)

(** The distribution descriptor of section 3. *)
Inductive distribution : Type :=
| DistNone
| Geometric
| Exponential
| Gamma
| Beta
| Lognormal
| Weibull
| Pareto
| Poisson
| Uniform.

(** What the specification leaves to the numeric libraries: the bit
    generator behind [np.random.default_rng(seed)], the seed an unseeded
    [default_rng()] takes from the operating system, and for each
    distribution family the number of stream words one draw consumes and
    the rounded raw draw computed from them for a target average. *)
Class Numerics : Type := {
  bit_generator : Z -> nat -> Z;
  os_entropy : Z;
  entropy_words : distribution -> nat;
  raw_length : distribution -> Z -> list Z -> Z
}.

(** Modelled from the spec: [BlockLengthSampler] (utils/block_length_sampler.py)
    is not among the sources.  Section 4.1: the name selects one of the
    enumerated families, an unknown name is a ConfigurationError at
    construction time. *)
Definition parse_distribution (name : option string) : result distribution :=
  match name with
  | None => ok DistNone
  | Some s =>
      if String.eqb s "none" then ok DistNone
      else if String.eqb s "geometric" then ok Geometric
      else if String.eqb s "exponential" then ok Exponential
      else if String.eqb s "gamma" then ok Gamma
      else if String.eqb s "beta" then ok Beta
      else if String.eqb s "lognormal" then ok Lognormal
      else if String.eqb s "weibull" then ok Weibull
      else if String.eqb s "pareto" then ok Pareto
      else if String.eqb s "poisson" then ok Poisson
      else if String.eqb s "uniform" then ok Uniform
      else raise ConfigurationError
  end.

Record BlockLengthSampler : Type := mk_BlockLengthSampler {
  avg_block_length : Z;
  sampler_distribution : distribution
}.

(** Modelled from the spec: the constructor of [BlockLengthSampler]; it
    keeps the average and resolves the distribution name. *)
Definition BlockLengthSampler_init (avg : Z) (name : option string)
  : result BlockLengthSampler :=
  match parse_distribution name with
  | inl e => raise e
  | inr d => ok (mk_BlockLengthSampler avg d)
  end.

Section LengthSampler.
Context `{Numerics}.

(** Modelled from the spec: [sample_length] of section 4.1.  The fixed
    family returns the (integer) average and reads nothing from the
    stream; every other family consumes its fixed number of words and
    rounds the raw draw.  The result is floored at 1, or at the minimum
    block length if that is larger, for every family: that is the contract
    [integer >= 1] and the output column of section 6. *)
Definition sample_length (s : BlockLengthSampler) (min_block_length : Z)
           (g : Generator) : Z * Generator :=
  match sampler_distribution s with
  | DistNone =>
      (Z.max (Z.max 1 min_block_length) (avg_block_length s), g)
  | d =>
      let (ws, g1) := next_words (entropy_words d) g in
      (Z.max (Z.max 1 min_block_length)
             (raw_length d (avg_block_length s) ws), g1)
  end.
End LengthSampler.

(* ================================================================== *)
(** * BlockGenerator (specification, section 4.2) *)
(* ================================================================== *)

(** A block: an index array. *)
Definition block : Type := list Z.

(** [start, start + 1, ..., start + len - 1]. *)
Definition arange (start : Z) (len : nat) : block :=
  map (fun i => start + Z.of_nat i) (seq 0 len).

(** The block of [len] indices from [start]; under wrap-around the indices
    are taken modulo the input length. *)
Definition block_at (wrap : bool) (n start len : Z) : block :=
  if wrap then map (fun i => i mod n) (arange start (Z.to_nat len))
  else arange start (Z.to_nat len).

(** Extend the last emitted block by the indices [extra]. *)
Fixpoint extend_last (blocks : list block) (extra : block) : list block :=
  match blocks with
  | [] => [extra]
  | [b] => [b ++ extra]
  | b :: t => b :: extend_last t extra
  end.

Record BlockGenerator : Type := mk_BlockGenerator {
  block_length_sampler : BlockLengthSampler;
  input_length : Z;
  wrap_around_flag : bool;
  overlap_length : Z;
  min_block_length : Z
}.

(** Modelled from the spec: the constructor of [BlockGenerator]
    (src/block_generator.py), which is not among the sources.  Overlap
    length and minimum block length default to 1; a non-positive input
    length, a minimum block length above it or an average block length
    above it is a ConfigurationError, raised at setup. *)
Definition BlockGenerator_init (sampler : BlockLengthSampler) (n : Z)
           (wrap_around_flag : bool) (overlap_length min_block_length : option Z)
  : result BlockGenerator :=
  let ol := match overlap_length with Some v => v | None => 1 end in
  let ml := match min_block_length with Some v => v | None => 1 end in
  if n <=? 0 then raise ConfigurationError
  else if n <? ml then raise ConfigurationError
  else if n <? avg_block_length sampler then raise ConfigurationError
  else ok (mk_BlockGenerator sampler n wrap_around_flag ol ml).

Section BlockGenerator.
Context `{Numerics}.

(** Modelled from the spec: the loop without overlap.  A cursor starts at
    0; each turn draws a length, clips it to the remaining span unless
    wrap-around is enabled, emits the block and advances the cursor by the
    length, until the cursor reaches the input length.  A remaining final
    segment shorter than the minimum block length is merged into the
    previous block.  Each turn advances the cursor by at least 1, so the
    input length bounds the number of turns. *)
Fixpoint non_overlapping_loop (fuel : nat) (bg : BlockGenerator)
         (cursor : Z) (emitted : list block) (g : Generator)
  : list block * Generator :=
  match fuel with
  | O => (emitted, g)
  | S fuel' =>
      let n := input_length bg in
      if n <=? cursor then (emitted, g)
      else if negb (wrap_around_flag bg) && (n - cursor <? min_block_length bg)
              && negb (Nat.eqb (List.length emitted) 0) then
        (extend_last emitted (arange cursor (Z.to_nat (n - cursor))), g)
      else
        let (drawn, g1) :=
          sample_length (block_length_sampler bg) (min_block_length bg) g in
        let len := if wrap_around_flag bg then drawn
                   else Z.min drawn (n - cursor) in
        non_overlapping_loop fuel' bg (cursor + len)
          (emitted ++ [block_at (wrap_around_flag bg) n cursor len]) g1
  end.

(** Modelled from the spec: the loop with overlap.  After a block starting
    at [start] the next one starts at [start + overlap_length]; the loop
    ends with the block that covers index [n - 1], truncated at the end of
    the range unless wrap-around is enabled. *)
Fixpoint overlapping_loop (fuel : nat) (bg : BlockGenerator)
         (start : Z) (emitted : list block) (g : Generator)
  : list block * Generator :=
  match fuel with
  | O => (emitted, g)
  | S fuel' =>
      let n := input_length bg in
      let (drawn, g1) :=
        sample_length (block_length_sampler bg) (min_block_length bg) g in
      let len := if wrap_around_flag bg then drawn
                 else Z.min drawn (n - start) in
      let emitted' := emitted ++ [block_at (wrap_around_flag bg) n start len] in
      if n <=? start + len then (emitted', g1)
      else overlapping_loop fuel' bg (start + overlap_length bg) emitted' g1
  end.

(** Modelled from the spec: [generate_blocks(overlap_flag)]. *)
Definition generate_blocks (bg : BlockGenerator) (overlap_flag : bool)
           (g : Generator) : list block * Generator :=
  let fuel := Z.to_nat (input_length bg) in
  if overlap_flag then overlapping_loop fuel bg 0 [] g
  else non_overlapping_loop fuel bg 0 [] g.
End BlockGenerator.

(* ================================================================== *)
(** * BlockResampler (specification, section 4.3) *)
(* ================================================================== *)

(** A 2-D float array, as its rows. *)
Definition matrix : Type := list (list Q).

(** [a[i]] for an integer [i]: negative indices count from the end, an
    index outside [-len, len) raises. *)
Definition np_index {A : Type} (a : list A) (i : Z) : result A :=
  let n := Z.of_nat (List.length a) in
  let j := if i <? 0 then i + n else i in
  if (0 <=? j) && (j <? n) then
    match nth_error a (Z.to_nat j) with
    | Some x => ok x
    | None => raise IndexError
    end
  else raise IndexError.

(** [a[idx]] for an index array [idx]. *)
Fixpoint np_take {A : Type} (a : list A) (idx : list Z) : result (list A) :=
  match idx with
  | [] => ok []
  | i :: t =>
      match np_index a i with
      | inl e => raise e
      | inr x =>
          match np_take a t with
          | inl e => raise e
          | inr r => ok (x :: r)
          end
      end
  end.

(** Apply a fallible function to every element, stopping at the first
    failure. *)
Fixpoint traverse {A B : Type} (f : A -> result B) (l : list A)
  : result (list B) :=
  match l with
  | [] => ok []
  | x :: t =>
      match f x with
      | inl e => raise e
      | inr y =>
          match traverse f t with
          | inl e => raise e
          | inr r => ok (y :: r)
          end
      end
  end.

Definition Qsum (l : list Q) : Q := fold_right Qplus 0%Q l.

(** A weight source: an array, or a callable evaluated on a length. *)
Inductive weight_source : Type :=
| WeightArray (a : ndarray)
| WeightCallable (f : Z -> ndarray).

(** The real numbers a validated weight array holds. *)
Definition real_value (z : float64 * float64) : Q :=
  match fst z with Finite q => q | _ => 0%Q end.

Definition real_values (a : ndarray) : list Q := map real_value (values a).

(** A block as the 1-D integer array handed to the validator. *)
Definition block_array (b : block) : pyobj :=
  PyArray (mk_ndarray [List.length b] (IntBuf b)).

(** Modelled from the spec: step 1 of section 4.3.  The per-position
    weights are evaluated once and validated; a block's weight is the sum of
    the weights at its indices; the block weights are normalised to sum to
    1.  Without a weight source the distribution over blocks is uniform.
    A failed validation, a position without a weight or block weights that
    cannot be normalised are a ValidationError. *)
Definition prepare_block_weights (src : option weight_source) (n : Z)
           (blocks : list block) : result (list Q) :=
  match src with
  | None =>
      ok (map (fun _ => (1 / inject_Z (Z.of_nat (List.length blocks)))%Q) blocks)
  | Some s =>
      let w := match s with
               | WeightArray a => a
               | WeightCallable f => f n
               end in
      match validate_weights w with
      | inl _ => raise ValidationError
      | inr _ =>
          match traverse (fun b => match np_take (real_values w) b with
                                   | inl _ => raise ValidationError
                                   | inr ws => ok (Qsum ws)
                                   end) blocks with
          | inl e => raise e
          | inr sums =>
              if Qeq_bool (Qsum sums) 0 then raise ValidationError
              else ok (map (fun s => (s / Qsum sums)%Q) sums)
          end
      end
  end.

(** The floor of the tapering weights. *)
Definition taper_floor : Q := (1 # 10)%Q.

Definition clip_taper (x : Q) : Q :=
  if Qle_bool taper_floor x then x else taper_floor.

(** Modelled from the spec: step 2 of section 4.3.  The window is evaluated
    over the block's length, validated and clipped to the floor 0.1; without
    a tapering source the multiplier is all ones. *)
Definition prepare_taper (src : option weight_source) (b : block)
  : result (list Q) :=
  match src with
  | None => ok (repeat 1%Q (List.length b))
  | Some s =>
      let t := match s with
               | WeightArray a => a
               | WeightCallable f => f (Z.of_nat (List.length b))
               end in
      match validate_weights t with
      | inl _ => raise ValidationError
      | inr _ =>
          if (List.length (real_values t) =? List.length b)%nat then
            ok (map clip_taper (real_values t))
          else raise ValidationError
      end
  end.

Record BlockResampler : Type := mk_BlockResampler {
  resampler_X : matrix;
  resampler_blocks : list block;
  block_probabilities : list Q;
  block_tapers : list (list Q)
}.

(** Modelled from the spec: the constructor of [BlockResampler]
    (src/block_resampler.py), which is not among the sources.  It validates
    the blocks with [validate_block_indices], then prepares the block
    weights and the tapering weights.  No draw is made here. *)
Definition BlockResampler_init (X : matrix) (blocks : list block)
           (block_weights tapered_weights : option weight_source)
  : result BlockResampler :=
  match validate_block_indices (PyList (map block_array blocks))
                               (Z.of_nat (List.length X)) with
  | inl _ => raise ValidationError
  | inr _ =>
      match prepare_block_weights block_weights
                                  (Z.of_nat (List.length X)) blocks with
      | inl e => raise e
      | inr p =>
          match traverse (prepare_taper tapered_weights) blocks with
          | inl e => raise e
          | inr t => ok (mk_BlockResampler X blocks p t)
          end
      end
  end.

(** Running sums: [cumsum_from a [x; y; ...] = [a + x; a + x + y; ...]]. *)
Fixpoint cumsum_from (acc : Q) (p : list Q) : list Q :=
  match p with
  | [] => []
  | x :: t => (acc + x)%Q :: cumsum_from (acc + x)%Q t
  end.

(** The first position of [cdf] whose entry exceeds [u]. *)
Fixpoint searchsorted_right (cdf : list Q) (u : Q) : nat :=
  match cdf with
  | [] => O
  | c :: t => if Qltb u c then O else S (searchsorted_right t u)
  end.

(** Modelled from the spec: one draw from the categorical distribution [p]
    over the blocks (step 3 of section 4.3), as [Generator.choice] makes
    it: a uniform variate from the stream, looked up in the cumulative
    distribution. *)
Definition choice (p : list Q) (g : Generator) : nat * Generator :=
  let (u, g1) := random g in
  (searchsorted_right (cumsum_from 0 p) u, g1).

(** The rows of a block, each multiplied by its tapering weight. *)
Definition apply_taper (tw : list Q) (rows : matrix) : matrix :=
  map (fun wr => map (Qmult (fst wr)) (snd wr)) (combine tw rows).

(** Modelled from the spec: step 3 of section 4.3.  Blocks are drawn with
    replacement; each drawn block contributes its index array and its
    tapered rows; the loop stops once the cumulative length reaches the
    number of rows, truncating the final drawn block to fit.  Every block
    has at least one index, so the number of rows bounds the turns. *)
Fixpoint resample_loop (fuel : nat) (r : BlockResampler) (total : nat)
         (indices : list block) (datas : list matrix) (g : Generator)
  : result (list block * list matrix) * Generator :=
  match fuel with
  | O => (ok (indices, datas), g)
  | S fuel' =>
      let n := List.length (resampler_X r) in
      if (n <=? total)%nat then (ok (indices, datas), g)
      else
        let (i, g1) := choice (block_probabilities r) g in
        match nth_error (resampler_blocks r) i, nth_error (block_tapers r) i with
        | Some b, Some tw =>
            match np_take (resampler_X r) b with
            | inl e => (raise e, g1)
            | inr rows =>
                let d := apply_taper tw rows in
                if (n <=? total + List.length b)%nat then
                  (ok (indices ++ [firstn (n - total) b],
                       datas ++ [firstn (n - total) d]), g1)
                else
                  resample_loop fuel' r (total + List.length b)%nat
                                (indices ++ [b]) (datas ++ [d]) g1
            end
        | _, _ => (raise IndexError, g1)
        end
  end.

(** Modelled from the spec: [resample_block_indices_and_data()], the loop
    above from an empty accumulation. *)
Definition resample_block_indices_and_data (r : BlockResampler) (g : Generator)
  : result (list block * list matrix) * Generator :=
  resample_loop (List.length (resampler_X r)) r 0 [] [] g.

(* ================================================================== *)
(** * src/bootstrap.py: what the classes share *)
(* ================================================================== *)

(** What [split] accepts for [X]: a 1-D or a 2-D array. *)
Inductive array_like : Type :=
| Array1 (x : list Q)
| Array2 (x : matrix).

(** [X = np.asarray(X)], and [np.expand_dims(X, 1)] when it has fewer than
    two dimensions. *)
Definition as_2d (X : array_like) : matrix :=
  match X with
  | Array1 x => map (fun v => [v]) x
  | Array2 m => m
  end.

(** What the generators yield: the data, or the indices with the data. *)
Inductive sample : Type :=
| Data (data : matrix)
| IndicesAndData (indices : list block) (data : matrix).


(** [np.concatenate(arrays, axis=0)]; it refuses an empty list. *)
Definition np_concatenate (arrays : list matrix) : result matrix :=
  match arrays with
  | [] => raise (ValueError "need at least one array to concatenate")
  | _ => ok (List.concat arrays)
  end.

(** [time_series_split] (utils/odds_and_ends.py) is called by [split] but
    is not among the sources, and the specification does not describe it.
    It is a parameter: a function from an array and a test ratio to a
    training and a test array, of which nothing is assumed. *)
Class Utilities : Type := {
  time_series_split : matrix -> Q -> matrix * matrix
}.

(** The value of an [Integral]; [bool] is one. *)
Definition integral_value (v : pyobj) : option Z :=
  match v with
  | PyInt z => Some z
  | PyBool b => Some (if b then 1 else 0)
  | _ => None
  end.

(** Whether consecutive entries of a list differ:
    [np.any(np.diff(ls) != 0)]. *)
Fixpoint any_diff (ls : list nat) : bool :=
  match ls with
  | a :: ((b :: _) as t) => negb (a =? b)%nat || any_diff t
  | _ => false
  end.

(** The outcome of running a generator to its end: the samples it yielded,
    in order, the exception that ended it (if one did), and the instance
    afterwards. *)
Record iteration (Self : Type) : Type := mk_iteration {
  yielded : list sample;
  raised : option exn;
  final : Self
}.
Arguments mk_iteration {Self} _ _ _.
Arguments yielded {Self} _.
Arguments raised {Self} _.
Arguments final {Self} _.

Module BaseTimeSeriesBootstrap.

(** The [n_bootstraps] setter: the value it stores, or the exception. *)
Definition n_bootstraps_setter (value : pyobj) : result Z :=
  match integral_value value with
  | None =>
      raise (TypeError "The number of bootstrap iterations must be an integer.")
  | Some v =>
      if negb (0 <? v) then
        raise (ValueError "The number of bootstrap iterations must be greater than 0.")
      else ok v
  end.

Section Rng.
Context `{Numerics}.

Definition default_rng (seed : Z) : Generator :=
  mk_Generator (bit_generator seed) 0.

(** Modelled from the spec: [check_generator] (utils/odds_and_ends.py) is
    not among the sources.  A generator is kept as it is, a seed makes a
    new generator. *)
Definition check_generator (value : pyobj) : result Generator :=
  match value with
  | PyGenerator g => ok g
  | _ =>
      match integral_value value with
      | Some seed => ok (default_rng seed)
      | None => raise (TypeError "rng must be a Generator or an integer.")
      end
  end.

(** The [rng] setter.  For [None] it calls [np.random.default_rng()], which
    seeds the new generator from the operating system: [os_entropy] is the
    entropy of that one call.  Python takes fresh entropy at every such
    call, so nothing below compares two instances that were both made
    without a seed. *)
Definition rng_setter (value : pyobj) : result Generator :=
  match value with
  | PyNone => check_generator (PyGenerator (default_rng os_entropy))
  | PyGenerator _ => check_generator value
  | _ =>
      match integral_value value with
      | Some _ => check_generator value
      | None =>
          raise (TypeError "The random number generator must be an instance of the numpy.random.Generator class, or an integer.")
      end
  end.
End Rng.

(** [BaseTimeSeriesBootstrap._check_input]. *)
Definition _check_input (X : matrix) : result unit :=
  if any_diff (map (@List.length Q) X) then
    raise (ValueError "All time series must be of the same length.")
  else ok tt.

(** What a bootstrap class provides to the methods of the base class: its
    [n_bootstraps], its (possibly overridden) [_check_input] and the
    abstract [_generate_samples_single_bootstrap], which may change the
    instance. *)
Class Methods (Self : Type) : Type := {
  n_bootstraps : Self -> Z;
  check_input : Self -> matrix -> result unit;
  _generate_samples_single_bootstrap :
    Self -> matrix -> option matrix ->
    result (list block * list matrix) * Self
}.

Section Generators.
Context {Self : Type} `{Methods Self} `{Utilities}.

(** The body of [_generate_samples], for the remaining [k] turns of
    [for _ in range(self.n_bootstraps)]. *)
Fixpoint generate_samples_loop (k : nat) (self : Self) (X : matrix)
         (return_indices : bool) (exog : option matrix) : iteration Self :=
  match k with
  | O => mk_iteration [] None self
  | S k' =>
      match _generate_samples_single_bootstrap self X exog with
      | (inl e, self1) => mk_iteration [] (Some e) self1
      | (inr (indices, data), self1) =>
          match np_concatenate data with
          | inl e => mk_iteration [] (Some e) self1
          | inr d =>
              let rest := generate_samples_loop k' self1 X return_indices exog in
              mk_iteration
                ((if return_indices then IndicesAndData indices d else Data d)
                   :: yielded rest)
                (raised rest) (final rest)
          end
      end
  end.

Definition _generate_samples (self : Self) (X : matrix)
           (return_indices : bool) (exog : option matrix) : iteration Self :=
  generate_samples_loop (Z.to_nat (n_bootstraps self)) self X
                        return_indices exog.

(** [split]: check the input, keep the training split, bootstrap it. *)
Definition split (self : Self) (X : array_like) (return_indices : bool)
           (exog : option matrix) : iteration Self :=
  let X := as_2d X in
  match check_input self X with
  | inl e => mk_iteration [] (Some e) self
  | inr _ =>
      let (X_train, X_test) := time_series_split X (1 # 5) in
      match exog with
      | Some ex =>
          match check_input self ex with
          | inl e => mk_iteration [] (Some e) self
          | inr _ =>
              let (exog_train, exog_test) := time_series_split ex (1 # 5) in
              _generate_samples self X_train return_indices (Some exog_train)
          end
      | None => _generate_samples self X_train return_indices None
      end
  end.

Definition get_n_splits (self : Self) : Z := n_bootstraps self.
End Generators.

End BaseTimeSeriesBootstrap.

(* ================================================================== *)
(** * src/bootstrap.py: BlockBootstrap *)
(* ================================================================== *)

Module BlockBootstrap.

(** An instance: its configuration, its generator, and the block partition
    and resampler it keeps between draws (both [None] at first). *)
Record t : Type := mk {
  n_bootstraps : Z;
  rng : Generator;
  block_length : option Z;
  block_length_distribution : option string;
  wrap_around_flag : bool;
  overlap_flag : bool;
  combine_generation_and_sampling_flag : bool;
  block_weights : option weight_source;
  tapered_weights : option weight_source;
  overlap_length : option Z;
  min_block_length : option Z;
  blocks : option (list block);
  block_resampler : option BlockResampler
}.

(** The generator is one object, which the instance, the length sampler, the
    block generator and the resampler all draw from: a draw made through any
    of them advances [rng] of the instance. *)
Definition with_rng (self : t) (g : Generator) : t :=
  mk (n_bootstraps self) g (block_length self)
     (block_length_distribution self) (wrap_around_flag self)
     (overlap_flag self) (combine_generation_and_sampling_flag self)
     (block_weights self) (tapered_weights self) (overlap_length self)
     (min_block_length self) (blocks self) (block_resampler self).

(** [self.blocks = blocks; self.block_resampler = block_resampler]. *)
Definition with_cache (self : t) (bs : list block) (br : BlockResampler) : t :=
  mk (n_bootstraps self) (rng self) (block_length self)
     (block_length_distribution self) (wrap_around_flag self)
     (overlap_flag self) (combine_generation_and_sampling_flag self)
     (block_weights self) (tapered_weights self) (overlap_length self)
     (min_block_length self) (Some bs) (Some br).

(** The [block_length] setter. *)
Definition block_length_setter (value : pyobj) : result (option Z) :=
  match value with
  | PyNone => ok None
  | _ =>
      match integral_value value with
      | Some v =>
          if v <? 1 then
            raise (ValueError "Block length needs to be None or an integer >= 1.")
          else ok (Some v)
      | None =>
          raise (ValueError "Block length needs to be None or an integer >= 1.")
      end
  end.

(** The [block_length_distribution] setter. *)
Definition block_length_distribution_setter (value : pyobj)
  : result (option string) :=
  match value with
  | PyNone => ok None
  | PyStr s => ok (Some s)
  | _ => raise (ValueError "block_length_distribution must be a string.")
  end.

(** [BlockBootstrap._check_input]. *)
Definition _check_input (self : t) (X : matrix) : result unit :=
  match BaseTimeSeriesBootstrap._check_input X with
  | inl e => raise e
  | inr _ =>
      match block_length self with
      | Some b =>
          if Z.of_nat (List.length X) <? b then
            raise (ValueError "block_length cannot be greater than the size of the input array X.")
          else ok tt
      | None => ok tt
      end
  end.

(** The average block length [_generate_blocks] hands to the length
    sampler: the configured one, or [int(np.sqrt(X.shape[0]))].  The double
    square root of a row count (below 2^52) truncates to the integer
    square root. *)
Definition effective_block_length (self : t) (X : matrix) : Z :=
  match block_length self with
  | Some b => b
  | None => Z.sqrt (Z.of_nat (List.length X))
  end.

Section Methods.
Context `{Numerics}.

(** [BlockBootstrap.__init__]: the setters run in the order of the source;
    the keyword arguments are stored as they come. *)
Definition __init__ (n_bootstraps_arg block_length_arg
                     block_length_distribution_arg : pyobj)
           (wrap_around_flag overlap combine : bool) (rng_arg : pyobj)
           (block_weights_arg tapered_weights_arg : option weight_source)
           (overlap_length_arg min_block_length_arg : option Z) : result t :=
  match BaseTimeSeriesBootstrap.n_bootstraps_setter n_bootstraps_arg with
  | inl e => raise e
  | inr n =>
  match BaseTimeSeriesBootstrap.rng_setter rng_arg with
  | inl e => raise e
  | inr g =>
  match block_length_distribution_setter block_length_distribution_arg with
  | inl e => raise e
  | inr d =>
  match block_length_setter block_length_arg with
  | inl e => raise e
  | inr b =>
      ok (mk n g b d wrap_around_flag overlap combine
             block_weights_arg tapered_weights_arg
             overlap_length_arg min_block_length_arg None None)
  end end end end.

(** [_generate_blocks]: build the length sampler and the block generator on
    the instance's generator and generate the blocks. *)
Definition _generate_blocks (self : t) (X : matrix) : result (list block) * t :=
  match BlockLengthSampler_init (effective_block_length self X)
                                (block_length_distribution self) with
  | inl e => (raise e, self)
  | inr block_length_sampler =>
      match BlockGenerator_init block_length_sampler
                                (Z.of_nat (List.length X))
                                (wrap_around_flag self)
                                (overlap_length self)
                                (min_block_length self) with
      | inl e => (raise e, self)
      | inr block_generator =>
          let (bs, g) :=
            generate_blocks block_generator (overlap_flag self) (rng self) in
          (ok bs, with_rng self g)
      end
  end.

(** The first half of [_generate_samples_single_bootstrap]: the blocks and
    the resampler of this draw, generated or taken from the instance. *)
Definition blocks_and_resampler (self : t) (X : matrix)
  : result (list block * option BlockResampler) * t :=
  match combine_generation_and_sampling_flag self, blocks self with
  | false, Some bs => (ok (bs, block_resampler self), self)
  | _, _ =>
      match _generate_blocks self X with
      | (inl e, self1) => (raise e, self1)
      | (inr bs, self1) =>
          match BlockResampler_init X bs (block_weights self1)
                                    (tapered_weights self1) with
          | inl e => (raise e, self1)
          | inr br => (ok (bs, Some br), self1)
          end
      end
  end.

(** [_generate_samples_single_bootstrap]. *)
Definition _generate_samples_single_bootstrap (self : t) (X : matrix)
           (exog : option matrix) : result (list block * list matrix) * t :=
  match blocks_and_resampler self X with
  | (inl e, self1) => (raise e, self1)
  | (inr (bs, None), self1) => (raise AttributeError, self1)
  | (inr (bs, Some br), self1) =>
      let (r, g) := resample_block_indices_and_data br (rng self1) in
      let self2 := with_rng self1 g in
      match r with
      | inl e => (raise e, self2)
      | inr (block_indices, block_data) =>
          (ok (block_indices, block_data),
           if combine_generation_and_sampling_flag self2 then self2
           else with_cache self2 bs br)
      end
  end.

#[global] Instance methods : BaseTimeSeriesBootstrap.Methods t := {
  BaseTimeSeriesBootstrap.n_bootstraps := n_bootstraps;
  BaseTimeSeriesBootstrap.check_input := _check_input;
  BaseTimeSeriesBootstrap._generate_samples_single_bootstrap :=
    _generate_samples_single_bootstrap
}.
End Methods.

End BlockBootstrap.

(* ================================================================== *)
(** * Concrete instances, used to run the definitions *)
(* ================================================================== *)

(** A small linear congruential bit generator, one word per draw, and block
    lengths uniform on [1, 2L - 1]. *)
Definition lcg_word (seed : Z) (k : nat) : Z :=
  ((seed + 1) * 6364136223846793005 * (Z.of_nat k + 1) + 1442695040888963407)
    mod 2 ^ 64.

Definition example_numerics : Numerics := {|
  bit_generator := lcg_word;
  os_entropy := 20231104;
  entropy_words := fun _ => 1%nat;
  raw_length := fun _ avg ws => 1 + (hd 0 ws) mod (2 * avg - 1)
|}.

(** A [time_series_split] that does what C9 says of it: the training split
    is the first [floor(n * (1 - test_ratio))] rows, the test split the
    rest. *)
Definition example_utilities : Utilities := {|
  time_series_split := fun X test_ratio =>
    let k := Z.to_nat (Qfloor (inject_Z (Z.of_nat (List.length X))
                               * (1 - test_ratio))%Q) in
    (firstn k X, skipn k X)
|}.

(** The weight array [[-1, 2, 3, ...]]. *)
Definition negative_weights (rest : list Z) : ndarray :=
  mk_ndarray [(3 + List.length rest)%nat] (IntBuf (-1 :: 2 :: 3 :: rest)).

(** A 3-D array holding the single weight 1.0. *)
Definition cube_weights : ndarray :=
  mk_ndarray [1%nat; 1%nat; 1%nat] (FloatBuf [Finite 1]).

(** The checks of [validate_weights] as one boolean. *)
Definition weights_rejected (w : ndarray) : bool :=
  negb (all_isfinite w) || any_lt0 w || any_iscomplex w || all_eq0 w
  || (((ndim w =? 2)%nat && negb (shape_at w 1 =? 1)%nat)
      || (2 <? ndim w)%nat).

(** A block list whose only index, -6, lies outside an input of length 5. *)
Definition stray_blocks : pyobj := PyList [block_array [-6]].

(** The checks of [validate_block_indices] on a list of arrays. *)
Definition block_indices_accepted (bs : list ndarray) (n : Z) : bool :=
  negb (List.length bs =? 0)%nat
  && forallb (fun b => (ndim b =? 1)%nat && is_integer_dtype b) bs
  && forallb (fun b => (0 <? size b)%nat) bs
  && forallb (fun b => all_ltZ b n) bs.

(** The specification's default average block length, [round(sqrt(N))]:
    the integer nearest to the square root ([sqrt(N)] is never half-way
    between two integers). *)
Definition round_sqrt (n : Z) : Z :=
  let s := Z.sqrt n in
  if s * s + s <? n then s + 1 else s.

(** A non-overlapping block bootstrap with default settings and three
    draws, on the generator seeded with 7. *)
Definition example_bootstrap (block_length : option Z) (combine : bool)
  : BlockBootstrap.t :=
  BlockBootstrap.mk 3 (@BaseTimeSeriesBootstrap.default_rng example_numerics 7)
    block_length None false false combine None None None None None None.

(** A series of [n] observations [1, 2, ..., n], one column. *)
Definition example_series (n : nat) : matrix :=
  map (fun i => [inject_Z (Z.of_nat i)]) (seq 1 n).

(** No index belongs to two blocks of the list. *)
Definition pairwise_disjoint (blocks : list block) : Prop :=
  forall (i j : nat) (bi bj : block),
    i <> j ->
    nth_error blocks i = Some bi -> nth_error blocks j = Some bj ->
    forall x, In x bi -> ~ In x bj.

(** The union of the blocks is exactly [{0, ..., n - 1}]. *)
Definition covers_exactly (blocks : list block) (n : Z) : Prop :=
  forall x, (exists b, In b blocks /\ In x b) <-> 0 <= x < n.

(** A fixed-length sampler with average block length 3. *)
Definition example_sampler : BlockLengthSampler :=
  mk_BlockLengthSampler 3 DistNone.

(** Two outcomes of a draw agree: the same value, and generators left in
    the same stream state. *)
Definition agree {A : Type} (r1 r2 : A * Generator) : Prop :=
  fst r1 = fst r2 /\ same_stream (snd r1) (snd r2).

(** Two instances with the same configuration and the same kept partition
    and resampler, whose generators are in the same stream state. *)
Definition same_instance (s1 s2 : BlockBootstrap.t) : Prop :=
  BlockBootstrap.with_rng s1 (BlockBootstrap.rng s2) = s2
  /\ same_stream (BlockBootstrap.rng s1) (BlockBootstrap.rng s2).

(** Two runs of a generator agree: the same samples, the same end, and
    instances that are again the same. *)
Definition same_iteration (r1 r2 : iteration BlockBootstrap.t) : Prop :=
  yielded r1 = yielded r2
  /\ raised r1 = raised r2
  /\ same_instance (final r1) (final r2).

(** The generator seeded with 7 after five words have been read from it,
    and a generator that starts with the sixth word of that stream. *)
Definition advanced_generator : Generator := mk_Generator (lcg_word 7) 5.

Definition shifted_generator : Generator :=
  mk_Generator (fun k => lcg_word 7 (k + 5)) 0.

(** The example bootstrap with block length 3, drawing from [g]. *)
Definition example_bootstrap_on (g : Generator) : BlockBootstrap.t :=
  BlockBootstrap.with_rng (example_bootstrap (Some 3) false) g.

(** A partition of eight positions and a resampler for it, as an instance
    keeps them after a first draw on eight observations. *)
Definition example_blocks : list block := [[0; 1; 2]; [3; 4; 5]; [6; 7]].

Definition example_resampler : BlockResampler :=
  mk_BlockResampler (example_series 8) example_blocks
                    [(1 # 3)%Q; (1 # 3)%Q; (1 # 3)%Q]
                    [[1%Q; 1%Q; 1%Q]; [1%Q; 1%Q; 1%Q]; [1%Q; 1%Q]].

(** The example bootstrap after it has kept that partition. *)
Definition example_bootstrap_kept : BlockBootstrap.t :=
  BlockBootstrap.with_cache (example_bootstrap (Some 3) false)
                            example_blocks example_resampler.

(** The array a weight source gives for a length. *)
Definition weights_of (s : weight_source) (n : Z) : ndarray :=
  match s with
  | WeightArray a => a
  | WeightCallable f => f n
  end.

(** A valid configuration of the resampler, as in C2: a source array [X]
    with [M] columns in each of its rows; a non-empty block partition, each
    block non-empty with indices in [0, N), every position covered; valid
    block-selection weights, one per position, if any; valid tapering
    weights, one per index of each block, if any. *)
Definition valid_configuration (X : matrix) (M : nat) (blocks : list block)
           (block_weights tapered_weights : option weight_source) : Prop :=
  let n := Z.of_nat (List.length X) in
  Forall (fun row => List.length row = M) X
  /\ blocks <> []
  /\ Forall (fun b => b <> [] /\ Forall (fun i => 0 <= i < n) b) blocks
  /\ (forall i, 0 <= i < n -> exists b, In b blocks /\ In i b)
  /\ match block_weights with
     | None => True
     | Some s =>
         validate_weights (weights_of s n) = ok tt
         /\ List.length (real_values (weights_of s n)) = List.length X
     end
  /\ match tapered_weights with
     | None => True
     | Some s =>
         Forall (fun b =>
                   let t := weights_of s (Z.of_nat (List.length b)) in
                   validate_weights t = ok tt
                   /\ List.length (real_values t) = List.length b) blocks
     end.

(** What the constructor establishes of a resampler: non-empty blocks, and
    for each block a tapering vector of its length. *)
Definition well_formed_resampler (r : BlockResampler) : Prop :=
  Forall (fun b => b <> []) (resampler_blocks r)
  /\ Forall2 (fun (b : block) (tw : list Q) => List.length tw = List.length b)
             (resampler_blocks r) (block_tapers r).

(** A resampler whose draws cannot fail: well formed, with indices inside
    the source array and a probability for each block, summing to 1. *)
Definition ready_resampler (r : BlockResampler) : Prop :=
  well_formed_resampler r
  /\ Forall (Forall (fun i => 0 <= i < Z.of_nat (List.length (resampler_X r))))
            (resampler_blocks r)
  /\ resampler_blocks r <> []
  /\ List.length (block_probabilities r) = List.length (resampler_blocks r)
  /\ (Qsum (block_probabilities r) == 1)%Q.

(** Position weights for eight observations, heavier towards the end, and a
    tapering window that is 0 at the start of a block and 1 after it. *)
Definition example_weights : weight_source :=
  WeightArray (mk_ndarray [8%nat] (IntBuf [1; 1; 1; 1; 2; 2; 3; 3])).

Definition example_window : weight_source :=
  WeightCallable (fun n =>
    mk_ndarray [Z.to_nat n]
      (FloatBuf (map (fun i => if (i =? 0)%nat then Finite 0 else Finite 1)
                     (seq 0 (Z.to_nat n))))).



(** Reduce the field accesses of an instance that is given by its fields. *)
Ltac instance_fields :=
  cbn [BlockBootstrap.with_rng BlockBootstrap.with_cache
       BlockBootstrap.n_bootstraps BlockBootstrap.rng
       BlockBootstrap.block_length BlockBootstrap.block_length_distribution
       BlockBootstrap.wrap_around_flag BlockBootstrap.overlap_flag
       BlockBootstrap.combine_generation_and_sampling_flag
       BlockBootstrap.block_weights BlockBootstrap.tapered_weights
       BlockBootstrap.overlap_length BlockBootstrap.min_block_length
       BlockBootstrap.blocks BlockBootstrap.block_resampler
       BlockBootstrap.effective_block_length fst snd] in *.

(* ================================================================== *)
(** * ts_bs/utils/validate.py: the other validators *)
(* ================================================================== *)

(** [value < min_value] when a minimum is given. *)
Definition below_min (min_value : option Z) (z : Z) : bool :=
  match min_value with
  | Some m => z <? m
  | None => false
  end.

(** [all(isinstance(x, Integral) for x in value)]. *)
Definition all_integral (l : list pyobj) : bool :=
  forallb (fun x => match integral_value x with
                    | Some _ => true
                    | None => false
                    end) l.

(** [any(x < min_value for x in value)] on a list of integers. *)
Definition any_below_min (min_value : option Z) (l : list pyobj) : bool :=
  existsb (fun x => match integral_value x with
                    | Some z => below_min min_value z
                    | None => false
                    end) l.

(** [any(value < min_value)] on an integer array. *)
Definition array_any_below_min (min_value : option Z) (a : ndarray) : bool :=
  match data a with
  | IntBuf l => existsb (below_min min_value) l
  | _ => false
  end.

(** One turn of the loop of [validate_integers]: an integer, a list of
    integers or a 1-D integer array.  The messages are the f-strings of the
    source, with their placeholders as written. *)
Definition validate_integers_value (min_value : option Z) (value : pyobj)
  : result unit :=
  match integral_value value with
  | Some z =>
      if below_min min_value z then
        raise (ValueError "All integers must be at least {min_value}. Got {value}.")
      else ok tt
  | None =>
      match value with
      | PyList l =>
          if (List.length l =? 0)%nat then
            raise (TypeError "List must not be empty. Got {value}.")
          else if negb (all_integral l) then
            raise (TypeError "All elements in the list must be integers. Got {value}.")
          else if any_below_min min_value l then
            raise (ValueError "All integers in the list must be at least {min_value}. Got {value}.")
          else ok tt
      | PyArray a =>
          if (size a =? 0)%nat then
            raise (TypeError "Array must not be empty. Got {value}.")
          else if negb (ndim a =? 1)%nat || negb (is_integer_dtype a) then
            raise (TypeError "Array must be 1D and contain only integers. Got {value}.")
          else if array_any_below_min min_value a then
            raise (ValueError "All integers in the array must be at least {min_value}. Got {value}.")
          else ok tt
      | _ =>
          raise (TypeError "Input must be an integer, a list of integers, or a 1D array of integers. Got {value}.")
      end
  end.

(** [validate_integers] on its positional values and [min_value]: the values
    in order, the first failure ends the call. *)
Fixpoint validate_integers (values : list pyobj) (min_value : option Z)
  : result unit :=
  match values with
  | [] => ok tt
  | value :: rest =>
      match validate_integers_value min_value value with
      | inl e => raise e
      | inr _ => validate_integers rest min_value
      end
  end.

(** [c.lower()] for one character: the letters A to Z. *)
Definition ascii_lower (c : Ascii.ascii) : Ascii.ascii :=
  let n := Ascii.nat_of_ascii c in
  if (65 <=? n)%nat && (n <=? 90)%nat then Ascii.ascii_of_nat (n + 32) else c.

(** [s.lower()] for a string of ASCII characters: the letters A to Z are
    lowered.  Python lowers the cased characters outside ASCII as well,
    which this does not follow: it is [s.lower()] only where [is_ascii]
    holds. *)
Fixpoint str_lower (s : string) : string :=
  match s with
  | EmptyString => EmptyString
  | String c rest => String (ascii_lower c) (str_lower rest)
  end.

(** [s.isascii()]: every character is below 128. *)
Fixpoint is_ascii (s : string) : bool :=
  match s with
  | EmptyString => true
  | String c rest => (Ascii.nat_of_ascii c <? 128)%nat && is_ascii rest
  end.

(** Whether a string has one of the letters A to Z. *)
Fixpoint has_upper (s : string) : bool :=
  match s with
  | EmptyString => false
  | String c rest =>
      ((65 <=? Ascii.nat_of_ascii c)%nat && (Ascii.nat_of_ascii c <=? 90)%nat)
      || has_upper rest
  end.

(** [name in names]. *)
Definition str_in (name : string) (names : list string) : bool :=
  existsb (String.eqb name) names.

(** [validate_literal_type(input_value, literal_type)], with
    [valid_types = get_args(literal_type)]. *)
Definition validate_literal_type (input_value : pyobj)
           (valid_types : list string) : result unit :=
  match input_value with
  | PyStr s =>
      if negb (str_in (str_lower s) valid_types) then
        raise (ValueError "Invalid input_value '{input_value}'. Expected one of {', '.join(valid_types)}.")
      else ok tt
  | _ =>
      raise (TypeError "input_value must be a string. Got {type(input_value).__name__} instead.")
  end.

(* ================================================================== *)
(** * src/bootstrap.py: the setters of the residual bootstraps *)
(* ================================================================== *)

Definition model_types : list string :=
  ["ar"; "arima"; "sarima"; "var"]%string.

(** The [model_type] setter of [BaseResidualBootstrap]: the value it
    stores. *)
Definition model_type_setter (value : pyobj) : result string :=
  match value with
  | PyStr s =>
      if negb (str_in (str_lower s) model_types) then
        raise (ValueError "model_type must be one of 'ar', 'arima', 'sarima', or 'var'.")
      else ok (str_lower s)
  | _ => raise (TypeError "model_type must be a string.")
  end.

(** The [resids_model_type] setter of [BaseSieveBootstrap]. *)
Definition resids_model_type_setter (value : pyobj) : result string :=
  match value with
  | PyStr s =>
      if negb (str_in (str_lower s)
                      ["ar"; "arima"; "sarima"; "var"]%string) then
        raise (ValueError "resids_model_type must be one of 'ar', 'arima', 'sarima', or 'var'.")
      else ok (str_lower s)
  | _ => raise (TypeError "resids_model_type must be a string.")
  end.

(** The keys of [BaseDistributionBootstrap.distribution_methods]. *)
Definition distribution_methods : list string :=
  ["poisson"; "exponential"; "normal"; "gamma"; "beta"; "lognormal";
   "weibull"; "pareto"; "geometric"; "uniform"]%string.

(** The [distribution] setter of [BaseDistributionBootstrap]. *)
Definition distribution_setter (value : pyobj) : result string :=
  match value with
  | PyStr s =>
      if negb (str_in (str_lower s) distribution_methods) then
        raise (ValueError "Invalid distribution: {value}; must be a valid distribution name in distribution_methods.")
      else ok (str_lower s)
  | _ => raise (TypeError "distribution must be a string.")
  end.

(** The Python scalars an [order] is made of. *)
Inductive py_scalar : Type :=
| SNone
| SBool (b : bool)
| SInt (z : Z)
| SFloat (x : float64)
| SStr (s : string).

(** What is assigned to [order]: a scalar ([None] among them), a list or a
    tuple of scalars. *)
Inductive order_value : Type :=
| OScalar (v : py_scalar)
| OList (l : list py_scalar)
| OTuple (l : list py_scalar).

Definition scalar_integral (v : py_scalar) : option Z :=
  match v with
  | SInt z => Some z
  | SBool b => Some (if b then 1 else 0)
  | _ => None
  end.

(** [v > 0]; [None] and strings do not compare with an integer (a
    TypeError of the interpreter). *)
Definition scalar_gt0 (v : py_scalar) : result bool :=
  match v with
  | SInt z => ok (0 <? z)
  | SBool b => ok b
  | SFloat (Finite q) => ok (Qltb 0 q)
  | SFloat PosInf => ok true
  | SFloat _ => ok false
  | SNone | SStr _ =>
      raise (TypeError "'>' not supported between instances of these types")
  end.

(** [all(v > 0 for v in value)]: it stops at the first element that is not
    above 0. *)
Fixpoint all_gt0 (l : list py_scalar) : result bool :=
  match l with
  | [] => ok true
  | v :: rest =>
      match scalar_gt0 v with
      | inl e => raise e
      | inr false => ok false
      | inr true => all_gt0 rest
      end
  end.

(** [all(isinstance(v, Integral) for v in value)]. *)
Definition all_Integral (l : list py_scalar) : bool :=
  forallb (fun v => match scalar_integral v with
                    | Some _ => true
                    | None => false
                    end) l.

(** The check of a list or tuple in the two [order] setters:
    [not all(isinstance(v, Integral) ...) and not all(v > 0 ...)]. *)
Definition order_sequence_fails (l : list py_scalar) : result bool :=
  if all_Integral l
  then ok false
  else match all_gt0 l with
       | inl e => raise e
       | inr b => ok (negb b)
       end.

(** The body shared by the [order] setter of [BaseResidualBootstrap] and the
    [resids_order] setter of [BaseSieveBootstrap], which differ in the name
    their messages start with. *)
Definition order_setter_for (name : string) (value : order_value)
  : result order_value :=
  match value with
  | OScalar SNone => ok value
  | OScalar v =>
      match scalar_integral v with
      | None => raise (TypeError (name ++ " must be an int, list, or tuple.")%string)
      | Some z =>
          if z <? 0 then
            raise (ValueError (name ++ " must be a positive integer.")%string)
          else ok value
      end
  | OList l =>
      match order_sequence_fails l with
      | inl e => raise e
      | inr true =>
          raise (TypeError (name ++ " must be a list of positive integers.")%string)
      | inr false => ok value
      end
  | OTuple l =>
      match order_sequence_fails l with
      | inl e => raise e
      | inr true =>
          raise (TypeError (name ++ " must be a tuple of positive integers.")%string)
      | inr false => ok value
      end
  end.

Definition order_setter : order_value -> result order_value :=
  order_setter_for "order".

Definition resids_order_setter : order_value -> result order_value :=
  order_setter_for "resids_order".

(* ================================================================== *)
(** * src/bootstrap.py: the classes built on BlockBootstrap *)
(* ================================================================== *)

(** The keyword arguments of a block bootstrap constructor, the defaults of
    [BlockBootstrap.__init__] filled in. *)
Record block_kwargs : Type := mk_block_kwargs {
  kw_n_bootstraps : pyobj;
  kw_block_length : pyobj;
  kw_block_length_distribution : pyobj;
  kw_wrap_around_flag : bool;
  kw_overlap_flag : bool;
  kw_combine_generation_and_sampling_flag : bool;
  kw_rng : pyobj;
  kw_block_weights : option weight_source;
  kw_tapered_weights : option weight_source;
  kw_overlap_length : option Z;
  kw_min_block_length : option Z
}.

(** The instance with another generator state, partition and resampler:
    what a draw may change. *)
Definition with_state (self : BlockBootstrap.t) (g : Generator)
           (bs : option (list block)) (br : option BlockResampler)
  : BlockBootstrap.t :=
  BlockBootstrap.mk
    (BlockBootstrap.n_bootstraps self) g (BlockBootstrap.block_length self)
    (BlockBootstrap.block_length_distribution self)
    (BlockBootstrap.wrap_around_flag self) (BlockBootstrap.overlap_flag self)
    (BlockBootstrap.combine_generation_and_sampling_flag self)
    (BlockBootstrap.block_weights self) (BlockBootstrap.tapered_weights self)
    (BlockBootstrap.overlap_length self) (BlockBootstrap.min_block_length self)
    bs br.

(** Two instances with the same configuration. *)
Definition same_configuration (s1 s2 : BlockBootstrap.t) : Prop :=
  s2 = with_state s1 (BlockBootstrap.rng s2) (BlockBootstrap.blocks s2)
                  (BlockBootstrap.block_resampler s2).

(** [self.overlap_flag = overlap; self.wrap_around_flag = wrap;
    self._block_length_distribution = distribution]. *)
Definition with_flags (self : BlockBootstrap.t) (overlap wrap : bool)
           (distribution : option string) : BlockBootstrap.t :=
  BlockBootstrap.mk
    (BlockBootstrap.n_bootstraps self) (BlockBootstrap.rng self)
    (BlockBootstrap.block_length self) distribution wrap overlap
    (BlockBootstrap.combine_generation_and_sampling_flag self)
    (BlockBootstrap.block_weights self) (BlockBootstrap.tapered_weights self)
    (BlockBootstrap.overlap_length self) (BlockBootstrap.min_block_length self)
    (BlockBootstrap.blocks self) (BlockBootstrap.block_resampler self).

Section BlockBootstrapClasses.
Context `{Numerics}.

(** The call of [BlockBootstrap] with the keyword arguments. *)
Definition BlockBootstrap_new (kwargs : block_kwargs)
  : result BlockBootstrap.t :=
  BlockBootstrap.__init__
    (kw_n_bootstraps kwargs) (kw_block_length kwargs)
    (kw_block_length_distribution kwargs) (kw_wrap_around_flag kwargs)
    (kw_overlap_flag kwargs) (kw_combine_generation_and_sampling_flag kwargs)
    (kw_rng kwargs) (kw_block_weights kwargs) (kw_tapered_weights kwargs)
    (kw_overlap_length kwargs) (kw_min_block_length kwargs).

(** The constructor the four block bootstraps share:
    the constructor of [BlockBootstrap] runs on the keyword arguments, then
    the two flags are assigned and the
    block length distribution goes through its setter. *)
Definition block_variant (overlap wrap : bool) (distribution : pyobj)
           (kwargs : block_kwargs) : result BlockBootstrap.t :=
  match BlockBootstrap_new kwargs with
  | inl e => raise e
  | inr self =>
      match BlockBootstrap.block_length_distribution_setter distribution with
      | inl e => raise e
      | inr d => ok (with_flags self overlap wrap d)
      end
  end.

(** The call of [MovingBlockBootstrap] with the keyword arguments. *)
Definition MovingBlockBootstrap : block_kwargs -> result BlockBootstrap.t :=
  block_variant true false PyNone.

(** The call of [StationaryBlockBootstrap] with the keyword arguments. *)
Definition StationaryBlockBootstrap
  : block_kwargs -> result BlockBootstrap.t :=
  block_variant true false (PyStr "geometric").

(** The call of [CircularBlockBootstrap] with the keyword arguments. *)
Definition CircularBlockBootstrap : block_kwargs -> result BlockBootstrap.t :=
  block_variant true true PyNone.

(** The call of [NonOverlappingBlockBootstrap] with the keyword arguments. *)
Definition NonOverlappingBlockBootstrap
  : block_kwargs -> result BlockBootstrap.t :=
  block_variant false false PyNone.

End BlockBootstrapClasses.

Module BaseBlockBootstrap.

(** An instance: the attributes it has as a [BlockBootstrap], and the
    instance of the class named by [bootstrap_type], if one was given.
    [shares_rng] records that the two were built from one Generator object
    (the [rng] keyword was a Generator, which both keep): a draw of the
    inner instance then advances the generator of the outer one as well. *)
Record t : Type := mk {
  base : BlockBootstrap.t;
  bootstrap_instance : option BlockBootstrap.t;
  shares_rng : bool
}.

Section Methods.
Context `{Numerics}.

Definition bootstrap_type_dict (name : string)
  : option (block_kwargs -> result BlockBootstrap.t) :=
  if String.eqb name "nonoverlapping" then Some NonOverlappingBlockBootstrap
  else if String.eqb name "moving" then Some MovingBlockBootstrap
  else if String.eqb name "stationary" then Some StationaryBlockBootstrap
  else if String.eqb name "circular" then Some CircularBlockBootstrap
  else None.

(** [BaseBlockBootstrap.__init__] on [bootstrap_type] and the keyword
    arguments, for a
    [bootstrap_type] that is None or a string. *)
Definition __init__ (bootstrap_type : option string) (kwargs : block_kwargs)
  : result t :=
  match BlockBootstrap_new kwargs with
  | inl e => raise e
  | inr self =>
      match bootstrap_type with
      | None => ok (mk self None false)
      | Some name =>
          match bootstrap_type_dict name with
          | None =>
              raise (ValueError "bootstrap_type should be one of ['nonoverlapping', 'moving', 'stationary', 'circular']")
          | Some cls =>
              match cls kwargs with
              | inl e => raise e
              | inr instance =>
                  ok (mk self (Some instance)
                         match kw_rng kwargs with
                         | PyGenerator _ => true
                         | _ => false
                         end)
              end
          end
      end
  end.

(** [_generate_samples_single_bootstrap]: the method of [BlockBootstrap] on
    the instance itself, or the method of the inner instance (which every
    class of [bootstrap_type_dict] has). *)
Definition _generate_samples_single_bootstrap (self : t) (X : matrix)
           (exog : option matrix) : result (list block * list matrix) * t :=
  match bootstrap_instance self with
  | None =>
      let (r, base1) :=
        BlockBootstrap._generate_samples_single_bootstrap (base self) X exog in
      (r, mk base1 None (shares_rng self))
  | Some instance =>
      let (r, instance1) :=
        BlockBootstrap._generate_samples_single_bootstrap instance X exog in
      (r, mk (if shares_rng self
              then BlockBootstrap.with_rng (base self)
                                           (BlockBootstrap.rng instance1)
              else base self)
             (Some instance1) (shares_rng self))
  end.

#[global] Instance methods : BaseTimeSeriesBootstrap.Methods t := {
  BaseTimeSeriesBootstrap.n_bootstraps :=
    fun self => BlockBootstrap.n_bootstraps (base self);
  BaseTimeSeriesBootstrap.check_input :=
    fun self => BlockBootstrap._check_input (base self);
  BaseTimeSeriesBootstrap._generate_samples_single_bootstrap :=
    _generate_samples_single_bootstrap
}.
End Methods.

End BaseBlockBootstrap.

(** Keyword arguments for the examples: five bootstraps, blocks of three,
    seed 7, and flags that the classes overwrite. *)
Definition example_kwargs : block_kwargs :=
  mk_block_kwargs (PyInt 5) (PyInt 3) (PyStr "poisson") true false true
                  (PyInt 7) None None None None.

(** What [BlockBootstrap] makes of the example keyword arguments, the
    [MovingBlockBootstrap] made of them, and the [BaseBlockBootstrap] of
    type "moving". *)
Definition example_block_bootstrap : BlockBootstrap.t :=
  BlockBootstrap.mk 5 (@BaseTimeSeriesBootstrap.default_rng example_numerics 7)
    (Some 3) (Some "poisson"%string) true false true
    None None None None None None.

Definition example_moving : BlockBootstrap.t :=
  with_flags example_block_bootstrap true false None.

Definition example_outer : BaseBlockBootstrap.t :=
  BaseBlockBootstrap.mk example_block_bootstrap (Some example_moving) false.

(* ================================================================== *)
(** * Configurations with which a draw cannot fail *)
(* ================================================================== *)

(** Weight sources that are valid for an input of [n] positions:
    block-selection weights that pass validation, one per position; a
    tapering window that passes validation on every block length from 1 to
    [n], one weight per index. *)
Definition valid_weight_sources (block_weights tapered_weights
                                 : option weight_source) (n : nat) : Prop :=
  match block_weights with
  | None => True
  | Some s =>
      validate_weights (weights_of s (Z.of_nat n)) = ok tt
      /\ List.length (real_values (weights_of s (Z.of_nat n))) = n
  end
  /\ match tapered_weights with
     | None => True
     | Some s =>
         forall len : nat,
           (1 <= len <= n)%nat ->
           validate_weights (weights_of s (Z.of_nat len)) = ok tt
           /\ List.length (real_values (weights_of s (Z.of_nat len))) = len
     end.

(** A configuration that is valid for the array [X], of [M] columns: [X]
    has a row; blocks neither overlap nor wrap around; the block length
    distribution is one of the enumerated ones; the average block length
    and the minimum block length do not exceed the number of rows; the
    weight sources are valid for that many positions. *)
Definition valid_setup (self : BlockBootstrap.t) (X : matrix) (M : nat)
  : Prop :=
  (1 <= List.length X)%nat
  /\ Forall (fun row => List.length row = M) X
  /\ BlockBootstrap.overlap_flag self = false
  /\ BlockBootstrap.wrap_around_flag self = false
  /\ (exists d,
        parse_distribution (BlockBootstrap.block_length_distribution self)
        = ok d)
  /\ BlockBootstrap.effective_block_length self X
     <= Z.of_nat (List.length X)
  /\ match BlockBootstrap.min_block_length self with
     | Some m => m <= Z.of_nat (List.length X)
     | None => True
     end
  /\ valid_weight_sources (BlockBootstrap.block_weights self)
                          (BlockBootstrap.tapered_weights self)
                          (List.length X).



(* ================================================================== *)
(** * Weight validation *)
(* ================================================================== *)

Lemma raises_raise {A : Type} (e : exn) : raises (@raise A e).
Proof. exists e; reflexivity. Qed.

Lemma not_raises_ok {A : Type} (a : A) : ~ raises (ok a).
Proof. intros [e He]; discriminate He. Qed.

Lemma is_raise_iff {A : Type} (r : result A) : is_raise r = true <-> raises r.
Proof.
  destruct r as [e | a]; simpl; split; intro Hr.
  - exists e; reflexivity.
  - reflexivity.
  - discriminate Hr.
  - destruct Hr as [e He]; discriminate He.
Qed.

Lemma validate_weights_rejected (w : ndarray) :
  is_raise (validate_weights w) = weights_rejected w.
Proof.
  unfold validate_weights, weights_rejected.
  destruct (all_isfinite w); simpl; [ | reflexivity ].
  destruct (any_lt0 w); simpl; [ reflexivity | ].
  destruct (any_iscomplex w); simpl; [ reflexivity | ].
  destruct (all_eq0 w); simpl; [ reflexivity | ].
  destruct (((ndim w =? 2)%nat && negb (shape_at w 1 =? 1)%nat)
            || (2 <? ndim w)%nat); reflexivity.
Qed.

Lemma Qltb_inject_Z_0 (z : Z) : Qltb (inject_Z z) 0 = (z <? 0).
Proof.
  unfold Qltb, Qle_bool; simpl.
  rewrite Z.mul_1_r, Z.ltb_antisym; reflexivity.
Qed.

Lemma Qeq_bool_inject_Z_0 (z : Z) : Qeq_bool (inject_Z z) 0 = (z =? 0).
Proof.
  unfold Qeq_bool, Z.eqb; simpl.
  rewrite Z.mul_1_r.
  destruct z; reflexivity.
Qed.

Lemma float_eq0_not_lt0 (x : float64) : float_eq0 x = true -> float_lt0 x = false.
Proof.
  destruct x as [q | | | ]; simpl; try discriminate.
  intro Hq. apply Qeq_bool_iff in Hq.
  unfold Qltb. apply negb_false_iff, Qle_bool_iff.
  rewrite Hq. apply Qle_refl.
Qed.

Lemma existsb_map_comp {A B : Type} (f : B -> bool) (g : A -> B) (l : list A) :
  existsb f (map g l) = existsb (fun a => f (g a)) l.
Proof. induction l as [ | a l IH]; simpl; [ | rewrite IH ]; reflexivity. Qed.

Lemma forallb_map_comp {A B : Type} (f : B -> bool) (g : A -> B) (l : list A) :
  forallb f (map g l) = forallb (fun a => f (g a)) l.
Proof. induction l as [ | a l IH]; simpl; [ | rewrite IH ]; reflexivity. Qed.

Lemma existsb_pointwise {A : Type} (f g : A -> bool) (l : list A) :
  (forall a, f a = g a) -> existsb f l = existsb g l.
Proof.
  intro Hfg; induction l as [ | a l IH]; simpl; [ | rewrite Hfg, IH ]; reflexivity.
Qed.

Lemma forallb_pointwise {A : Type} (f g : A -> bool) (l : list A) :
  (forall a, f a = g a) -> forallb f l = forallb g l.
Proof.
  intro Hfg; induction l as [ | a l IH]; simpl; [ | rewrite Hfg, IH ]; reflexivity.
Qed.

Lemma existsb_orb {A : Type} (f g : A -> bool) (l : list A) :
  existsb f l || existsb g l = existsb (fun a => f a || g a) l.
Proof.
  induction l as [ | a l IH]; simpl; [ reflexivity | ].
  rewrite <- IH.
  destruct (f a), (g a), (existsb f l), (existsb g l); reflexivity.
Qed.

Lemma negb_forallb_negb {A : Type} (f : A -> bool) (l : list A) :
  negb (forallb (fun a => negb (f a)) l) = existsb f l.
Proof.
  induction l as [ | a l IH]; simpl; [ reflexivity | ].
  rewrite negb_andb, negb_involutive, IH; reflexivity.
Qed.

(** The reductions of the source, read on the values of the array. *)
Lemma all_isfinite_values (w : ndarray) :
  all_isfinite w = forallb (fun z => negb (is_nonfinite_value z)) (values w).
Proof.
  unfold all_isfinite, values, is_nonfinite_value.
  destruct (data w) as [l | l | l].
  - rewrite forallb_map_comp. simpl.
    induction l as [ | z l IH]; simpl; [ | rewrite <- IH ]; reflexivity.
  - rewrite forallb_map_comp. apply forallb_pointwise.
    intro x; simpl. destruct (float_isfinite x); reflexivity.
  - apply forallb_pointwise. intro z.
    destruct (float_isfinite (fst z)), (float_isfinite (snd z)); reflexivity.
Qed.

Lemma any_lt0_values (w : ndarray) :
  any_lt0 w = existsb complex_lt0 (values w).
Proof.
  unfold any_lt0, values, complex_lt0.
  destruct (data w) as [l | l | l].
  - rewrite existsb_map_comp. apply existsb_pointwise.
    intro z; simpl. rewrite Qltb_inject_Z_0.
    destruct (z <? 0), (Qeq_bool (inject_Z z) 0); reflexivity.
  - rewrite existsb_map_comp. apply existsb_pointwise.
    intro x; simpl.
    destruct (float_lt0 x), (float_eq0 x); reflexivity.
  - reflexivity.
Qed.

Lemma any_iscomplex_values (w : ndarray) :
  any_iscomplex w = existsb is_complex_value (values w).
Proof.
  unfold any_iscomplex, values, is_complex_value.
  destruct (data w) as [l | l | l].
  - rewrite existsb_map_comp. simpl.
    induction l as [ | z l IH]; simpl; [ | rewrite <- IH ]; reflexivity.
  - rewrite existsb_map_comp. simpl.
    induction l as [ | z l IH]; simpl; [ | rewrite <- IH ]; reflexivity.
  - reflexivity.
Qed.

Lemma all_eq0_values (w : ndarray) :
  all_eq0 w = forallb is_zero_value (values w).
Proof.
  unfold all_eq0, values, is_zero_value, complex_eq0.
  destruct (data w) as [l | l | l].
  - rewrite forallb_map_comp. apply forallb_pointwise.
    intro z; simpl. rewrite Qeq_bool_inject_Z_0, andb_true_r; reflexivity.
  - rewrite forallb_map_comp. apply forallb_pointwise.
    intro x; simpl. rewrite andb_true_r; reflexivity.
  - reflexivity.
Qed.

(** Below zero in NumPy's order, or complex: the same as a negative real
    number, or complex. *)
Lemma negative_or_complex (z : float64 * float64) :
  complex_lt0 z || is_complex_value z
  = is_negative_value z || is_complex_value z.
Proof.
  unfold complex_lt0, is_complex_value, is_negative_value.
  destruct (float_eq0 (snd z)) eqn:Him; simpl.
  - rewrite (float_eq0_not_lt0 _ Him), andb_false_r, !orb_false_r, andb_true_r.
    reflexivity.
  - rewrite !orb_true_r; reflexivity.
Qed.

Lemma values_length (w : ndarray) :
  List.length (values w) = buffer_length (data w).
Proof.
  unfold values; destruct (data w); simpl; rewrite ?length_map; reflexivity.
Qed.

(** An array with a second dimension of size 0 has no elements. *)
Lemma no_columns_no_values (w : ndarray) :
  wf_ndarray w -> ndim w = 2%nat -> shape_at w 1 = 0%nat -> values w = [].
Proof.
  unfold wf_ndarray, ndim, shape_at, size. intros Hwf Hnd Hcol.
  apply length_zero_iff_nil. rewrite values_length, Hwf.
  destruct (shape w) as [ | r [ | c [ | x s]]]; simpl in *; try discriminate.
  subst c. simpl. lia.
Qed.

(** What [validate_weights] rejects, in the words of the specification, with
    the one case the specification does not name. *)
Lemma weights_rejected_spec (w : ndarray) :
  wf_ndarray w ->
  weights_rejected w = spec_rejects_weights w || (2 <? ndim w)%nat.
Proof.
  intro Hwf. unfold weights_rejected, spec_rejects_weights.
  rewrite all_isfinite_values, negb_forallb_negb.
  rewrite any_lt0_values, any_iscomplex_values, all_eq0_values.
  destruct (existsb is_nonfinite_value (values w)); simpl; [ reflexivity | ].
  rewrite existsb_orb.
  rewrite (existsb_pointwise _ _ (values w) negative_or_complex).
  rewrite <- existsb_orb.
  destruct (existsb is_negative_value (values w)
            || existsb is_complex_value (values w)); simpl; [ reflexivity | ].
  destruct (forallb is_zero_value (values w)) eqn:Hz; simpl; [ reflexivity | ].
  destruct (ndim w =? 2)%nat eqn:Hnd; simpl; [ | reflexivity ].
  apply Nat.eqb_eq in Hnd.
  destruct (shape_at w 1) as [ | [ | c]] eqn:Hc; simpl; try reflexivity.
  rewrite (no_columns_no_values w Hwf Hnd Hc) in Hz. discriminate Hz.
Qed.

(** C4, as amended.  [validate_weights] raises exactly when the weights
    contain a non-finite value, a negative value, a complex value, are all
    zero, form a 2-D array with more than one column, or have more than two
    dimensions.  The weights [[-1, 2, 3, ...]] are rejected, and a resampler
    given them as block-selection weights is never constructed (a
    ValidationError), so that no indices are returned. *)
Theorem validate_weights_raises_exactly (w : ndarray) (Hwf : wf_ndarray w) :
  (raises (validate_weights w)
   <-> spec_rejects_weights w = true \/ (2 < ndim w)%nat)
  /\ (forall rest, raises (validate_weights (negative_weights rest)))
  /\ (forall rest X blocks tapered,
         BlockResampler_init X blocks
           (Some (WeightArray (negative_weights rest))) tapered
         = raise ValidationError).
Proof.
  split; [ | split ].
  - rewrite <- is_raise_iff, validate_weights_rejected,
      (weights_rejected_spec w Hwf), orb_true_iff, Nat.ltb_lt.
    reflexivity.
  - intro rest. apply is_raise_iff. reflexivity.
  - intros rest X blocks tapered. unfold BlockResampler_init.
    destruct (validate_block_indices _ _); [ reflexivity | ].
    reflexivity.
Qed.

Lemma validate_weights_raises_exactly_witness :
  wf_ndarray (negative_weights [4])
  /\ (raises (validate_weights (negative_weights [4]))
      <-> spec_rejects_weights (negative_weights [4]) = true
          \/ (2 < ndim (negative_weights [4%Z]))%nat).
Proof.
  split.
  - reflexivity.
  - exact (proj1 (validate_weights_raises_exactly (negative_weights [4])
                    eq_refl)).
Defined.

(** C4 as stated fails: a 3-D array holding the single weight 1.0 is
    rejected, although it has none of the five defects the claim lists. *)
Lemma cube_weights_rejected_beyond_claim :
  ~ (raises (validate_weights cube_weights)
     <-> spec_rejects_weights cube_weights = true).
Proof.
  intros [Hraise _].
  assert (Hr : raises (validate_weights cube_weights))
    by (apply is_raise_iff; reflexivity).
  specialize (Hraise Hr). vm_compute in Hraise. discriminate Hraise.
Qed.

(* ================================================================== *)
(** * Block validation *)
(* ================================================================== *)

Lemma validate_block_indices_accepted (l : list pyobj) (bs : list ndarray)
      (n : Z) :
  as_arrays l = Some bs ->
  is_raise (validate_block_indices (PyList l) n)
  = negb (block_indices_accepted bs n).
Proof.
  intro Harr. unfold validate_block_indices, block_indices_accepted.
  assert (Hlen : List.length l = List.length bs).
  { revert bs Harr. induction l as [ | o l IH]; intros bs Harr; simpl in *.
    - injection Harr as <-; reflexivity.
    - destruct o; try discriminate Harr.
      destruct (as_arrays l) as [r | ]; [ | discriminate Harr ].
      injection Harr as <-. simpl. rewrite (IH r eq_refl); reflexivity. }
  rewrite Harr, Hlen.
  destruct (List.length bs =? 0)%nat; simpl; [ reflexivity | ].
  destruct (forallb (fun b => (ndim b =? 1)%nat && is_integer_dtype b) bs);
    simpl; [ | reflexivity ].
  destruct (forallb (fun b => (0 <? size b)%nat) bs); simpl; [ | reflexivity ].
  destruct (forallb (fun b => all_ltZ b n) bs); reflexivity.
Qed.

(** The defects the validator does catch. *)
Lemma validate_block_indices_empty_list (n : Z) :
  validate_block_indices (PyList []) n
  = raise (ValueError "Input 'block_indices' must not be empty.").
Proof. reflexivity. Qed.

Lemma validate_blocks_empty_list :
  validate_blocks (PyList [])
  = raise (ValueError "Input 'blocks' must not be empty.").
Proof. reflexivity. Qed.

Lemma validate_block_indices_not_1d_integer (l : list pyobj)
      (bs : list ndarray) (b : ndarray) (n : Z) :
  as_arrays l = Some bs -> In b bs ->
  ndim b <> 1%nat \/ is_integer_dtype b = false ->
  raises (validate_block_indices (PyList l) n).
Proof.
  intros Harr Hin Hbad. apply is_raise_iff.
  rewrite (validate_block_indices_accepted l bs n Harr).
  apply negb_true_iff. unfold block_indices_accepted.
  assert (Hf : forallb (fun b => (ndim b =? 1)%nat && is_integer_dtype b) bs
               = false).
  { destruct (forallb _ bs) eqn:Hall; [ | reflexivity ].
    rewrite forallb_forall in Hall. specialize (Hall b Hin).
    apply andb_true_iff in Hall. destruct Hall as [H1 H2].
    apply Nat.eqb_eq in H1. destruct Hbad as [Hd | Hi]; congruence. }
  rewrite Hf, andb_false_r. reflexivity.
Qed.

Lemma validate_block_indices_no_indices (l : list pyobj)
      (bs : list ndarray) (b : ndarray) (n : Z) :
  as_arrays l = Some bs -> In b bs -> size b = 0%nat ->
  raises (validate_block_indices (PyList l) n).
Proof.
  intros Harr Hin Hsz. apply is_raise_iff.
  rewrite (validate_block_indices_accepted l bs n Harr).
  apply negb_true_iff. unfold block_indices_accepted.
  assert (Hf : forallb (fun b => (0 <? size b)%nat) bs = false).
  { destruct (forallb _ bs) eqn:Hall; [ | reflexivity ].
    rewrite forallb_forall in Hall. specialize (Hall b Hin).
    rewrite Hsz in Hall. discriminate Hall. }
  rewrite Hf, andb_false_r. reflexivity.
Qed.

Lemma validate_block_indices_index_too_large (l : list pyobj)
      (bs : list ndarray) (b : ndarray) (idx : list Z) (i n : Z) :
  as_arrays l = Some bs -> In b bs -> data b = IntBuf idx -> In i idx ->
  n <= i ->
  raises (validate_block_indices (PyList l) n).
Proof.
  intros Harr Hin Hdata Hi Hge. apply is_raise_iff.
  rewrite (validate_block_indices_accepted l bs n Harr).
  apply negb_true_iff. unfold block_indices_accepted.
  assert (Hf : forallb (fun b => all_ltZ b n) bs = false).
  { destruct (forallb _ bs) eqn:Hall; [ | reflexivity ].
    rewrite forallb_forall in Hall. specialize (Hall b Hin).
    unfold all_ltZ in Hall. rewrite Hdata, forallb_forall in Hall.
    specialize (Hall i Hi). apply Z.ltb_lt in Hall. lia. }
  rewrite Hf, andb_false_r. reflexivity.
Qed.

(** Only the upper end of the index range is checked: a single negative
    index passes for every input length above it. *)
Lemma validate_block_indices_no_lower_bound (i n : Z) :
  i < 0 -> i < n ->
  validate_block_indices (PyList [block_array [i]]) n = ok tt.
Proof.
  intros Hneg Hlt. unfold validate_block_indices. simpl.
  assert (Hi : (i <? n) = true) by (apply Z.ltb_lt; exact Hlt).
  unfold all_ltZ. simpl. rewrite Hi. reflexivity.
Qed.

(** C5: the code misses a case.  The block list [[array([-6])]] holds an
    index outside [0, 5), and [validate_block_indices] accepts it for an
    input of length 5, where the claim has it raise. *)
Theorem validate_block_indices_accepts_negative_index :
  validate_block_indices stray_blocks 5 = ok tt
  /\ ~ raises (validate_block_indices stray_blocks 5).
Proof.
  split; [ reflexivity | ].
  apply not_raises_ok.
Qed.

(* ================================================================== *)
(** * The default average block length *)
(* ================================================================== *)

(** [round_sqrt] is the nearest integer: [sqrt(n)] lies strictly within a
    half of it. *)
Lemma round_sqrt_nearest (n : Z) :
  1 <= n ->
  (2 * round_sqrt n - 1) ^ 2 < 4 * n < (2 * round_sqrt n + 1) ^ 2.
Proof.
  intro Hn. unfold round_sqrt. cbv zeta.
  pose proof (Z.sqrt_spec n ltac:(lia)) as Hs.
  pose proof (Z.sqrt_nonneg n) as Hs0.
  set (s := Z.sqrt n) in *. unfold Z.succ in Hs.
  rewrite !Z.pow_2_r.
  assert (H1 : 1 <= s) by nia.
  destruct (s * s + s <? n) eqn:Hc.
  - apply Z.ltb_lt in Hc. nia.
  - apply Z.ltb_ge in Hc. nia.
Qed.

(** C3, as amended.  With [block_length=None] the average block length that
    [_generate_blocks] hands to the length sampler is [int(sqrt(N))], the
    square root rounded down, and the blocks it returns are the ones
    generated with that average. *)
Theorem default_block_length_is_floor_sqrt `{Numerics}
        (self : BlockBootstrap.t) (X : matrix)
        (Hnone : BlockBootstrap.block_length self = None) :
  let n := Z.of_nat (List.length X) in
  BlockBootstrap.effective_block_length self X = Z.sqrt n
  /\ Z.sqrt n * Z.sqrt n <= n < (Z.sqrt n + 1) * (Z.sqrt n + 1)
  /\ match BlockBootstrap._generate_blocks self X with
     | (inr bs, self') =>
         exists sampler bg,
           avg_block_length sampler = Z.sqrt n
           /\ BlockLengthSampler_init (Z.sqrt n)
                (BlockBootstrap.block_length_distribution self) = ok sampler
           /\ BlockGenerator_init sampler n
                (BlockBootstrap.wrap_around_flag self)
                (BlockBootstrap.overlap_length self)
                (BlockBootstrap.min_block_length self) = ok bg
           /\ generate_blocks bg (BlockBootstrap.overlap_flag self)
                (BlockBootstrap.rng self) = (bs, BlockBootstrap.rng self')
     | (inl _, self') => self' = self
     end.
Proof.
  intro n.
  assert (Heff : BlockBootstrap.effective_block_length self X = Z.sqrt n).
  { unfold BlockBootstrap.effective_block_length. rewrite Hnone. reflexivity. }
  split; [ exact Heff | split ].
  - apply Z.sqrt_spec. unfold n. lia.
  - unfold BlockBootstrap._generate_blocks. rewrite Heff. fold n.
    destruct (BlockLengthSampler_init (Z.sqrt n) _) as [e | sampler] eqn:Hs;
      [ reflexivity | ].
    destruct (BlockGenerator_init sampler n _ _ _) as [e | bg] eqn:Hbg;
      [ reflexivity | ].
    destruct (generate_blocks bg _ _) as [bs g] eqn:Hgen.
    exists sampler, bg.
    split; [ | repeat split;
                 first [ exact Hs | exact Hbg | exact Hgen | reflexivity ] ].
    unfold BlockLengthSampler_init in Hs.
    destruct (parse_distribution _); [ discriminate Hs | ].
    injection Hs as <-. reflexivity.
Qed.

Lemma default_block_length_is_floor_sqrt_witness :
  BlockBootstrap.block_length (example_bootstrap None false) = None
  /\ @BlockBootstrap.effective_block_length
       (example_bootstrap None false) (example_series 8) = 2.
Proof.
  split.
  - reflexivity.
  - exact (proj1 (@default_block_length_is_floor_sqrt example_numerics
                    (example_bootstrap None false) (example_series 8)
                    eq_refl)).
Defined.

(** C3 as stated fails: for 8 observations the code uses the average block
    length 2, while [round(sqrt(8))] is 3. *)
Lemma default_block_length_is_not_round_sqrt :
  BlockBootstrap.effective_block_length (example_bootstrap None false)
                                        (example_series 8) = 2
  /\ round_sqrt (Z.of_nat (List.length (example_series 8))) = 3
  /\ BlockBootstrap.effective_block_length (example_bootstrap None false)
                                           (example_series 8)
     <> round_sqrt (Z.of_nat (List.length (example_series 8))).
Proof.
  split; [ reflexivity | split; [ reflexivity | ] ].
  vm_compute. discriminate.
Qed.

(* ================================================================== *)
(** * The block length check *)
(* ================================================================== *)

Lemma BlockGenerator_init_avg_too_large (sampler : BlockLengthSampler) (n : Z)
      (wrap : bool) (ol ml : option Z) :
  n < avg_block_length sampler ->
  BlockGenerator_init sampler n wrap ol ml = raise ConfigurationError.
Proof.
  intro Hlt. unfold BlockGenerator_init.
  destruct (n <=? 0); [ reflexivity | ].
  destruct (n <? _); [ reflexivity | ].
  apply Z.ltb_lt in Hlt. rewrite Hlt. reflexivity.
Qed.

(** C7.  When the configured block length exceeds the number of rows of the
    input, [_check_input] raises (a ValueError, the specification's
    ConfigurationError), [split] therefore yields nothing and leaves the
    instance and its generator as they were, and block generation itself
    refuses the configuration before any draw. *)
Theorem block_length_above_input_raises `{Numerics} `{Utilities}
        (self : BlockBootstrap.t) (X : array_like) (b : Z)
        (return_indices : bool) (exog : option matrix)
        (Hb : BlockBootstrap.block_length self = Some b)
        (Hlt : Z.of_nat (List.length (as_2d X)) < b) :
  exists msg,
    BlockBootstrap._check_input self (as_2d X) = raise (ValueError msg)
    /\ BaseTimeSeriesBootstrap.split self X return_indices exog
       = mk_iteration [] (Some (ValueError msg)) self
    /\ BlockBootstrap._generate_blocks self (as_2d X)
       = (raise ConfigurationError, self).
Proof.
  assert (Hchk : exists msg,
             BlockBootstrap._check_input self (as_2d X) = raise (ValueError msg)).
  { unfold BlockBootstrap._check_input, BaseTimeSeriesBootstrap._check_input.
    destruct (any_diff _); [ eexists; reflexivity | ].
    simpl. rewrite Hb. apply Z.ltb_lt in Hlt. rewrite Hlt.
    eexists; reflexivity. }
  destruct Hchk as [msg Hmsg]. exists msg.
  split; [ exact Hmsg | split ].
  - unfold BaseTimeSeriesBootstrap.split. simpl.
    rewrite Hmsg. reflexivity.
  - unfold BlockBootstrap._generate_blocks,
      BlockBootstrap.effective_block_length.
    rewrite Hb. unfold BlockLengthSampler_init.
    destruct (parse_distribution _) as [e | d] eqn:Hd.
    + unfold parse_distribution in Hd.
      destruct (BlockBootstrap.block_length_distribution self) as [s | ];
        [ | discriminate Hd ].
      repeat match type of Hd with
             | (if ?c then _ else _) = _ => destruct c; [ discriminate Hd | ]
             end.
      injection Hd as <-. reflexivity.
    + unfold ok. cbv beta iota.
      rewrite BlockGenerator_init_avg_too_large; [ reflexivity | exact Hlt ].
Qed.

Lemma block_length_above_input_raises_witness :
  BlockBootstrap.block_length (example_bootstrap (Some 10) false) = Some 10
  /\ Z.of_nat (List.length (as_2d (Array2 (example_series 5)))) < 10
  /\ exists msg,
       BlockBootstrap._check_input (example_bootstrap (Some 10) false)
                                   (as_2d (Array2 (example_series 5)))
       = raise (ValueError msg)
       /\ @BaseTimeSeriesBootstrap.split _ (@BlockBootstrap.methods example_numerics) example_utilities
            (example_bootstrap (Some 10) false)
            (Array2 (example_series 5)) false None
          = mk_iteration [] (Some (ValueError msg))
                         (example_bootstrap (Some 10) false)
       /\ @BlockBootstrap._generate_blocks example_numerics
            (example_bootstrap (Some 10) false)
            (as_2d (Array2 (example_series 5)))
          = (raise ConfigurationError, example_bootstrap (Some 10) false).
Proof.
  split; [ reflexivity | split; [ vm_compute; reflexivity | ] ].
  apply (@block_length_above_input_raises example_numerics example_utilities
           (example_bootstrap (Some 10) false) (Array2 (example_series 5)) 10
           false None eq_refl).
  vm_compute. reflexivity.
Defined.

(* ================================================================== *)
(** * Block generation without overlap and wrap-around *)
(* ================================================================== *)

Section Partition.
Context `{Numerics}.

Lemma sample_length_ge_1 (s : BlockLengthSampler) (m : Z) (g : Generator) :
  1 <= fst (sample_length s m g).
Proof.
  unfold sample_length.
  destruct (sampler_distribution s);
    try (destruct (next_words _ g) as [ws g1]); simpl; lia.
Qed.

Lemma arange_length (a : Z) (n : nat) : List.length (arange a n) = n.
Proof. unfold arange. rewrite length_map, length_seq. reflexivity. Qed.


Lemma arange_cons (a : Z) (n : nat) :
  arange a (S n) = a :: arange (a + 1) n.
Proof.
  unfold arange. simpl. rewrite Z.add_0_r. f_equal.
  rewrite <- seq_shift, map_map. apply map_ext.
  intro i. lia.
Qed.

Lemma arange_app (a : Z) (n m : nat) :
  arange a n ++ arange (a + Z.of_nat n) m = arange a (n + m).
Proof.
  revert a. induction n as [ | n IH]; intro a.
  - simpl. rewrite Z.add_0_r. reflexivity.
  - change (S n + m)%nat with (S (n + m)). rewrite !arange_cons.
    simpl. f_equal. rewrite <- IH. do 2 f_equal. lia.
Qed.

Lemma arange_In (a : Z) (n : nat) (x : Z) :
  In x (arange a n) <-> a <= x < a + Z.of_nat n.
Proof.
  unfold arange. rewrite in_map_iff. split.
  - intros [i [Hi Hin]]. apply in_seq in Hin. lia.
  - intro Hx. exists (Z.to_nat (x - a)). split; [ lia | ].
    apply in_seq. lia.
Qed.

Lemma arange_NoDup (a : Z) (n : nat) : NoDup (arange a n).
Proof.
  revert a. induction n as [ | n IH]; intro a.
  - constructor.
  - rewrite arange_cons. constructor; [ | apply IH ].
    rewrite arange_In. lia.
Qed.

Lemma extend_last_concat (bs : list block) (extra : block) :
  List.concat (extend_last bs extra) = List.concat bs ++ extra.
Proof.
  induction bs as [ | b t IH]; simpl.
  - rewrite app_nil_r. reflexivity.
  - destruct t as [ | b' t'].
    + simpl. rewrite !app_nil_r. reflexivity.
    + change (List.concat (b :: extend_last (b' :: t') extra))
        with (b ++ List.concat (extend_last (b' :: t') extra)).
      rewrite IH. simpl. rewrite !app_assoc. reflexivity.
Qed.

Lemma extend_last_nonempty (bs : list block) (extra : block) :
  Forall (fun b => b <> []) bs -> bs <> [] ->
  Forall (fun b => b <> []) (extend_last bs extra).
Proof.
  induction bs as [ | b t IH]; intros Hall Hne; [ congruence | ].
  inversion Hall as [ | ? ? Hb Ht]; subst.
  destruct t as [ | b' t'].
  - simpl. constructor; [ | constructor ].
    destruct b; [ congruence | discriminate ].
  - change (extend_last (b :: b' :: t') extra)
      with (b :: extend_last (b' :: t') extra).
    constructor; [ exact Hb | apply IH; [ exact Ht | discriminate ] ].
Qed.

(** The loop without overlap and wrap-around: what has been emitted is
    always the range below the cursor, cut into non-empty blocks, and with
    enough turns left the cursor reaches the input length. *)
Lemma non_overlapping_loop_partition (bg : BlockGenerator) :
  wrap_around_flag bg = false ->
  forall (fuel : nat) (cursor : Z) (emitted : list block) (g : Generator),
    0 <= cursor <= input_length bg ->
    (Z.to_nat (input_length bg - cursor) <= fuel)%nat ->
    List.concat emitted = arange 0 (Z.to_nat cursor) ->
    Forall (fun b => b <> []) emitted ->
    let bs := fst (non_overlapping_loop fuel bg cursor emitted g) in
    List.concat bs = arange 0 (Z.to_nat (input_length bg))
    /\ Forall (fun b => b <> []) bs.
Proof.
  intro Hwrap. set (n := input_length bg).
  induction fuel as [ | fuel IH]; intros cursor emitted g Hc Hfuel Hcat Hne.
  - simpl. assert (cursor = n) by lia. subst cursor. split; assumption.
  - simpl. fold n. rewrite Hwrap. simpl.
    destruct (n <=? cursor) eqn:Hend.
    + apply Z.leb_le in Hend. assert (cursor = n) by lia. subst cursor.
      split; assumption.
    + apply Z.leb_gt in Hend.
      destruct ((n - cursor <? min_block_length bg)
                && negb (List.length emitted =? 0)%nat) eqn:Hmerge.
      * simpl. apply andb_true_iff in Hmerge. destruct Hmerge as [_ Hlen].
        apply negb_true_iff, Nat.eqb_neq in Hlen.
        assert (Hnil : emitted <> []) by (intro; subst; apply Hlen; reflexivity).
        split.
        -- rewrite extend_last_concat, Hcat.
           replace cursor with (0 + Z.of_nat (Z.to_nat cursor)) at 2 by lia.
           rewrite arange_app. f_equal. lia.
        -- apply extend_last_nonempty; assumption.
      * pose proof (sample_length_ge_1 (block_length_sampler bg)
                                       (min_block_length bg) g) as Hdrawn.
        destruct (sample_length (block_length_sampler bg) (min_block_length bg) g)
          as [drawn g1]. simpl in Hdrawn.
        set (len := Z.min drawn (n - cursor)).
        assert (Hlen : 1 <= len <= n - cursor) by (unfold len; lia).
        apply IH.
        -- lia.
        -- lia.
        -- rewrite concat_app, Hcat. simpl. rewrite app_nil_r.
           unfold block_at.
           replace cursor with (0 + Z.of_nat (Z.to_nat cursor)) at 2 by lia.
           rewrite arange_app. f_equal. lia.
        -- apply Forall_app. split; [ exact Hne | ].
           constructor; [ | constructor ].
           unfold block_at. intro Hnil.
           apply (f_equal (@List.length Z)) in Hnil.
           rewrite arange_length in Hnil. simpl in Hnil. lia.
Qed.

Lemma NoDup_concat_disjoint (bs : list block) :
  NoDup (List.concat bs) -> pairwise_disjoint bs.
Proof.
  induction bs as [ | b t IH]; intros Hnd i j bi bj Hij Hi Hj x Hxi Hxj.
  - destruct i; discriminate Hi.
  - simpl in Hnd. apply NoDup_app_remove_l in Hnd as Hndt.
    assert (Hsep : forall y c, In y b -> In c t -> In y c -> False).
    { intros y c Hy Hc Hyc.
      assert (Hyt : In y (List.concat t))
        by (apply in_concat; exists c; split; assumption).
      clear - Hnd Hy Hyt.
      induction b as [ | a b IHb]; [ destruct Hy | ].
      simpl in Hnd. inversion Hnd as [ | ? ? Hnotin Hnd']; subst.
      destruct Hy as [-> | Hy].
      - apply Hnotin. apply in_or_app. right. exact Hyt.
      - apply IHb; assumption. }
    destruct i as [ | i], j as [ | j]; simpl in Hi, Hj.
    + congruence.
    + injection Hi as <-. apply (Hsep x bj Hxi (nth_error_In _ _ Hj) Hxj).
    + injection Hj as <-. apply (Hsep x bi Hxj (nth_error_In _ _ Hi) Hxi).
    + apply (IH Hndt i j bi bj ltac:(congruence) Hi Hj x Hxi Hxj).
Qed.

End Partition.

(** C1.  For an input length of at least 1 and an average block length not
    above it, without overlap and without wrap-around: the generator is
    either refused at setup (only when the minimum block length exceeds the
    input length), or [generate_blocks] returns non-empty blocks whose index
    sets are pairwise disjoint and whose union is exactly
    [{0, ..., N - 1}]; read in order, the blocks are the range itself. *)
Theorem generate_blocks_partition `{Numerics}
        (sampler : BlockLengthSampler) (n : Z)
        (overlap_length min_block_length : option Z) (g : Generator)
        (Hn : 1 <= n) (Havg : avg_block_length sampler <= n) :
  match BlockGenerator_init sampler n false overlap_length min_block_length with
  | inl e =>
      e = ConfigurationError
      /\ exists m, min_block_length = Some m /\ n < m
  | inr bg =>
      let blocks := fst (generate_blocks bg false g) in
      pairwise_disjoint blocks
      /\ covers_exactly blocks n
      /\ Forall (fun b => b <> []) blocks
      /\ List.concat blocks = arange 0 (Z.to_nat n)
  end.
Proof.
  unfold BlockGenerator_init.
  destruct (n <=? 0) eqn:H0; [ apply Z.leb_le in H0; lia | ].
  destruct (n <? match min_block_length with Some v => v | None => 1 end)
    eqn:Hml.
  - apply Z.ltb_lt in Hml. split; [ reflexivity | ].
    destruct min_block_length as [m | ];
      [ exists m; split; [ reflexivity | exact Hml ] | lia ].
  - destruct (n <? avg_block_length sampler) eqn:Ha;
      [ apply Z.ltb_lt in Ha; lia | ].
    set (bg := mk_BlockGenerator sampler n false _ _).
    cbv zeta. unfold generate_blocks.
    pose proof (non_overlapping_loop_partition bg eq_refl
                  (Z.to_nat (input_length bg)) 0 [] g) as Hloop.
    simpl in Hloop.
    destruct Hloop as [Hcat Hne];
      [ lia | rewrite Z.sub_0_r; apply Nat.le_refl | reflexivity | constructor | ].
    unfold ok. cbv beta iota. change (input_length bg) with n.
    split; [ | split; [ | split ] ].
    + apply NoDup_concat_disjoint. rewrite Hcat. apply arange_NoDup.
    + intro x. split.
      * intros [b [Hb Hx]].
        assert (Hin : In x (List.concat
                              (fst (non_overlapping_loop (Z.to_nat n) bg 0 [] g))))
          by (apply in_concat; exists b; split; assumption).
        rewrite Hcat in Hin. apply arange_In in Hin. lia.
      * intro Hx. apply in_concat. rewrite Hcat. apply arange_In. lia.
    + exact Hne.
    + exact Hcat.
Qed.

Lemma generate_blocks_partition_witness :
  1 <= 10
  /\ avg_block_length example_sampler <= 10
  /\ match BlockGenerator_init example_sampler 10 false None None with
     | inl e =>
         e = ConfigurationError /\ exists m, None = Some m /\ 10 < m
     | inr bg =>
         let blocks :=
           fst (@generate_blocks example_numerics bg false advanced_generator) in
         pairwise_disjoint blocks
         /\ covers_exactly blocks 10
         /\ Forall (fun b => b <> []) blocks
         /\ List.concat blocks = arange 0 (Z.to_nat 10)
     end.
Proof.
  split; [ lia | split; [ simpl; lia | ] ].
  apply (@generate_blocks_partition example_numerics example_sampler 10
           None None advanced_generator); simpl; lia.
Defined.

(** The example of section 8: ten observations, fixed block length 3.  With
    the default minimum block length the last block is the single index 9;
    with a minimum block length of 2 that remainder is merged into the third
    block. *)
Example generate_blocks_ten_by_three :
  fst (@generate_blocks example_numerics
         (mk_BlockGenerator example_sampler 10 false 1 1) false
         advanced_generator)
  = [[0; 1; 2]; [3; 4; 5]; [6; 7; 8]; [9]]
  /\ fst (@generate_blocks example_numerics
            (mk_BlockGenerator example_sampler 10 false 1 2) false
            advanced_generator)
     = [[0; 1; 2]; [3; 4; 5]; [6; 7; 8; 9]].
Proof. split; reflexivity. Qed.

(** The same ten observations with lengths drawn uniformly, and with
    overlapping blocks, without and with wrap-around. *)
Example generate_blocks_other_modes :
  fst (@generate_blocks example_numerics
         (mk_BlockGenerator (mk_BlockLengthSampler 3 Uniform) 10 false 1 1)
         false advanced_generator)
  = [[0; 1]; [2; 3; 4; 5]; [6]; [7; 8; 9]]
  /\ fst (@generate_blocks example_numerics
            (mk_BlockGenerator example_sampler 10 false 2 1) true
            advanced_generator)
     = [[0; 1; 2]; [2; 3; 4]; [4; 5; 6]; [6; 7; 8]; [8; 9]]
  /\ fst (@generate_blocks example_numerics
            (mk_BlockGenerator example_sampler 10 true 2 1) true
            advanced_generator)
     = [[0; 1; 2]; [2; 3; 4]; [4; 5; 6]; [6; 7; 8]; [8; 9; 0]].
Proof. repeat split; reflexivity. Qed.

(* ================================================================== *)
(** * Determinism *)
(* ================================================================== *)

Lemma same_stream_refl (g : Generator) : same_stream g g.
Proof. intro k. reflexivity. Qed.

Lemma next_word_agree (g1 g2 : Generator) :
  same_stream g1 g2 -> agree (next_word g1) (next_word g2).
Proof.
  intro Hs. split; simpl.
  - specialize (Hs 0%nat). rewrite !Nat.add_0_r in Hs. exact Hs.
  - intro k. simpl. specialize (Hs (S k)).
    rewrite !Nat.add_succ_r in Hs. exact Hs.
Qed.

Lemma next_words_agree (n : nat) (g1 g2 : Generator) :
  same_stream g1 g2 -> agree (next_words n g1) (next_words n g2).
Proof.
  revert g1 g2. induction n as [ | n IH]; intros g1 g2 Hs.
  - split; [ reflexivity | exact Hs ].
  - change (agree (let (w, g) := next_word g1 in
                   let (ws, g') := next_words n g in (w :: ws, g'))
                  (let (w, g) := next_word g2 in
                   let (ws, g') := next_words n g in (w :: ws, g'))).
    destruct (next_word_agree g1 g2 Hs) as [Hw Hg].
    destruct (next_word g1) as [w1 g1'], (next_word g2) as [w2 g2'].
    simpl in Hw, Hg. subst w2.
    destruct (IH g1' g2' Hg) as [Hws Hg'].
    destruct (next_words n g1') as [ws1 g1''], (next_words n g2') as [ws2 g2''].
    simpl in Hws, Hg'. subst ws2.
    split; [ reflexivity | exact Hg' ].
Qed.

Lemma random_agree (g1 g2 : Generator) :
  same_stream g1 g2 -> agree (random g1) (random g2).
Proof.
  intro Hs. unfold random.
  destruct (next_word_agree g1 g2 Hs) as [Hw Hg].
  destruct (next_word g1) as [w1 g1'], (next_word g2) as [w2 g2'].
  simpl in Hw, Hg. subst w2. split; [ reflexivity | exact Hg ].
Qed.

Lemma choice_agree (p : list Q) (g1 g2 : Generator) :
  same_stream g1 g2 -> agree (choice p g1) (choice p g2).
Proof.
  intro Hs. unfold choice.
  destruct (random_agree g1 g2 Hs) as [Hu Hg].
  destruct (random g1) as [u1 g1'], (random g2) as [u2 g2'].
  simpl in Hu, Hg. subst u2. split; [ reflexivity | exact Hg ].
Qed.

Section Determinism.
Context `{Numerics}.

Lemma sample_length_agree (s : BlockLengthSampler) (m : Z)
      (g1 g2 : Generator) :
  same_stream g1 g2 -> agree (sample_length s m g1) (sample_length s m g2).
Proof.
  intro Hs. unfold sample_length.
  destruct (sampler_distribution s) eqn:Hd;
    try (split; [ reflexivity | exact Hs ]);
    match goal with
    | |- context [next_words ?n g1] =>
        destruct (next_words_agree n g1 g2 Hs) as [Hws Hg];
        destruct (next_words n g1) as [ws1 g1'], (next_words n g2) as [ws2 g2'];
        simpl in Hws, Hg; subst ws2; split; [ reflexivity | exact Hg ]
    end.
Qed.

Lemma non_overlapping_loop_agree (bg : BlockGenerator) (fuel : nat) :
  forall (cursor : Z) (emitted : list block) (g1 g2 : Generator),
    same_stream g1 g2 ->
    agree (non_overlapping_loop fuel bg cursor emitted g1)
          (non_overlapping_loop fuel bg cursor emitted g2).
Proof.
  induction fuel as [ | fuel IH]; intros cursor emitted g1 g2 Hs.
  - split; [ reflexivity | exact Hs ].
  - simpl.
    destruct (input_length bg <=? cursor); [ split; [ reflexivity | exact Hs ] | ].
    destruct (negb (wrap_around_flag bg)
              && (input_length bg - cursor <? min_block_length bg)
              && negb (List.length emitted =? 0)%nat);
      [ split; [ reflexivity | exact Hs ] | ].
    destruct (sample_length_agree (block_length_sampler bg) (min_block_length bg)
                                  g1 g2 Hs) as [Hd Hg].
    destruct (sample_length _ _ g1) as [d1 g1'],
             (sample_length _ _ g2) as [d2 g2'].
    simpl in Hd, Hg. subst d2. apply IH. exact Hg.
Qed.

Lemma overlapping_loop_agree (bg : BlockGenerator) (fuel : nat) :
  forall (start : Z) (emitted : list block) (g1 g2 : Generator),
    same_stream g1 g2 ->
    agree (overlapping_loop fuel bg start emitted g1)
          (overlapping_loop fuel bg start emitted g2).
Proof.
  induction fuel as [ | fuel IH]; intros start emitted g1 g2 Hs.
  - split; [ reflexivity | exact Hs ].
  - simpl.
    destruct (sample_length_agree (block_length_sampler bg) (min_block_length bg)
                                  g1 g2 Hs) as [Hd Hg].
    destruct (sample_length _ _ g1) as [d1 g1'],
             (sample_length _ _ g2) as [d2 g2'].
    simpl in Hd, Hg. subst d2.
    destruct (input_length bg <=? _); [ split; [ reflexivity | exact Hg ] | ].
    apply IH. exact Hg.
Qed.

Lemma generate_blocks_agree (bg : BlockGenerator) (overlap_flag : bool)
      (g1 g2 : Generator) :
  same_stream g1 g2 ->
  agree (generate_blocks bg overlap_flag g1)
        (generate_blocks bg overlap_flag g2).
Proof.
  intro Hs. unfold generate_blocks. destruct overlap_flag.
  - apply overlapping_loop_agree. exact Hs.
  - apply non_overlapping_loop_agree. exact Hs.
Qed.

End Determinism.

Lemma resample_loop_agree (r : BlockResampler) (fuel : nat) :
  forall (total : nat) (indices : list block) (datas : list matrix)
         (g1 g2 : Generator),
    same_stream g1 g2 ->
    agree (resample_loop fuel r total indices datas g1)
          (resample_loop fuel r total indices datas g2).
Proof.
  induction fuel as [ | fuel IH]; intros total indices datas g1 g2 Hs.
  - split; [ reflexivity | exact Hs ].
  - cbn [resample_loop].
    destruct (List.length (resampler_X r) <=? total)%nat;
      [ split; [ reflexivity | exact Hs ] | ].
    destruct (choice_agree (block_probabilities r) g1 g2 Hs) as [Hi Hg].
    destruct (choice _ g1) as [i1 g1'], (choice _ g2) as [i2 g2'].
    simpl in Hi, Hg. subst i2.
    destruct (nth_error (resampler_blocks r) i1) as [b | ];
      [ | split; [ reflexivity | exact Hg ] ].
    destruct (nth_error (block_tapers r) i1) as [tw | ];
      [ | split; [ reflexivity | exact Hg ] ].
    destruct (np_take (resampler_X r) b) as [e | rows];
      [ split; [ reflexivity | exact Hg ] | ].
    destruct (_ <=? _)%nat; [ split; [ reflexivity | exact Hg ] | ].
    apply IH. exact Hg.
Qed.

Lemma resample_agree (r : BlockResampler) (g1 g2 : Generator) :
  same_stream g1 g2 ->
  agree (resample_block_indices_and_data r g1)
        (resample_block_indices_and_data r g2).
Proof. apply resample_loop_agree. Qed.

Lemma same_instance_refl (s : BlockBootstrap.t) : same_instance s s.
Proof. split; [ destruct s; reflexivity | apply same_stream_refl ]. Qed.

Section InstanceDeterminism.
Context `{Numerics}.

Lemma _generate_blocks_agree (s1 s2 : BlockBootstrap.t) (X : matrix) :
  same_instance s1 s2 ->
  fst (BlockBootstrap._generate_blocks s1 X)
  = fst (BlockBootstrap._generate_blocks s2 X)
  /\ same_instance (snd (BlockBootstrap._generate_blocks s1 X))
                   (snd (BlockBootstrap._generate_blocks s2 X)).
Proof.
  intros [Heq Hs]. remember (BlockBootstrap.rng s2) as g2 eqn:Hg2.
  subst s2. clear Hg2. unfold BlockBootstrap._generate_blocks.
  destruct s1 as [k g1 bl dist wrap ov comb bw tw ol ml bs br].
  instance_fields.
  destruct (BlockLengthSampler_init _ dist) as [e | sampler];
    [ split; [ reflexivity | split; [ reflexivity | exact Hs ] ] | ].
  destruct (BlockGenerator_init sampler _ wrap ol ml) as [e | bg];
    [ split; [ reflexivity | split; [ reflexivity | exact Hs ] ] | ].
  destruct (generate_blocks_agree bg ov g1 g2 Hs) as [Hb Hg].
  destruct (generate_blocks bg ov g1) as [b1 g1'],
           (generate_blocks bg ov g2) as [b2 g2'].
  simpl in Hb, Hg. subst b2. instance_fields.
  split; [ reflexivity | split; [ reflexivity | exact Hg ] ].
Qed.

Lemma single_bootstrap_agree (s1 s2 : BlockBootstrap.t) (X : matrix)
      (exog : option matrix) :
  same_instance s1 s2 ->
  fst (BlockBootstrap._generate_samples_single_bootstrap s1 X exog)
  = fst (BlockBootstrap._generate_samples_single_bootstrap s2 X exog)
  /\ same_instance
       (snd (BlockBootstrap._generate_samples_single_bootstrap s1 X exog))
       (snd (BlockBootstrap._generate_samples_single_bootstrap s2 X exog)).
Proof.
  intro Hsame.
  assert (Hstep : forall (t1 t2 : BlockBootstrap.t) bs br,
             same_instance t1 t2 ->
             let out (t : BlockBootstrap.t) :=
               let (r, g) :=
                 resample_block_indices_and_data br (BlockBootstrap.rng t) in
               match r with
               | inl e => (@raise (list block * list matrix) e,
                           BlockBootstrap.with_rng t g)
               | inr (block_indices, block_data) =>
                   (ok (block_indices, block_data),
                    if BlockBootstrap.combine_generation_and_sampling_flag
                         (BlockBootstrap.with_rng t g)
                    then BlockBootstrap.with_rng t g
                    else BlockBootstrap.with_cache
                           (BlockBootstrap.with_rng t g) bs br)
               end in
             fst (out t1) = fst (out t2)
             /\ same_instance (snd (out t1)) (snd (out t2))).
  { intros t1 t2 bs br [Heq Hs]. cbv beta zeta.
    remember (BlockBootstrap.rng t2) as g2 eqn:Hg2. subst t2. clear Hg2.
    destruct t1 as [k g1 bl dist wrap ov comb bw tw ol ml cbs cbr].
    instance_fields.
    destruct (resample_agree br g1 g2 Hs) as [Hr Hg].
    destruct (resample_block_indices_and_data br g1) as [r1 g1'],
             (resample_block_indices_and_data br g2) as [r2 g2'].
    simpl in Hr, Hg. subst r2.
    destruct r1 as [e | [bi bd]]; instance_fields.
    - split; [ reflexivity | split; [ reflexivity | exact Hg ] ].
    - destruct comb; instance_fields;
        (split; [ reflexivity | split; [ reflexivity | exact Hg ] ]). }
  unfold BlockBootstrap._generate_samples_single_bootstrap,
    BlockBootstrap.blocks_and_resampler.
  assert (Hfields :
            BlockBootstrap.combine_generation_and_sampling_flag s1
            = BlockBootstrap.combine_generation_and_sampling_flag s2
            /\ BlockBootstrap.blocks s1 = BlockBootstrap.blocks s2
            /\ BlockBootstrap.block_resampler s1
               = BlockBootstrap.block_resampler s2).
  { destruct Hsame as [Heq _]. rewrite <- Heq. destruct s1. repeat split. }
  destruct Hfields as [Hc [Hb Hr]]. rewrite <- Hc, <- Hb, <- Hr.
  assert (Hgen :
            match BlockBootstrap._generate_blocks s1 X,
                  BlockBootstrap._generate_blocks s2 X with
            | (r1, t1), (r2, t2) => r1 = r2 /\ same_instance t1 t2
            end).
  { pose proof (_generate_blocks_agree s1 s2 X Hsame) as Hg.
    destruct (BlockBootstrap._generate_blocks s1 X),
             (BlockBootstrap._generate_blocks s2 X). exact Hg. }
  assert (Hregen :
            let regen (s : BlockBootstrap.t) :=
              match
                match BlockBootstrap._generate_blocks s X with
                | (inl e, self1) =>
                    (@raise (list block * option BlockResampler) e, self1)
                | (inr bs, self1) =>
                    match BlockResampler_init X bs
                            (BlockBootstrap.block_weights self1)
                            (BlockBootstrap.tapered_weights self1) with
                    | inl e => (raise e, self1)
                    | inr br => (ok (bs, Some br), self1)
                    end
                end
              with
              | (inl e, self1) => (@raise (list block * list matrix) e, self1)
              | (inr (bs, None), self1) => (raise AttributeError, self1)
              | (inr (bs, Some br), self1) =>
                  let (r, g) :=
                    resample_block_indices_and_data br
                      (BlockBootstrap.rng self1) in
                  match r with
                  | inl e => (raise e, BlockBootstrap.with_rng self1 g)
                  | inr (block_indices, block_data) =>
                      (ok (block_indices, block_data),
                       if BlockBootstrap.combine_generation_and_sampling_flag
                            (BlockBootstrap.with_rng self1 g)
                       then BlockBootstrap.with_rng self1 g
                       else BlockBootstrap.with_cache
                              (BlockBootstrap.with_rng self1 g) bs br)
                  end
              end in
            fst (regen s1) = fst (regen s2)
            /\ same_instance (snd (regen s1)) (snd (regen s2))).
  { cbv beta zeta.
    destruct (BlockBootstrap._generate_blocks s1 X) as [r1 t1],
             (BlockBootstrap._generate_blocks s2 X) as [r2 t2].
    destruct Hgen as [Hr12 Ht]. subst r2.
    destruct r1 as [e | bs]; cbv beta iota delta [raise ok];
      [ split; [ reflexivity | exact Ht ] | ].
    assert (Hw : BlockBootstrap.block_weights t1 = BlockBootstrap.block_weights t2
                 /\ BlockBootstrap.tapered_weights t1
                    = BlockBootstrap.tapered_weights t2).
    { destruct Ht as [Heq _]. rewrite <- Heq. destruct t1. split; reflexivity. }
    destruct Hw as [Hbw Htw]. rewrite <- Hbw, <- Htw.
    destruct (BlockResampler_init X bs _ _) as [e | br];
      cbv beta iota delta [raise ok];
      [ split; [ reflexivity | exact Ht ] | ].
    apply (Hstep t1 t2 bs br Ht). }
  destruct (BlockBootstrap.combine_generation_and_sampling_flag s1);
    [ exact Hregen | ].
  destruct (BlockBootstrap.blocks s1) as [bs | ]; [ | exact Hregen ].
  destruct (BlockBootstrap.block_resampler s1) as [br | ].
  - apply (Hstep s1 s2 bs br Hsame).
  - split; [ reflexivity | exact Hsame ].
Qed.

Lemma generate_samples_loop_agree (k : nat) :
  forall (s1 s2 : BlockBootstrap.t) (X : matrix) (return_indices : bool)
         (exog : option matrix),
    same_instance s1 s2 ->
    same_iteration
      (BaseTimeSeriesBootstrap.generate_samples_loop k s1 X return_indices exog)
      (BaseTimeSeriesBootstrap.generate_samples_loop k s2 X return_indices exog).
Proof.
  induction k as [ | k IH]; intros s1 s2 X ri exog Hsame.
  - repeat split; try reflexivity; apply Hsame.
  - cbn [BaseTimeSeriesBootstrap.generate_samples_loop
         BaseTimeSeriesBootstrap._generate_samples_single_bootstrap
         BlockBootstrap.methods].
    pose proof (single_bootstrap_agree s1 s2 X exog Hsame) as [Hr Ht].
    destruct (BlockBootstrap._generate_samples_single_bootstrap s1 X exog)
      as [r1 t1],
      (BlockBootstrap._generate_samples_single_bootstrap s2 X exog)
      as [r2 t2].
    simpl in Hr, Ht. subst r2.
    destruct r1 as [e | [indices data]];
      [ repeat split; try reflexivity; apply Ht | ].
    destruct (np_concatenate data) as [e | d];
      [ repeat split; try reflexivity; apply Ht | ].
    destruct (IH t1 t2 X ri exog Ht) as [Hy [Hra Hf]].
    repeat split; cbn [yielded raised final].
    + rewrite Hy. reflexivity.
    + exact Hra.
    + apply Hf.
    + apply Hf.
Qed.

End InstanceDeterminism.

(** Two instances constructed from the same arguments, the seed among them,
    are the same instance. *)
Lemma same_seed_same_instance `{Numerics}
      (n_bootstraps block_length distribution : pyobj)
      (wrap overlap combine : bool) (seed : Z)
      (block_weights tapered_weights : option weight_source)
      (overlap_length min_block_length : option Z)
      (self1 self2 : BlockBootstrap.t) :
  BlockBootstrap.__init__ n_bootstraps block_length distribution wrap overlap
    combine (PyInt seed) block_weights tapered_weights overlap_length
    min_block_length = ok self1 ->
  BlockBootstrap.__init__ n_bootstraps block_length distribution wrap overlap
    combine (PyInt seed) block_weights tapered_weights overlap_length
    min_block_length = ok self2 ->
  same_instance self1 self2
  /\ BlockBootstrap.rng self1 = BaseTimeSeriesBootstrap.default_rng seed.
Proof.
  intros H1 H2. rewrite H1 in H2. injection H2 as <-.
  split; [ apply same_instance_refl | ].
  unfold BlockBootstrap.__init__ in H1.
  destruct (BaseTimeSeriesBootstrap.n_bootstraps_setter _); [ discriminate H1 | ].
  cbn in H1.
  destruct (BlockBootstrap.block_length_distribution_setter _);
    [ discriminate H1 | ].
  destruct (BlockBootstrap.block_length_setter _); [ discriminate H1 | ].
  injection H1 as <-. reflexivity.
Qed.

(** C6.  Two instances with the same configuration whose generators are in
    the same stream state (as two instances made from one seed are) produce
    the same block partition from [generate_blocks], the same output from
    [resample_block_indices_and_data], and, draw after draw, the same
    samples; their generators are again in the same stream state. *)
Theorem two_runs_identical `{Numerics} `{Utilities}
        (self1 self2 : BlockBootstrap.t)
        (Hsame : same_instance self1 self2) :
  (forall bg overlap_flag,
      agree (generate_blocks bg overlap_flag (BlockBootstrap.rng self1))
            (generate_blocks bg overlap_flag (BlockBootstrap.rng self2)))
  /\ (forall r,
         agree (resample_block_indices_and_data r (BlockBootstrap.rng self1))
               (resample_block_indices_and_data r (BlockBootstrap.rng self2)))
  /\ (forall X,
         fst (BlockBootstrap._generate_blocks self1 X)
         = fst (BlockBootstrap._generate_blocks self2 X))
  /\ (forall X exog,
         fst (BlockBootstrap._generate_samples_single_bootstrap self1 X exog)
         = fst (BlockBootstrap._generate_samples_single_bootstrap self2 X exog))
  /\ (forall X return_indices exog,
         same_iteration
           (BaseTimeSeriesBootstrap._generate_samples self1 X return_indices exog)
           (BaseTimeSeriesBootstrap._generate_samples self2 X return_indices exog))
  /\ (forall X return_indices exog,
         same_iteration
           (BaseTimeSeriesBootstrap.split self1 X return_indices exog)
           (BaseTimeSeriesBootstrap.split self2 X return_indices exog)).
Proof.
  assert (Hfields :
            BlockBootstrap.n_bootstraps self1 = BlockBootstrap.n_bootstraps self2
            /\ BlockBootstrap.block_length self1
               = BlockBootstrap.block_length self2).
  { destruct Hsame as [Heq _]. rewrite <- Heq. destruct self1.
    split; reflexivity. }
  destruct Hfields as [Hk Hbl].
  assert (Hgs : forall X return_indices exog,
             same_iteration
               (BaseTimeSeriesBootstrap._generate_samples self1 X
                  return_indices exog)
               (BaseTimeSeriesBootstrap._generate_samples self2 X
                  return_indices exog)).
  { intros X ri exog. unfold BaseTimeSeriesBootstrap._generate_samples.
    cbn [BaseTimeSeriesBootstrap.n_bootstraps BlockBootstrap.methods].
    rewrite <- Hk. apply generate_samples_loop_agree. exact Hsame. }
  assert (Hraise : forall e,
             same_iteration (mk_iteration [] (Some e) self1)
                            (mk_iteration [] (Some e) self2)).
  { intro e. split; [ reflexivity | split; [ reflexivity | exact Hsame ] ]. }
  split; [ intros; apply generate_blocks_agree, Hsame | ].
  split; [ intros; apply resample_agree, Hsame | ].
  split; [ intro X; apply _generate_blocks_agree, Hsame | ].
  split; [ intros; apply single_bootstrap_agree, Hsame | ].
  split; [ exact Hgs | ].
  intros X ri exog. unfold BaseTimeSeriesBootstrap.split.
  cbn [BaseTimeSeriesBootstrap.check_input BlockBootstrap.methods].
  unfold BlockBootstrap._check_input. rewrite <- Hbl.
  destruct (match BaseTimeSeriesBootstrap._check_input (as_2d X) with
            | inl e => raise e
            | inr _ => _ end); [ apply Hraise | ].
  destruct (time_series_split (as_2d X) (1 # 5)) as [X_train X_test].
  destruct exog as [ex | ]; [ | apply Hgs ].
  destruct (match BaseTimeSeriesBootstrap._check_input ex with
            | inl e => raise e
            | inr _ => _ end); [ apply Hraise | ].
  destruct (time_series_split ex (1 # 5)). apply Hgs.
Qed.

Lemma advanced_shifted_same_stream :
  same_stream advanced_generator shifted_generator.
Proof.
  intro k. cbn [words pos advanced_generator shifted_generator].
  f_equal. apply Nat.add_comm.
Defined.

Lemma two_runs_identical_witness :
  same_instance (example_bootstrap_on advanced_generator)
                (example_bootstrap_on shifted_generator)
  /\ forall X return_indices exog,
       same_iteration
         (@BaseTimeSeriesBootstrap._generate_samples _
            (@BlockBootstrap.methods example_numerics)
            (example_bootstrap_on advanced_generator) X return_indices exog)
         (@BaseTimeSeriesBootstrap._generate_samples _
            (@BlockBootstrap.methods example_numerics)
            (example_bootstrap_on shifted_generator) X return_indices exog).
Proof.
  assert (Hsame : same_instance (example_bootstrap_on advanced_generator)
                                (example_bootstrap_on shifted_generator)).
  { split; [ reflexivity | exact advanced_shifted_same_stream ]. }
  split; [ exact Hsame | ].
  exact (proj1 (proj2 (proj2 (proj2 (proj2
           (@two_runs_identical example_numerics example_utilities _ _ Hsame)))))).
Defined.

(* ================================================================== *)
(** * The kept partition and resampler *)
(* ================================================================== *)

Section Kept.
Context `{Numerics}.

(** [_generate_blocks] changes nothing of the instance but its generator. *)
Lemma _generate_blocks_only_draws (self : BlockBootstrap.t) (X : matrix) :
  snd (BlockBootstrap._generate_blocks self X)
  = BlockBootstrap.with_rng self
      (BlockBootstrap.rng (snd (BlockBootstrap._generate_blocks self X))).
Proof.
  unfold BlockBootstrap._generate_blocks.
  destruct (BlockLengthSampler_init _ _); [ destruct self; reflexivity | ].
  destruct (BlockGenerator_init _ _ _ _ _); [ destruct self; reflexivity | ].
  destruct (generate_blocks _ _ _) as [bs g]. destruct self; reflexivity.
Qed.

Lemma _generate_blocks_fields (self : BlockBootstrap.t) (X : matrix) :
  let self1 := snd (BlockBootstrap._generate_blocks self X) in
  BlockBootstrap.combine_generation_and_sampling_flag self1
  = BlockBootstrap.combine_generation_and_sampling_flag self
  /\ BlockBootstrap.block_weights self1 = BlockBootstrap.block_weights self
  /\ BlockBootstrap.tapered_weights self1 = BlockBootstrap.tapered_weights self
  /\ BlockBootstrap.blocks self1 = BlockBootstrap.blocks self
  /\ BlockBootstrap.block_resampler self1 = BlockBootstrap.block_resampler self.
Proof.
  cbv zeta. rewrite _generate_blocks_only_draws.
  destruct self; repeat split; reflexivity.
Qed.

(** With a kept partition and resampler and the flag off, a draw is one
    call of the kept resampler, whatever [X] is; the instance changes only
    in its generator. *)
Lemma single_bootstrap_reuses (self : BlockBootstrap.t) (X : matrix)
      (exog : option matrix) (bs : list block) (br : BlockResampler) :
  BlockBootstrap.combine_generation_and_sampling_flag self = false ->
  BlockBootstrap.blocks self = Some bs ->
  BlockBootstrap.block_resampler self = Some br ->
  BlockBootstrap._generate_samples_single_bootstrap self X exog
  = (fst (resample_block_indices_and_data br (BlockBootstrap.rng self)),
     BlockBootstrap.with_rng self
       (snd (resample_block_indices_and_data br (BlockBootstrap.rng self)))).
Proof.
  intros Hflag Hbs Hbr.
  unfold BlockBootstrap._generate_samples_single_bootstrap,
    BlockBootstrap.blocks_and_resampler.
  rewrite Hflag, Hbs, Hbr. cbv beta iota delta [ok raise].
  destruct (resample_block_indices_and_data br (BlockBootstrap.rng self))
    as [r g].
  destruct self as [k g0 bl dist wrap ov comb bw tw ol ml cbs cbr].
  instance_fields. subst comb cbs cbr.
  destruct r as [e | [bi bd]]; reflexivity.
Qed.

Lemma generate_samples_loop_keeps (k : nat) :
  forall (self : BlockBootstrap.t) (X : matrix) (return_indices : bool)
         (exog : option matrix) (bs : list block) (br : BlockResampler),
    BlockBootstrap.combine_generation_and_sampling_flag self = false ->
    BlockBootstrap.blocks self = Some bs ->
    BlockBootstrap.block_resampler self = Some br ->
    let it := BaseTimeSeriesBootstrap.generate_samples_loop
                k self X return_indices exog in
    BlockBootstrap.blocks (final it) = Some bs
    /\ BlockBootstrap.block_resampler (final it) = Some br.
Proof.
  induction k as [ | k IH]; intros self X ri exog bs br Hflag Hbs Hbr.
  - split; assumption.
  - cbn [BaseTimeSeriesBootstrap.generate_samples_loop
         BaseTimeSeriesBootstrap._generate_samples_single_bootstrap
         BlockBootstrap.methods].
    rewrite (single_bootstrap_reuses self X exog bs br Hflag Hbs Hbr).
    set (g := snd (resample_block_indices_and_data br (BlockBootstrap.rng self))).
    assert (Hkept :
              BlockBootstrap.combine_generation_and_sampling_flag
                (BlockBootstrap.with_rng self g) = false
              /\ BlockBootstrap.blocks (BlockBootstrap.with_rng self g) = Some bs
              /\ BlockBootstrap.block_resampler (BlockBootstrap.with_rng self g)
                 = Some br)
      by (repeat split; assumption).
    destruct Hkept as [Hf' [Hb' Hr']].
    destruct (fst (resample_block_indices_and_data br (BlockBootstrap.rng self)))
      as [e | [indices data]]; [ split; assumption | ].
    destruct (np_concatenate data) as [e | d]; [ split; assumption | ].
    cbn [final]. apply IH; assumption.
Qed.

End Kept.

(* ================================================================== *)
(** * The number of samples *)
(* ================================================================== *)

Section Counting.
Context {Self : Type} `{BaseTimeSeriesBootstrap.Methods Self}.

(** The loop yields one sample per turn until a draw raises: [k] samples
    when none does, fewer otherwise. *)
Lemma generate_samples_loop_count (k : nat) :
  forall (self : Self) (X : matrix) (return_indices : bool)
         (exog : option matrix),
    let it := BaseTimeSeriesBootstrap.generate_samples_loop
                k self X return_indices exog in
    match raised it with
    | None => List.length (yielded it) = k
    | Some _ => (List.length (yielded it) < k)%nat
    end.
Proof.
  induction k as [ | k IH]; intros self X ri exog.
  - reflexivity.
  - cbn [BaseTimeSeriesBootstrap.generate_samples_loop].
    destruct (BaseTimeSeriesBootstrap._generate_samples_single_bootstrap
                self X exog) as [[e | [indices data]] self1];
      [ cbn; lia | ].
    destruct (np_concatenate data) as [e | d]; [ cbn; lia | ].
    specialize (IH self1 X ri exog). cbv zeta in IH. cbn [yielded raised].
    destruct (raised _); cbn [List.length]; lia.
Qed.

End Counting.

(** C10.  The [n_bootstraps] setter stores a value only if it is an
    integer above 0 (a TypeError for a non-integer, a ValueError
    otherwise).  For an instance whose [n_bootstraps] is [k], the generators
    returned by [_generate_samples] and by [split] yield exactly [k] samples
    when the iteration runs to its end, and fewer when a check or a draw
    raises. *)
Theorem generators_yield_n_bootstraps
        {Self : Type} `{BaseTimeSeriesBootstrap.Methods Self} `{Utilities}
        (self : Self) (k : Z) (X : matrix) (X' : array_like)
        (return_indices : bool) (exog : option matrix)
        (Hk : BaseTimeSeriesBootstrap.n_bootstraps self = k) :
  (forall value,
      match BaseTimeSeriesBootstrap.n_bootstraps_setter value with
      | inr v => integral_value value = Some v /\ 0 < v
      | inl (TypeError _) => integral_value value = None
      | inl (ValueError _) => exists v, integral_value value = Some v /\ v <= 0
      | inl _ => False
      end)
  /\ (let it := BaseTimeSeriesBootstrap._generate_samples
                  self X return_indices exog in
      (raised it = None <-> List.length (yielded it) = Z.to_nat k)
      /\ (List.length (yielded it) <= Z.to_nat k)%nat)
  /\ (let it := BaseTimeSeriesBootstrap.split self X' return_indices exog in
      (raised it = None -> List.length (yielded it) = Z.to_nat k)
      /\ (List.length (yielded it) <= Z.to_nat k)%nat).
Proof.
  assert (Hgs : forall X0 exog0,
             let it := BaseTimeSeriesBootstrap._generate_samples
                         self X0 return_indices exog0 in
             (raised it = None <-> List.length (yielded it) = Z.to_nat k)
             /\ (List.length (yielded it) <= Z.to_nat k)%nat).
  { intros X0 exog0. cbv zeta. unfold BaseTimeSeriesBootstrap._generate_samples.
    rewrite Hk.
    pose proof (generate_samples_loop_count (Z.to_nat k) self X0
                  return_indices exog0) as Hc. cbv zeta in Hc.
    destruct (raised _) as [e | ].
    - split; [ split; [ discriminate | lia ] | lia ].
    - split; [ split; [ intros _; exact Hc | reflexivity ] | lia ]. }
  split; [ | split; [ apply Hgs | ] ].
  - intro value. unfold BaseTimeSeriesBootstrap.n_bootstraps_setter.
    destruct (integral_value value) as [v | ]; [ | reflexivity ].
    destruct (0 <? v) eqn:Hv; cbn.
    + apply Z.ltb_lt in Hv. split; [ reflexivity | exact Hv ].
    + apply Z.ltb_ge in Hv. exists v. split; [ reflexivity | exact Hv ].
  - cbv zeta. unfold BaseTimeSeriesBootstrap.split.
    destruct (BaseTimeSeriesBootstrap.check_input self (as_2d X'));
      [ cbn; split; [ discriminate | lia ] | ].
    destruct (time_series_split (as_2d X') (1 # 5)) as [X_train X_test].
    destruct exog as [ex | ].
    + destruct (BaseTimeSeriesBootstrap.check_input self ex);
        [ cbn; split; [ discriminate | lia ] | ].
      destruct (time_series_split ex (1 # 5)) as [ex_train ex_test].
      destruct (Hgs X_train (Some ex_train)) as [Hiff Hle].
      split; [ apply Hiff | exact Hle ].
    + destruct (Hgs X_train None) as [Hiff Hle].
      split; [ apply Hiff | exact Hle ].
Qed.

Lemma generators_yield_n_bootstraps_witness :
  BlockBootstrap.n_bootstraps (example_bootstrap (Some 3) false) = 3
  /\ raised (@BaseTimeSeriesBootstrap.split _
               (@BlockBootstrap.methods example_numerics) example_utilities
               (example_bootstrap (Some 3) false)
               (Array2 (example_series 10)) false None) = None
  /\ List.length
       (yielded (@BaseTimeSeriesBootstrap.split _
                   (@BlockBootstrap.methods example_numerics) example_utilities
                   (example_bootstrap (Some 3) false)
                   (Array2 (example_series 10)) false None))
     = Z.to_nat 3.
Proof.
  assert (Hdone : raised (@BaseTimeSeriesBootstrap.split _
                            (@BlockBootstrap.methods example_numerics) example_utilities
                            (example_bootstrap (Some 3) false)
                            (Array2 (example_series 10)) false None) = None)
    by (vm_compute; reflexivity).
  split; [ reflexivity | split; [ exact Hdone | ] ].
  exact (proj1 (proj2 (proj2
           (@generators_yield_n_bootstraps _
              (@BlockBootstrap.methods example_numerics) example_utilities
              (example_bootstrap (Some 3) false) 3 (example_series 10)
              (Array2 (example_series 10)) false None eq_refl)))
           Hdone).
Defined.

(* ================================================================== *)
(** * Resampling *)
(* ================================================================== *)

Lemma Qltb_lt (a b : Q) : Qltb a b = true <-> (a < b)%Q.
Proof.
  unfold Qltb. rewrite negb_true_iff. split.
  - intro Hle. apply Qnot_le_lt. intro Hba.
    apply Qle_bool_iff in Hba. congruence.
  - intro Hlt. destruct (Qle_bool b a) eqn:Hle; [ | reflexivity ].
    apply Qle_bool_iff in Hle. apply Qlt_not_le in Hlt. contradiction.
Qed.

(** A uniform variate lies in [0, 1). *)
Lemma random_unit_interval (g : Generator) :
  (0 <= fst (random g) < 1)%Q.
Proof.
  unfold random. simpl.
  pose proof (Z.mod_pos_bound (words g (pos g)) (2 ^ 53) ltac:(lia)) as Hb.
  unfold Qle, Qlt. simpl. lia.
Qed.

Lemma searchsorted_right_bound (cdf : list Q) (u : Q) :
  (exists c, In c cdf /\ (u < c)%Q) ->
  (searchsorted_right cdf u < List.length cdf)%nat.
Proof.
  induction cdf as [ | c t IH]; intros [c0 [Hin Hlt]]; [ destruct Hin | ].
  simpl. destruct (Qltb u c) eqn:Hc; [ lia | ].
  destruct Hin as [-> | Hin].
  - apply Qltb_lt in Hlt. congruence.
  - apply -> Nat.succ_lt_mono. apply IH. exists c0. split; assumption.
Qed.

Lemma cumsum_from_length (acc : Q) (p : list Q) :
  List.length (cumsum_from acc p) = List.length p.
Proof.
  revert acc. induction p as [ | x t IH]; intro acc; simpl;
    [ | rewrite IH ]; reflexivity.
Qed.

(** The running sums reach the total. *)
Lemma cumsum_from_reaches (p : list Q) :
  p <> [] ->
  forall (acc u : Q),
    (u < acc + Qsum p)%Q ->
    exists c, In c (cumsum_from acc p) /\ (u < c)%Q.
Proof.
  induction p as [ | x t IH]; intros Hne acc u Hu; [ congruence | ].
  destruct t as [ | y t'].
  - exists (acc + x)%Q. split; [ left; reflexivity | ].
    simpl in Hu. lra.
  - destruct (IH ltac:(discriminate) (acc + x)%Q u) as [c [Hin Hc]].
    + change (Qsum (x :: y :: t')) with (x + Qsum (y :: t'))%Q in Hu. lra.
    + exists c. split; [ right; exact Hin | exact Hc ].
Qed.

(** A draw from a distribution that sums to 1 is one of its positions. *)
Lemma choice_in_range (p : list Q) (g : Generator) :
  p <> [] -> (Qsum p == 1)%Q ->
  (fst (choice p g) < List.length p)%nat.
Proof.
  intros Hne Hsum. unfold choice.
  pose proof (random_unit_interval g) as Hu.
  destruct (random g) as [u g1]. simpl in Hu |- *.
  rewrite <- (cumsum_from_length 0 p).
  apply searchsorted_right_bound, cumsum_from_reaches; [ exact Hne | lra ].
Qed.

Lemma np_index_In {A : Type} (a : list A) (i : Z) (x : A) :
  np_index a i = ok x -> In x a.
Proof.
  unfold np_index.
  destruct (_ && _); [ | discriminate ].
  destruct (nth_error a _) eqn:Hn; [ | discriminate ].
  intro Hx. injection Hx as <-. apply (nth_error_In _ _ Hn).
Qed.

Lemma np_index_in_range {A : Type} (a : list A) (i : Z) :
  0 <= i < Z.of_nat (List.length a) -> exists x, np_index a i = ok x.
Proof.
  intro Hi. unfold np_index.
  destruct (i <? 0) eqn:Hneg; [ apply Z.ltb_lt in Hneg; lia | ].
  assert (Hc : (0 <=? i) && (i <? Z.of_nat (List.length a)) = true).
  { apply andb_true_iff. split; [ apply Z.leb_le | apply Z.ltb_lt ]; lia. }
  rewrite Hc.
  destruct (nth_error a (Z.to_nat i)) as [x | ] eqn:Hn;
    [ exists x; reflexivity | ].
  apply nth_error_None in Hn. lia.
Qed.

(** What [a[idx]] returns: one element of [a] for each index. *)
Lemma np_take_shape {A : Type} (a : list A) (idx : list Z) (r : list A) :
  np_take a idx = ok r ->
  List.length r = List.length idx /\ Forall (fun x => In x a) r.
Proof.
  revert r. induction idx as [ | i t IH]; intros r Hr; simpl in Hr.
  - injection Hr as <-. split; [ reflexivity | constructor ].
  - destruct (np_index a i) as [e | x] eqn:Hx; [ discriminate Hr | ].
    destruct (np_take a t) as [e | r'] eqn:Ht; [ discriminate Hr | ].
    injection Hr as <-. destruct (IH r' eq_refl) as [Hlen Hall].
    split; [ simpl; rewrite Hlen; reflexivity | ].
    constructor; [ apply (np_index_In a i x Hx) | exact Hall ].
Qed.

Lemma np_take_in_range {A : Type} (a : list A) (idx : list Z) :
  Forall (fun i => 0 <= i < Z.of_nat (List.length a)) idx ->
  exists r, np_take a idx = ok r.
Proof.
  induction idx as [ | i t IH]; intro Hall.
  - exists []. reflexivity.
  - inversion Hall as [ | ? ? Hi Ht]; subst.
    destruct (np_index_in_range a i Hi) as [x Hx].
    destruct (IH Ht) as [r Hr].
    exists (x :: r). simpl. rewrite Hx, Hr. reflexivity.
Qed.

Lemma apply_taper_shape (tw : list Q) (rows : matrix) (M : nat) :
  List.length tw = List.length rows ->
  Forall (fun row => List.length row = M) rows ->
  List.length (apply_taper tw rows) = List.length rows
  /\ Forall (fun row => List.length row = M) (apply_taper tw rows).
Proof.
  intros Hlen Hcols. unfold apply_taper. split.
  - rewrite length_map, length_combine, Hlen. apply Nat.min_id.
  - apply Forall_forall. intros row Hin.
    apply in_map_iff in Hin. destruct Hin as [[w r0] [Hrow Hin]].
    subst row. simpl. rewrite length_map.
    apply in_combine_r in Hin.
    rewrite Forall_forall in Hcols. apply Hcols, Hin.
Qed.

Lemma Forall2_nth_error {A B : Type} (P : A -> B -> Prop)
      (l1 : list A) (l2 : list B) (i : nat) (a : A) (b : B) :
  Forall2 P l1 l2 -> nth_error l1 i = Some a -> nth_error l2 i = Some b ->
  P a b.
Proof.
  intro Hall. revert i. induction Hall as [ | x y l1 l2 Hxy Hall IH];
    intros i Ha Hb; destruct i; simpl in Ha, Hb; try discriminate.
  - injection Ha as <-. injection Hb as <-. exact Hxy.
  - apply (IH i Ha Hb).
Qed.

Lemma In_firstn {A : Type} (n : nat) (l : list A) (x : A) :
  In x (firstn n l) -> In x l.
Proof.
  intro Hin. rewrite <- (firstn_skipn n l). apply in_or_app. left. exact Hin.
Qed.

(** Whatever the loop returns has exactly as many indices and rows as the
    source array, and rows with the columns of the source array. *)
Lemma resample_loop_shape (r : BlockResampler) (M : nat) :
  well_formed_resampler r ->
  Forall (fun row => List.length row = M) (resampler_X r) ->
  forall (fuel total : nat) (indices : list block) (datas : list matrix)
         (g : Generator),
    (total <= List.length (resampler_X r))%nat ->
    (List.length (resampler_X r) - total <= fuel)%nat ->
    List.length (List.concat indices) = total ->
    List.length (List.concat datas) = total ->
    Forall (fun row => List.length row = M) (List.concat datas) ->
    match fst (resample_loop fuel r total indices datas g) with
    | inr (i, d) =>
        List.length (List.concat i) = List.length (resampler_X r)
        /\ List.length (List.concat d) = List.length (resampler_X r)
        /\ Forall (fun row => List.length row = M) (List.concat d)
    | inl _ => True
    end.
Proof.
  intros [Hne Htap] Hcols. set (n := List.length (resampler_X r)).
  induction fuel as [ | fuel IH];
    intros total indices datas g Hle Hfuel Hi Hd Hc.
  - simpl. repeat split; try assumption; lia.
  - cbn [resample_loop]. fold n.
    destruct (n <=? total)%nat eqn:Hend.
    + apply Nat.leb_le in Hend. simpl. repeat split; try assumption; lia.
    + apply Nat.leb_gt in Hend.
      destruct (choice (block_probabilities r) g) as [i g1].
      destruct (nth_error (resampler_blocks r) i) as [b | ] eqn:Hb;
        [ | exact I ].
      destruct (nth_error (block_tapers r) i) as [tw | ] eqn:Htw;
        [ | exact I ].
      destruct (np_take (resampler_X r) b) as [e | rows] eqn:Hrows;
        [ exact I | ].
      destruct (np_take_shape _ _ _ Hrows) as [Hrlen Hrin].
      pose proof (Forall2_nth_error _ _ _ _ _ _ Htap Hb Htw) as Htwlen.
      simpl in Htwlen.
      assert (Hbne : (1 <= List.length b)%nat).
      { rewrite Forall_forall in Hne.
        specialize (Hne b (nth_error_In _ _ Hb)).
        destruct b; [ congruence | simpl; lia ]. }
      assert (Hrcols : Forall (fun row => List.length row = M) rows).
      { rewrite Forall_forall in Hrin, Hcols |- *.
        intros row Hrow. apply Hcols, Hrin, Hrow. }
      destruct (apply_taper_shape tw rows M ltac:(lia) Hrcols)
        as [Hdlen Hdcols].
      destruct (n <=? total + List.length b)%nat eqn:Hfit.
      * apply Nat.leb_le in Hfit. simpl.
        rewrite !concat_app, !length_app. simpl. rewrite !app_nil_r.
        rewrite !length_firstn, Hdlen, Hrlen, Hi, Hd.
        split; [ lia | split; [ lia | ] ].
        apply Forall_app. split; [ exact Hc | ].
        rewrite Forall_forall in Hdcols |- *.
        intros row Hrow. apply Hdcols. apply (In_firstn _ _ _ Hrow).
      * apply Nat.leb_gt in Hfit. apply IH.
        -- lia.
        -- lia.
        -- rewrite concat_app, length_app. simpl. rewrite app_nil_r. lia.
        -- rewrite concat_app, length_app. simpl. rewrite app_nil_r. lia.
        -- rewrite concat_app. simpl. rewrite app_nil_r.
           apply Forall_app. split; assumption.
Qed.

(** The draws of a ready resampler do not fail. *)
Lemma resample_loop_returns (r : BlockResampler) :
  ready_resampler r ->
  forall (fuel total : nat) (indices : list block) (datas : list matrix)
         (g : Generator),
    exists out, fst (resample_loop fuel r total indices datas g) = ok out.
Proof.
  intros [[Hne Htap] [Hrange [Hnil [Hplen Hsum]]]].
  induction fuel as [ | fuel IH]; intros total indices datas g.
  - eexists; reflexivity.
  - cbn [resample_loop].
    destruct (_ <=? total)%nat; [ eexists; reflexivity | ].
    pose proof (choice_in_range (block_probabilities r) g) as Hi.
    destruct (choice (block_probabilities r) g) as [i g1]. simpl in Hi.
    assert (Hlt : (i < List.length (resampler_blocks r))%nat).
    { rewrite <- Hplen. apply Hi; [ | exact Hsum ].
      intro Hp. rewrite Hp in Hplen. simpl in Hplen.
      destruct (resampler_blocks r); [ congruence | discriminate ]. }
    destruct (nth_error (resampler_blocks r) i) as [b | ] eqn:Hb;
      [ | apply nth_error_None in Hb; lia ].
    destruct (nth_error (block_tapers r) i) as [tw | ] eqn:Htw;
      [ | apply nth_error_None in Htw;
          rewrite <- (Forall2_length Htap) in Htw; lia ].
    rewrite Forall_forall in Hrange.
    destruct (np_take_in_range (resampler_X r) b
                (Hrange b (nth_error_In _ _ Hb))) as [rows Hrows].
    rewrite Hrows.
    destruct (_ <=? _)%nat; [ eexists; reflexivity | apply IH ].
Qed.

(** ** What the constructor establishes *)

Lemma as_arrays_blocks (bs : list block) :
  as_arrays (map block_array bs)
  = Some (map (fun b => mk_ndarray [List.length b] (IntBuf b)) bs).
Proof.
  induction bs as [ | b t IH]; simpl; [ | rewrite IH ]; reflexivity.
Qed.

Lemma traverse_Forall2 {A B : Type} (f : A -> result B) (l : list A)
      (r : list B) :
  traverse f l = ok r -> Forall2 (fun x y => f x = ok y) l r.
Proof.
  revert r. induction l as [ | x t IH]; intros r Hr; simpl in Hr.
  - injection Hr as <-. constructor.
  - destruct (f x) as [e | y] eqn:Hx; [ discriminate Hr | ].
    destruct (traverse f t) as [e | r'] eqn:Ht; [ discriminate Hr | ].
    injection Hr as <-. constructor; [ exact Hx | apply IH; reflexivity ].
Qed.

Lemma traverse_total {A B : Type} (f : A -> result B) (l : list A) :
  Forall (fun x => exists y, f x = ok y) l -> exists r, traverse f l = ok r.
Proof.
  induction l as [ | x t IH]; intro Hall.
  - exists []. reflexivity.
  - inversion Hall as [ | ? ? [y Hy] Ht]; subst.
    destruct (IH Ht) as [r Hr]. exists (y :: r). simpl.
    rewrite Hy, Hr. reflexivity.
Qed.

Lemma prepare_taper_length (src : option weight_source) (b : block)
      (tw : list Q) :
  prepare_taper src b = ok tw -> List.length tw = List.length b.
Proof.
  unfold prepare_taper. destruct src as [s | ].
  - destruct (validate_weights _); [ discriminate | ].
    destruct (_ =? _)%nat eqn:Hlen; [ | discriminate ].
    intro Htw. injection Htw as <-. rewrite length_map.
    apply Nat.eqb_eq, Hlen.
  - intro Htw. injection Htw as <-. apply repeat_length.
Qed.

Lemma validate_block_indices_blocks (bs : list block) (n : Z) :
  is_raise (validate_block_indices (PyList (map block_array bs)) n)
  = negb (negb (List.length bs =? 0)%nat
          && forallb (fun b => (0 <? List.length b)%nat) bs
          && forallb (fun b => forallb (fun z => z <? n) b) bs).
Proof.
  rewrite (validate_block_indices_accepted _ _ n (as_arrays_blocks bs)).
  unfold block_indices_accepted. rewrite length_map, !forallb_map_comp.
  match goal with
  | |- context [_ && forallb ?f bs && forallb ?g bs && forallb ?h bs] =>
      assert (Hf : forallb f bs = true)
        by (apply forallb_forall; intros b _; reflexivity);
      assert (Hg : forallb g bs = forallb (fun b => (0 <? List.length b)%nat) bs)
        by (apply forallb_pointwise; intro b; unfold size; simpl;
            rewrite Nat.mul_1_r; reflexivity);
      rewrite Hf, Hg, andb_true_r
  end.
  reflexivity.
Qed.

Lemma BlockResampler_init_well_formed (X : matrix) (bs : list block)
      (bw tw : option weight_source) (r : BlockResampler) :
  BlockResampler_init X bs bw tw = ok r ->
  resampler_X r = X /\ resampler_blocks r = bs /\ well_formed_resampler r.
Proof.
  unfold BlockResampler_init.
  pose proof (validate_block_indices_blocks bs (Z.of_nat (List.length X)))
    as Hval.
  destruct (validate_block_indices _ _); [ discriminate | ].
  destruct (prepare_block_weights _ _ _) as [e | p]; [ discriminate | ].
  destruct (traverse (prepare_taper tw) bs) as [e | t] eqn:Ht;
    [ discriminate | ].
  intro Hr. injection Hr as <-. simpl.
  split; [ reflexivity | split; [ reflexivity | ] ].
  simpl in Hval. symmetry in Hval. apply negb_false_iff in Hval.
  apply andb_true_iff in Hval. destruct Hval as [Hval _].
  apply andb_true_iff in Hval. destruct Hval as [_ Hsize].
  split; simpl.
  - apply Forall_forall. intros b Hb.
    rewrite forallb_forall in Hsize. specialize (Hsize b Hb).
    apply Nat.ltb_lt in Hsize. destruct b; [ simpl in Hsize; lia | discriminate ].
  - apply traverse_Forall2 in Ht. clear Hsize.
    induction Ht as [ | b v bs' t' Hv Ht IH]; constructor.
    + apply (prepare_taper_length tw b v Hv).
    + exact IH.
Qed.

(** ** Validated weights *)

Lemma forallb_false_exists {A : Type} (f : A -> bool) (l : list A) :
  forallb f l = false -> exists x, In x l /\ f x = false.
Proof.
  induction l as [ | a l IH]; simpl; [ discriminate | ].
  destruct (f a) eqn:Ha; simpl.
  - intro Hl. destruct (IH Hl) as [x [Hin Hx]].
    exists x. split; [ right; exact Hin | exact Hx ].
  - intros _. exists a. split; [ left; reflexivity | exact Ha ].
Qed.

Lemma existsb_false_forall {A : Type} (f : A -> bool) (l : list A) (x : A) :
  existsb f l = false -> In x l -> f x = false.
Proof.
  intros He Hin. destruct (f x) eqn:Hx; [ | reflexivity ].
  assert (Ht : existsb f l = true)
    by (apply existsb_exists; exists x; split; assumption).
  congruence.
Qed.

(** Weights that pass validation are real numbers, none below 0 and one at
    least above 0. *)
Lemma validated_weights_positive (w : ndarray) :
  validate_weights w = ok tt ->
  Forall (fun q => (0 <= q)%Q) (real_values w)
  /\ exists q, In q (real_values w) /\ (0 < q)%Q.
Proof.
  intro Hok.
  pose proof (validate_weights_rejected w) as Hrej.
  rewrite Hok in Hrej. simpl in Hrej. symmetry in Hrej.
  unfold weights_rejected in Hrej.
  rewrite all_isfinite_values, any_lt0_values, any_iscomplex_values,
    all_eq0_values in Hrej.
  repeat (apply orb_false_iff in Hrej; destruct Hrej as [Hrej ?]).
  apply negb_false_iff in Hrej.
  rename Hrej into Hfin, H2 into Hlt, H1 into Hcplx, H0 into Hzero.
  assert (Hnonneg : forall z, In z (values w) ->
                              exists q, fst z = Finite q /\ (0 <= q)%Q).
  { intros z Hz. rewrite forallb_forall in Hfin. specialize (Hfin z Hz).
    pose proof (existsb_false_forall _ _ z Hlt Hz) as Hz0.
    unfold is_nonfinite_value in Hfin. unfold complex_lt0 in Hz0.
    apply orb_false_iff in Hz0. destruct Hz0 as [Hz0 _].
    destruct (fst z) as [q | | | ]; simpl in Hfin, Hz0; try discriminate.
    exists q. split; [ reflexivity | ].
    destruct (Qlt_le_dec q 0) as [Hneg | Hpos]; [ | exact Hpos ].
    apply Qltb_lt in Hneg. congruence. }
  split.
  - unfold real_values. apply Forall_forall. intros q Hq.
    apply in_map_iff in Hq. destruct Hq as [z [Hq Hz]]. subst q.
    destruct (Hnonneg z Hz) as [q [Hre Hpos]].
    unfold real_value. rewrite Hre. exact Hpos.
  - destruct (forallb_false_exists _ _ Hzero) as [z [Hz Hnz]].
    pose proof (existsb_false_forall _ _ z Hcplx Hz) as Hreal.
    unfold is_complex_value in Hreal. apply negb_false_iff in Hreal.
    unfold is_zero_value in Hnz. rewrite Hreal, andb_true_r in Hnz.
    destruct (Hnonneg z Hz) as [q [Hre Hpos]].
    exists q. split.
    + unfold real_values. apply in_map_iff. exists z.
      split; [ unfold real_value; rewrite Hre; reflexivity | exact Hz ].
    + rewrite Hre in Hnz. simpl in Hnz.
      apply Qle_lt_or_eq in Hpos. destruct Hpos as [Hlt0 | Heq]; [ exact Hlt0 | ].
      assert (Ht : Qeq_bool q 0 = true)
        by (apply Qeq_bool_iff; symmetry; exact Heq).
      congruence.
Qed.

(** ** Sums of weights *)

Lemma Qsum_nonneg (l : list Q) :
  Forall (fun q => (0 <= q)%Q) l -> (0 <= Qsum l)%Q.
Proof.
  induction 1 as [ | x t Hx Ht IH]; simpl; [ apply Qle_refl | lra ].
Qed.

Lemma Qsum_ge_element (l : list Q) (x : Q) :
  Forall (fun q => (0 <= q)%Q) l -> In x l -> (x <= Qsum l)%Q.
Proof.
  induction 1 as [ | y t Hy Ht IH]; intro Hin; [ destruct Hin | ].
  simpl. pose proof (Qsum_nonneg t Ht) as Hs.
  destruct Hin as [-> | Hin]; [ lra | ].
  specialize (IH Hin). lra.
Qed.

Lemma Qsum_map_div (l : list Q) (t : Q) :
  ~ (t == 0)%Q ->
  (Qsum (map (fun s => s / t) l) == Qsum l / t)%Q.
Proof.
  intro Ht. induction l as [ | x l IH]; simpl.
  - field. exact Ht.
  - rewrite IH. field. exact Ht.
Qed.

Lemma Qsum_map_const {A : Type} (l : list A) (c : Q) :
  (Qsum (map (fun _ => c) l) == inject_Z (Z.of_nat (List.length l)) * c)%Q.
Proof.
  induction l as [ | x l IH].
  - simpl. ring.
  - change (Qsum (map (fun _ => c) (x :: l)))
      with (c + Qsum (map (fun _ => c) l))%Q.
    rewrite IH. cbn [List.length]. rewrite Nat2Z.inj_succ.
    unfold Z.succ. rewrite inject_Z_plus. ring.
Qed.

Lemma np_take_In {A : Type} (a : list A) (idx : list Z) (r : list A)
      (i : Z) (x : A) :
  np_take a idx = ok r -> In i idx -> np_index a i = ok x -> In x r.
Proof.
  revert r. induction idx as [ | j t IH]; intros r Hr Hin Hx;
    [ destruct Hin | ].
  simpl in Hr.
  destruct (np_index a j) as [e | y] eqn:Hy; [ discriminate Hr | ].
  destruct (np_take a t) as [e | r'] eqn:Ht; [ discriminate Hr | ].
  injection Hr as <-. destruct Hin as [-> | Hin].
  - left. rewrite Hx in Hy. injection Hy as <-. reflexivity.
  - right. apply (IH r' eq_refl Hin Hx).
Qed.

Lemma Forall2_In_l {A B : Type} (P : A -> B -> Prop) (l1 : list A)
      (l2 : list B) (a : A) :
  Forall2 P l1 l2 -> In a l1 -> exists b, In b l2 /\ P a b.
Proof.
  induction 1 as [ | x y l1 l2 Hxy Hall IH]; intro Hin; [ destruct Hin | ].
  destruct Hin as [-> | Hin].
  - exists y. split; [ left; reflexivity | exact Hxy ].
  - destruct (IH Hin) as [b [Hb Hab]]. exists b.
    split; [ right; exact Hb | exact Hab ].
Qed.

Lemma Forall2_In_r {A B : Type} (P : A -> B -> Prop) (l1 : list A)
      (l2 : list B) (b : B) :
  Forall2 P l1 l2 -> In b l2 -> exists a, In a l1 /\ P a b.
Proof.
  induction 1 as [ | x y l1 l2 Hxy Hall IH]; intro Hin; [ destruct Hin | ].
  destruct Hin as [-> | Hin].
  - exists x. split; [ left; reflexivity | exact Hxy ].
  - destruct (IH Hin) as [a [Ha Hab]]. exists a.
    split; [ right; exact Ha | exact Hab ].
Qed.

Lemma inject_Z_of_nat_nonzero (n : nat) :
  n <> 0%nat -> ~ (inject_Z (Z.of_nat n) == 0)%Q.
Proof.
  intros Hn Heq. unfold Qeq in Heq. simpl in Heq. lia.
Qed.

(** Step 1 on a valid configuration: a probability for each block, and
    probabilities that sum to 1. *)
Lemma prepare_block_weights_valid (src : option weight_source) (n : Z)
      (bs : list block) :
  bs <> [] ->
  Forall (fun b => b <> [] /\ Forall (fun i => 0 <= i < n) b) bs ->
  (forall i, 0 <= i < n -> exists b, In b bs /\ In i b) ->
  match src with
  | None => True
  | Some s =>
      validate_weights (weights_of s n) = ok tt
      /\ Z.of_nat (List.length (real_values (weights_of s n))) = n
  end ->
  exists p,
    prepare_block_weights src n bs = ok p
    /\ List.length p = List.length bs
    /\ (Qsum p == 1)%Q.
Proof.
  intros Hne Hrange Hcover Hw. unfold prepare_block_weights. cbv zeta.
  assert (Hlen : List.length bs <> 0%nat)
    by (destruct bs; [ congruence | discriminate ]).
  destruct src as [s | ].
  - destruct Hw as [Hval Hsize].
    change (match s with
            | WeightArray a => a
            | WeightCallable f => f n
            end) with (weights_of s n).
    set (w := real_values (weights_of s n)) in *.
    rewrite Hval.
    destruct (validated_weights_positive _ Hval) as [Hnonneg [q [Hq Hqpos]]].
    fold w in Hnonneg, Hq.
    set (f := fun b : block =>
                match np_take w b with
                | inl _ => @raise Q ValidationError
                | inr ws => ok (Qsum ws)
                end).
    assert (Hf : forall b, In b bs ->
                           exists ws, np_take w b = ok ws /\ f b = ok (Qsum ws)).
    { intros b Hb. rewrite Forall_forall in Hrange.
      destruct (Hrange b Hb) as [_ Hbr].
      destruct (np_take_in_range w b) as [ws Hws].
      - rewrite Hsize. exact Hbr.
      - exists ws. split; [ exact Hws | ]. unfold f. rewrite Hws. reflexivity. }
    destruct (traverse_total f bs) as [sums Hsums].
    { apply Forall_forall. intros b Hb. destruct (Hf b Hb) as [ws [_ Hfb]].
      exists (Qsum ws). exact Hfb. }
    match goal with
    | |- context [@traverse ?A ?B ?f0 bs] =>
        change (@traverse A B f0 bs) with (traverse f bs)
    end.
    rewrite Hsums. unfold ok. cbv beta iota.
    pose proof (traverse_Forall2 f bs sums Hsums) as Hrel.
    assert (Hsums_nonneg : Forall (fun s0 => (0 <= s0)%Q) sums).
    { apply Forall_forall. intros s0 Hs0.
      destruct (Forall2_In_r _ _ _ s0 Hrel Hs0) as [b [Hb Hfb]].
      destruct (Hf b Hb) as [ws [Hws Hfb']].
      rewrite Hfb' in Hfb. injection Hfb as <-.
      apply Qsum_nonneg. apply Forall_forall. intros x Hx.
      destruct (np_take_shape _ _ _ Hws) as [_ Hin].
      rewrite Forall_forall in Hin, Hnonneg. apply Hnonneg, Hin, Hx. }
    assert (Htotal : (0 < Qsum sums)%Q).
    { destruct (In_nth_error _ _ Hq) as [j Hj].
      assert (Hjlt : (j < List.length w)%nat)
        by (apply nth_error_Some; congruence).
      destruct (Hcover (Z.of_nat j) ltac:(lia)) as [b [Hb Hjb]].
      destruct (Hf b Hb) as [ws [Hws Hfb]].
      destruct (Forall2_In_l _ _ _ b Hrel Hb) as [s0 [Hs0 Hfs0]].
      rewrite Hfb in Hfs0. injection Hfs0 as Hs0eq.
      assert (Hidx : np_index w (Z.of_nat j) = ok q).
      { unfold np_index.
        destruct (Z.of_nat j <? 0) eqn:Hneg; [ apply Z.ltb_lt in Hneg; lia | ].
        assert (Hc : (0 <=? Z.of_nat j)
                     && (Z.of_nat j <? Z.of_nat (List.length w)) = true).
        { apply andb_true_iff.
          split; [ apply Z.leb_le | apply Z.ltb_lt ]; lia. }
        rewrite Hc, Nat2Z.id, Hj. reflexivity. }
      pose proof (np_take_In _ _ _ _ _ Hws Hjb Hidx) as Hqws.
      assert (Hws_nonneg : Forall (fun x => (0 <= x)%Q) ws).
      { apply Forall_forall. intros x Hx.
        destruct (np_take_shape _ _ _ Hws) as [_ Hin].
        rewrite Forall_forall in Hin, Hnonneg. apply Hnonneg, Hin, Hx. }
      pose proof (Qsum_ge_element ws q Hws_nonneg Hqws) as Hge.
      pose proof (Qsum_ge_element sums s0 Hsums_nonneg Hs0) as Hge'.
      rewrite <- Hs0eq in Hge'. lra. }
    assert (Hnz : ~ (Qsum sums == 0)%Q) by lra.
    destruct (Qeq_bool (Qsum sums) 0) eqn:Hz;
      [ apply Qeq_bool_iff in Hz; contradiction | ].
    eexists. split; [ reflexivity | ].
    split.
    + rewrite length_map. symmetry. apply (Forall2_length Hrel).
    + rewrite (Qsum_map_div sums (Qsum sums) Hnz). field. exact Hnz.
  - eexists. split; [ reflexivity | ].
    split; [ apply length_map | ].
    rewrite Qsum_map_const. field.
    apply inject_Z_of_nat_nonzero, Hlen.
Qed.

(** The constructor accepts a valid configuration, and its resampler is
    ready. *)
Lemma BlockResampler_init_valid (X : matrix) (M : nat) (bs : list block)
      (bw tw : option weight_source) :
  valid_configuration X M bs bw tw ->
  exists r, BlockResampler_init X bs bw tw = ok r /\ ready_resampler r.
Proof.
  intros [Hcols [Hne [Hrange [Hcover [Hbw Htw]]]]].
  set (n := Z.of_nat (List.length X)) in *.
  assert (Hvalid : validate_block_indices (PyList (map block_array bs)) n
                   = ok tt).
  { pose proof (validate_block_indices_blocks bs n) as Hval.
    assert (Hacc : negb (List.length bs =? 0)%nat
                   && forallb (fun b => (0 <? List.length b)%nat) bs
                   && forallb (fun b => forallb (fun z => z <? n) b) bs = true).
    { rewrite Forall_forall in Hrange.
      repeat (apply andb_true_iff; split).
      - apply negb_true_iff, Nat.eqb_neq.
        destruct bs; [ congruence | discriminate ].
      - apply forallb_forall. intros b Hb. destruct (Hrange b Hb) as [Hb0 _].
        apply Nat.ltb_lt. destruct b; [ congruence | simpl; lia ].
      - apply forallb_forall. intros b Hb. destruct (Hrange b Hb) as [_ Hbr].
        apply forallb_forall. intros z Hz. rewrite Forall_forall in Hbr.
        apply Z.ltb_lt. apply (Hbr z Hz). }
    rewrite Hacc in Hval.
    destruct (validate_block_indices _ _) as [e | []];
      [ cbn in Hval; discriminate Hval | reflexivity ]. }
  destruct (prepare_block_weights_valid bw n bs Hne Hrange Hcover)
    as [p [Hp [Hplen Hpsum]]].
  { destruct bw as [s | ]; [ | exact I ].
    destruct Hbw as [Hv Hl]. split; [ exact Hv | rewrite Hl; reflexivity ]. }
  destruct (traverse_total (prepare_taper tw) bs) as [t Ht].
  { apply Forall_forall. intros b Hb. unfold prepare_taper. cbv zeta.
    destruct tw as [s | ]; [ | eexists; reflexivity ].
    rewrite Forall_forall in Htw. destruct (Htw b Hb) as [Hv Hl].
    change (match s with
            | WeightArray a => a
            | WeightCallable f => f (Z.of_nat (List.length b))
            end) with (weights_of s (Z.of_nat (List.length b))).
    rewrite Hv, Hl, Nat.eqb_refl. eexists; reflexivity. }
  exists (mk_BlockResampler X bs p t). split.
  - unfold BlockResampler_init. fold n. rewrite Hvalid, Hp, Ht. reflexivity.
  - assert (Hinit : BlockResampler_init X bs bw tw
                    = ok (mk_BlockResampler X bs p t))
      by (unfold BlockResampler_init; fold n;
          rewrite Hvalid, Hp, Ht; reflexivity).
    destruct (BlockResampler_init_well_formed _ _ _ _ _ Hinit)
      as [_ [_ Hwf]].
    split; [ exact Hwf | ]. simpl.
    split; [ | split; [ exact Hne | split; [ exact Hplen | exact Hpsum ] ] ].
    apply Forall_forall. intros b Hb. rewrite Forall_forall in Hrange.
    apply (Hrange b Hb).
Qed.

(** C2.  For a valid configuration the resampler is constructed, and
    [resample_block_indices_and_data] returns, for every state of the
    stream, index arrays whose concatenation has exactly [N] entries and
    data arrays whose concatenation, which [np.concatenate] forms in
    [_generate_samples], has exactly [N] rows of [M] columns. *)
Theorem resample_returns_input_shape
        (X : matrix) (M : nat) (blocks : list block)
        (block_weights tapered_weights : option weight_source)
        (Hvalid : valid_configuration X M blocks block_weights tapered_weights) :
  exists r,
    BlockResampler_init X blocks block_weights tapered_weights = ok r
    /\ forall g, exists indices datas g',
         resample_block_indices_and_data r g = (ok (indices, datas), g')
         /\ List.length (List.concat indices) = List.length X
         /\ np_concatenate datas = ok (List.concat datas)
         /\ List.length (List.concat datas) = List.length X
         /\ Forall (fun row => List.length row = M) (List.concat datas).
Proof.
  destruct (BlockResampler_init_valid X M blocks block_weights tapered_weights
              Hvalid) as [r [Hinit Hready]].
  exists r. split; [ exact Hinit | ]. intro g.
  destruct (BlockResampler_init_well_formed _ _ _ _ _ Hinit)
    as [HX [Hbs Hwf]].
  destruct Hvalid as [Hcols [Hne [Hrange _]]].
  unfold resample_block_indices_and_data.
  destruct (resample_loop_returns r Hready (List.length (resampler_X r))
              0%nat [] [] g) as [[indices datas] Hout].
  pose proof (resample_loop_shape r M Hwf ltac:(rewrite HX; exact Hcols)
                (List.length (resampler_X r)) 0%nat [] [] g
                ltac:(lia) ltac:(lia) eq_refl eq_refl ltac:(constructor))
    as Hshape.
  destruct (resample_loop _ r 0 [] [] g) as [res g'].
  simpl in Hout, Hshape. subst res. rewrite HX in Hshape.
  destruct Hshape as [Hi [Hd Hc]].
  exists indices, datas, g'.
  split; [ reflexivity | split; [ exact Hi | split; [ | split; assumption ] ] ].
  assert (Hn : (1 <= List.length X)%nat).
  { destruct blocks as [ | b bs]; [ congruence | ].
    inversion Hrange as [ | ? ? [Hb Hbr] _]; subst.
    destruct b as [ | i b]; [ congruence | ].
    inversion Hbr; subst. lia. }
  unfold np_concatenate. destruct datas; [ simpl in Hd; lia | reflexivity ].
Qed.

Lemma example_configuration_valid :
  valid_configuration (example_series 8) 1 example_blocks
                      (Some example_weights) (Some example_window).
Proof.
  unfold valid_configuration. cbv zeta.
  split; [ repeat constructor | ].
  split; [ discriminate | ].
  split; [ repeat constructor; try discriminate; simpl; lia | ].
  split.
  - intros i Hi. simpl in Hi.
    assert (Hcases : i = 0 \/ i = 1 \/ i = 2 \/ i = 3 \/ i = 4 \/ i = 5
                     \/ i = 6 \/ i = 7) by lia.
    destruct Hcases as [-> | [-> | [-> | [-> | [-> | [-> | [-> | ->]]]]]]].
    + exists [0; 1; 2]. simpl. tauto.
    + exists [0; 1; 2]. simpl. tauto.
    + exists [0; 1; 2]. simpl. tauto.
    + exists [3; 4; 5]. simpl. tauto.
    + exists [3; 4; 5]. simpl. tauto.
    + exists [3; 4; 5]. simpl. tauto.
    + exists [6; 7]. simpl. tauto.
    + exists [6; 7]. simpl. tauto.
  - split; [ split; reflexivity | ].
    repeat constructor.
Defined.

Lemma resample_returns_input_shape_witness :
  valid_configuration (example_series 8) 1 example_blocks
                      (Some example_weights) (Some example_window)
  /\ exists r,
       BlockResampler_init (example_series 8) example_blocks
         (Some example_weights) (Some example_window) = ok r
       /\ forall g, exists indices datas g',
            resample_block_indices_and_data r g = (ok (indices, datas), g')
            /\ List.length (List.concat indices)
               = List.length (example_series 8)
            /\ np_concatenate datas = ok (List.concat datas)
            /\ List.length (List.concat datas) = List.length (example_series 8)
            /\ Forall (fun row => List.length row = 1%nat) (List.concat datas).
Proof.
  split; [ exact example_configuration_valid | ].
  exact (resample_returns_input_shape (example_series 8) 1 example_blocks
           (Some example_weights) (Some example_window)
           example_configuration_valid).
Defined.

(* ================================================================== *)
(** * Draws that cannot fail *)
(* ================================================================== *)

Lemma length_le_concat {A : Type} (bs : list (list A)) (b : list A) :
  In b bs -> (List.length b <= List.length (List.concat bs))%nat.
Proof.
  induction bs as [ | b0 bs IH]; intro Hin; [ destruct Hin | ].
  simpl. rewrite length_app. destruct Hin as [-> | Hin]; [ lia | ].
  specialize (IH Hin). lia.
Qed.

(** A resampler whose draws cannot fail returns, from every state of the
    stream, as many indices and rows as its array has rows. *)
Lemma ready_resampler_draw (br : BlockResampler) (M : nat) :
  ready_resampler br ->
  Forall (fun row => List.length row = M) (resampler_X br) ->
  forall g, exists indices datas g',
    resample_block_indices_and_data br g = (ok (indices, datas), g')
    /\ List.length (List.concat indices) = List.length (resampler_X br)
    /\ List.length (List.concat datas) = List.length (resampler_X br)
    /\ Forall (fun row => List.length row = M) (List.concat datas)
    /\ np_concatenate datas = ok (List.concat datas).
Proof.
  intros Hready Hcols g.
  pose proof Hready as [Hwf [Hrange [Hnil _]]].
  unfold resample_block_indices_and_data.
  destruct (resample_loop_returns br Hready (List.length (resampler_X br))
              0%nat [] [] g) as [[indices datas] Hout].
  pose proof (resample_loop_shape br M Hwf Hcols
                (List.length (resampler_X br)) 0%nat [] [] g
                ltac:(lia) ltac:(lia) eq_refl eq_refl ltac:(constructor))
    as Hshape.
  destruct (resample_loop _ br 0 [] [] g) as [res g'].
  simpl in Hout, Hshape. subst res. destruct Hshape as [Hi [Hd Hc]].
  exists indices, datas, g'.
  split; [ reflexivity | split; [ exact Hi | split; [ exact Hd | split ] ] ];
    [ exact Hc | ].
  assert (Hn : (1 <= List.length (resampler_X br))%nat).
  { destruct Hwf as [Hne _].
    destruct (resampler_blocks br) as [ | b bs]; [ congruence | ].
    inversion Hne as [ | ? ? Hb _]; subst.
    inversion Hrange as [ | ? ? Hbr _]; subst.
    destruct b as [ | i b]; [ congruence | ].
    inversion Hbr; subst. lia. }
  unfold np_concatenate. destruct datas; [ simpl in Hd; lia | reflexivity ].
Qed.

Section Ready.
Context `{Numerics}.

(** With a valid configuration, [_generate_blocks] returns a partition of
    the positions of [X] that, with the weight sources, is a valid
    configuration of the resampler. *)
Lemma valid_setup_blocks (self : BlockBootstrap.t) (X : matrix) (M : nat) :
  valid_setup self X M ->
  exists bs self1,
    BlockBootstrap._generate_blocks self X = (ok bs, self1)
    /\ List.concat bs = arange 0 (List.length X)
    /\ valid_configuration X M bs (BlockBootstrap.block_weights self)
                           (BlockBootstrap.tapered_weights self).
Proof.
  intros [Hn [Hcols [Hov [Hwrap [[d Hd] [Havg [Hmin [Hbw Htw]]]]]]]].
  unfold BlockBootstrap._generate_blocks, BlockLengthSampler_init.
  rewrite Hd. cbv beta iota delta [ok raise].
  unfold BlockGenerator_init. cbn [avg_block_length].
  set (n := Z.of_nat (List.length X)) in *.
  destruct (Z.leb_spec n 0); [ lia | ].
  destruct (Z.ltb_spec n match BlockBootstrap.min_block_length self with
                         | Some v => v
                         | None => 1
                         end) as [Hml | _];
    [ destruct (BlockBootstrap.min_block_length self); lia | ].
  destruct (Z.ltb_spec n (BlockBootstrap.effective_block_length self X));
    [ lia | ].
  rewrite Hov, Hwrap. unfold generate_blocks.
  set (bg := mk_BlockGenerator _ n false _ _).
  cbv beta iota delta [ok raise].
  pose proof (non_overlapping_loop_partition bg eq_refl
                (Z.to_nat (input_length bg)) 0 [] (BlockBootstrap.rng self))
    as Hloop.
  cbv zeta in Hloop. change (input_length bg) with n in Hloop.
  destruct Hloop as [Hcat Hne];
    [ lia | rewrite Z.sub_0_r; apply Nat.le_refl | reflexivity | constructor | ].
  change (input_length bg) with n.
  destruct (non_overlapping_loop (Z.to_nat n) bg 0 [] (BlockBootstrap.rng self))
    as [bs g] eqn:Hrun.
  cbn [fst] in Hcat, Hne.
  assert (Hnat : Z.to_nat n = List.length X) by (unfold n; lia).
  rewrite Hnat in Hcat.
  exists bs, (BlockBootstrap.with_rng self g).
  split; [ reflexivity | split; [ exact Hcat | ] ].
  assert (Hin : forall b i, In b bs -> In i b -> 0 <= i < n).
  { intros b i Hb Hi.
    assert (Hc : In i (List.concat bs))
      by (apply in_concat; exists b; split; assumption).
    rewrite Hcat in Hc. apply arange_In in Hc. unfold n. lia. }
  split; [ exact Hcols | split; [ | split; [ | split; [ | split ] ] ] ].
  - intro Hnil. subst bs. simpl in Hcat.
    apply (f_equal (@List.length Z)) in Hcat.
    rewrite arange_length in Hcat. simpl in Hcat. lia.
  - apply Forall_forall. intros b Hb. split.
    + rewrite Forall_forall in Hne. apply Hne. exact Hb.
    + apply Forall_forall. intros i Hi. apply (Hin b i Hb Hi).
  - intros i Hi.
    assert (Hc : In i (List.concat bs))
      by (rewrite Hcat; apply arange_In; unfold n in Hi; lia).
    apply in_concat in Hc. destruct Hc as [b [Hb Hib]].
    exists b. split; assumption.
  - destruct (BlockBootstrap.block_weights self) as [s | ]; [ | exact I ].
    exact Hbw.
  - destruct (BlockBootstrap.tapered_weights self) as [s | ]; [ | exact I ].
    apply Forall_forall. intros b Hb. cbv zeta. apply Htw.
    split.
    + rewrite Forall_forall in Hne. specialize (Hne b Hb).
      destruct b; [ congruence | simpl; lia ].
    + pose proof (length_le_concat bs b Hb) as Hle.
      rewrite Hcat, arange_length in Hle. exact Hle.
Qed.


(** The first draw of an instance that has to generate its partition, with
    a valid configuration: it returns, and what it generated is the
    partition and the resampler of the engine. *)
Lemma fresh_draw_returns (self : BlockBootstrap.t) (X : matrix)
      (exog : option matrix) (M : nat) :
  BlockBootstrap.combine_generation_and_sampling_flag self = true
  \/ BlockBootstrap.blocks self = None ->
  valid_setup self X M ->
  exists bs br self1 indices datas g,
    BlockBootstrap._generate_blocks self X = (ok bs, self1)
    /\ BlockResampler_init X bs (BlockBootstrap.block_weights self)
         (BlockBootstrap.tapered_weights self) = ok br
    /\ ready_resampler br
    /\ resample_block_indices_and_data br (BlockBootstrap.rng self1)
       = (ok (indices, datas), g)
    /\ BlockBootstrap._generate_samples_single_bootstrap self X exog
       = (ok (indices, datas),
          if BlockBootstrap.combine_generation_and_sampling_flag self
          then BlockBootstrap.with_rng self1 g
          else BlockBootstrap.with_cache (BlockBootstrap.with_rng self1 g)
                                         bs br)
    /\ List.length (List.concat indices) = List.length X
    /\ List.length (List.concat datas) = List.length X
    /\ Forall (fun row => List.length row = M) (List.concat datas)
    /\ np_concatenate datas = ok (List.concat datas).
Proof.
  intros Hfresh Hvalid.
  destruct (valid_setup_blocks self X M Hvalid)
    as [bs [self1 [Hgen [_ Hconf]]]].
  destruct (BlockResampler_init_valid X M bs _ _ Hconf) as [br [Hinit Hready]].
  destruct (BlockResampler_init_well_formed _ _ _ _ _ Hinit) as [HX _].
  assert (Hcols : Forall (fun row => List.length row = M) (resampler_X br))
    by (rewrite HX; apply Hvalid).
  destruct (ready_resampler_draw br M Hready Hcols (BlockBootstrap.rng self1))
    as [indices [datas [g [Hres [Hi [Hd [Hc Hcat]]]]]]].
  rewrite HX in Hi, Hd.
  exists bs, br, self1, indices, datas, g.
  split; [ exact Hgen | split; [ exact Hinit | split; [ exact Hready | ] ] ].
  split; [ exact Hres | ].
  split; [ | repeat split; assumption ].
  pose proof (_generate_blocks_fields self X) as Hfields.
  cbv zeta in Hfields. rewrite Hgen in Hfields. cbn [snd] in Hfields.
  destruct Hfields as [Hfc [Hfw [Hft _]]].
  unfold BlockBootstrap._generate_samples_single_bootstrap,
    BlockBootstrap.blocks_and_resampler.
  assert (Hpath :
            match BlockBootstrap.combine_generation_and_sampling_flag self,
                  BlockBootstrap.blocks self with
            | false, Some kept =>
                (ok (kept, BlockBootstrap.block_resampler self), self)
            | _, _ =>
                match BlockBootstrap._generate_blocks self X with
                | (inl e, s1) => (raise e, s1)
                | (inr bs0, s1) =>
                    match BlockResampler_init X bs0
                            (BlockBootstrap.block_weights s1)
                            (BlockBootstrap.tapered_weights s1) with
                    | inl e => (raise e, s1)
                    | inr br0 => (ok (bs0, Some br0), s1)
                    end
                end
            end = (ok (bs, Some br), self1)).
  { rewrite Hgen. cbv beta iota delta [ok raise].
    rewrite Hfw, Hft. unfold ok in Hinit. rewrite Hinit.
    destruct Hfresh as [Hc1 | Hb1]; [ rewrite Hc1; reflexivity | ].
    rewrite Hb1.
    destruct (BlockBootstrap.combine_generation_and_sampling_flag self);
      reflexivity. }
  rewrite Hpath. cbv beta iota delta [ok raise].
  unfold ok in Hres. rewrite Hres.
  assert (Hflag : BlockBootstrap.combine_generation_and_sampling_flag
                    (BlockBootstrap.with_rng self1 g)
                  = BlockBootstrap.combine_generation_and_sampling_flag self)
    by (rewrite <- Hfc; destruct self1; reflexivity).
  rewrite Hflag. reflexivity.
Qed.





End Ready.

(** C8.  With [combine_generation_and_sampling_flag] off, a draw of an
    instance that keeps no partition is: generate the partition, construct
    the resampler on it, draw from the resampler, and store both on the
    instance; an exception of one of the three steps is the exception of the
    draw, and then nothing is stored.  With a valid configuration none of
    them raises: the first draw returns, the instance keeps the partition
    and the resampler it generated, and the next draw and every further one
    is a draw from that kept resampler and leaves both in place.  So it is
    for every instance that keeps a partition and a resampler.  With the
    flag on, every draw generates the partition and the resampler anew and
    stores neither. *)
Theorem partition_and_resampler_kept `{Numerics}
        (self : BlockBootstrap.t) (X : matrix) (exog : option matrix)
        (M : nat) :
  (BlockBootstrap.combine_generation_and_sampling_flag self = false ->
   BlockBootstrap.blocks self = None ->
   match BlockBootstrap._generate_blocks self X with
   | (inl e, self1) =>
       BlockBootstrap._generate_samples_single_bootstrap self X exog
       = (raise e, self1)
       /\ BlockBootstrap.blocks self1 = None
   | (inr bs, self1) =>
       match BlockResampler_init X bs (BlockBootstrap.block_weights self)
               (BlockBootstrap.tapered_weights self) with
       | inl e =>
           BlockBootstrap._generate_samples_single_bootstrap self X exog
           = (raise e, self1)
           /\ BlockBootstrap.blocks self1 = None
       | inr br =>
           match resample_block_indices_and_data br
                   (BlockBootstrap.rng self1) with
           | (inl e, g) =>
               BlockBootstrap._generate_samples_single_bootstrap self X exog
               = (raise e, BlockBootstrap.with_rng self1 g)
               /\ BlockBootstrap.blocks (BlockBootstrap.with_rng self1 g)
                  = None
           | (inr out, g) =>
               BlockBootstrap._generate_samples_single_bootstrap self X exog
               = (ok out,
                  BlockBootstrap.with_cache (BlockBootstrap.with_rng self1 g)
                                            bs br)
           end
       end
   end)
  /\ (BlockBootstrap.combine_generation_and_sampling_flag self = false ->
      BlockBootstrap.blocks self = None ->
      valid_setup self X M ->
      exists bs br self1 out self',
        BlockBootstrap._generate_blocks self X = (ok bs, self1)
        /\ BlockResampler_init X bs (BlockBootstrap.block_weights self)
             (BlockBootstrap.tapered_weights self) = ok br
        /\ BlockBootstrap._generate_samples_single_bootstrap self X exog
           = (ok out, self')
        /\ BlockBootstrap.blocks self' = Some bs
        /\ BlockBootstrap.block_resampler self' = Some br
        /\ BlockBootstrap._generate_samples_single_bootstrap self' X exog
           = (fst (resample_block_indices_and_data br
                     (BlockBootstrap.rng self')),
              BlockBootstrap.with_rng self'
                (snd (resample_block_indices_and_data br
                        (BlockBootstrap.rng self'))))
        /\ forall k return_indices,
             let it := BaseTimeSeriesBootstrap.generate_samples_loop
                         k self' X return_indices exog in
             BlockBootstrap.blocks (final it) = Some bs
             /\ BlockBootstrap.block_resampler (final it) = Some br)
  /\ (forall bs br,
         BlockBootstrap.combine_generation_and_sampling_flag self = false ->
         BlockBootstrap.blocks self = Some bs ->
         BlockBootstrap.block_resampler self = Some br ->
         BlockBootstrap._generate_samples_single_bootstrap self X exog
         = (fst (resample_block_indices_and_data br (BlockBootstrap.rng self)),
            BlockBootstrap.with_rng self
              (snd (resample_block_indices_and_data br
                      (BlockBootstrap.rng self))))
         /\ forall k return_indices,
              let it := BaseTimeSeriesBootstrap.generate_samples_loop
                          k self X return_indices exog in
              BlockBootstrap.blocks (final it) = Some bs
              /\ BlockBootstrap.block_resampler (final it) = Some br)
  /\ (BlockBootstrap.combine_generation_and_sampling_flag self = true ->
      let self' :=
        snd (BlockBootstrap._generate_samples_single_bootstrap self X exog) in
      BlockBootstrap.blocks self' = BlockBootstrap.blocks self
      /\ BlockBootstrap.block_resampler self'
         = BlockBootstrap.block_resampler self
      /\ match BlockBootstrap._generate_blocks self X with
         | (inl e, self1) =>
             BlockBootstrap._generate_samples_single_bootstrap self X exog
             = (raise e, self1)
         | (inr bs, self1) =>
             match BlockResampler_init X bs
                     (BlockBootstrap.block_weights self)
                     (BlockBootstrap.tapered_weights self) with
             | inl e =>
                 BlockBootstrap._generate_samples_single_bootstrap self X exog
                 = (raise e, self1)
             | inr br =>
                 BlockBootstrap._generate_samples_single_bootstrap self X exog
                 = (fst (resample_block_indices_and_data br
                           (BlockBootstrap.rng self1)),
                    BlockBootstrap.with_rng self1
                      (snd (resample_block_indices_and_data br
                              (BlockBootstrap.rng self1))))
             end
         end).
Proof.
  pose proof (_generate_blocks_fields self X) as Hfields. cbv zeta in Hfields.
  destruct Hfields as [Hfc [Hfw [Hft [Hfb Hfr]]]].
  split; [ | split; [ | split ] ].
  - intros Hflag Hnone.
    unfold BlockBootstrap._generate_samples_single_bootstrap,
      BlockBootstrap.blocks_and_resampler.
    rewrite Hflag, Hnone.
    destruct (BlockBootstrap._generate_blocks self X) as [r self1].
    cbn [snd] in Hfc, Hfw, Hft, Hfb, Hfr.
    destruct r as [e | bs]; cbv beta iota delta [raise ok];
      [ split; [ reflexivity | congruence ] | ].
    rewrite Hfw, Hft.
    destruct (BlockResampler_init X bs _ _) as [e | br];
      cbv beta iota delta [raise ok];
      [ split; [ reflexivity | congruence ] | ].
    destruct (resample_block_indices_and_data br (BlockBootstrap.rng self1))
      as [r' g'].
    destruct r' as [e | [bi bd]].
    + split; [ reflexivity | ].
      destruct self1; instance_fields. congruence.
    + assert (Hc : BlockBootstrap.combine_generation_and_sampling_flag
                     (BlockBootstrap.with_rng self1 g') = false)
        by (destruct self1; instance_fields; congruence).
      rewrite Hc. reflexivity.
  - intros Hflag Hnone Hvalid.
    destruct (fresh_draw_returns self X exog M (or_intror Hnone) Hvalid)
      as [bs [br [self1 [indices [datas [g Hdraw]]]]]].
    destruct Hdraw as [Hgen [Hinit [_ [_ [Hdraw _]]]]].
    rewrite Hflag in Hdraw.
    set (self' := BlockBootstrap.with_cache
                    (BlockBootstrap.with_rng self1 g) bs br) in *.
    assert (Hkept : BlockBootstrap.combine_generation_and_sampling_flag self'
                    = false
                    /\ BlockBootstrap.blocks self' = Some bs
                    /\ BlockBootstrap.block_resampler self' = Some br).
    { rewrite Hgen in Hfc. cbn [snd] in Hfc.
      subst self'. destruct self1; instance_fields.
      repeat split; congruence. }
    destruct Hkept as [Hf' [Hb' Hr']].
    exists bs, br, self1, (indices, datas), self'.
    split; [ exact Hgen | split; [ exact Hinit | split; [ exact Hdraw | ] ] ].
    split; [ exact Hb' | split; [ exact Hr' | split ] ].
    + apply (single_bootstrap_reuses self' X exog bs br); assumption.
    + intros k ri. apply generate_samples_loop_keeps; assumption.
  - intros bs br Hflag Hbs Hbr. split.
    + apply (single_bootstrap_reuses self X exog bs br); assumption.
    + intros k ri. apply generate_samples_loop_keeps; assumption.
  - intro Hflag. cbv zeta.
    unfold BlockBootstrap._generate_samples_single_bootstrap,
      BlockBootstrap.blocks_and_resampler.
    rewrite Hflag.
    destruct (BlockBootstrap._generate_blocks self X) as [r self1].
    cbn [snd] in Hfc, Hfw, Hft, Hfb, Hfr.
    destruct r as [e | bs]; cbv beta iota delta [raise ok fst snd];
      [ repeat split; congruence | ].
    rewrite Hfw, Hft.
    destruct (BlockResampler_init X bs _ _) as [e | br];
      cbv beta iota delta [raise ok fst snd]; [ repeat split; congruence | ].
    destruct (resample_block_indices_and_data br (BlockBootstrap.rng self1))
      as [r' g'].
    assert (Hc : BlockBootstrap.combine_generation_and_sampling_flag
                   (BlockBootstrap.with_rng self1 g') = true)
      by (destruct self1; instance_fields; congruence).
    destruct r' as [e | [bi bd]]; rewrite ?Hc; cbn [fst snd];
      (split; [ destruct self1; instance_fields; congruence | ]);
      (split; [ destruct self1; instance_fields; congruence | reflexivity ]).
Qed.

Lemma example_setup_valid :
  valid_setup (example_bootstrap (Some 3) false) (example_series 8) 1.
Proof.
  split; [ vm_compute; lia | ].
  split; [ vm_compute; repeat constructor | ].
  split; [ reflexivity | split; [ reflexivity | ] ].
  split; [ exists DistNone; reflexivity | ].
  split; [ apply Z.leb_le; vm_compute; reflexivity | ].
  split; [ exact I | split; exact I ].
Defined.

Lemma partition_and_resampler_kept_witness :
  (BlockBootstrap.combine_generation_and_sampling_flag
     (example_bootstrap (Some 3) false) = false
   /\ BlockBootstrap.blocks (example_bootstrap (Some 3) false) = None
   /\ valid_setup (example_bootstrap (Some 3) false) (example_series 8) 1
   /\ BlockBootstrap.blocks
        (snd (@BlockBootstrap._generate_samples_single_bootstrap
                example_numerics (example_bootstrap (Some 3) false)
                (example_series 8) None))
      = Some example_blocks
   /\ exists bs br self1 out self',
        @BlockBootstrap._generate_blocks example_numerics
          (example_bootstrap (Some 3) false) (example_series 8)
        = (ok bs, self1)
        /\ BlockResampler_init (example_series 8) bs
             (BlockBootstrap.block_weights (example_bootstrap (Some 3) false))
             (BlockBootstrap.tapered_weights
                (example_bootstrap (Some 3) false))
           = ok br
        /\ @BlockBootstrap._generate_samples_single_bootstrap example_numerics
             (example_bootstrap (Some 3) false) (example_series 8) None
           = (ok out, self')
        /\ BlockBootstrap.blocks self' = Some bs
        /\ BlockBootstrap.block_resampler self' = Some br
        /\ @BlockBootstrap._generate_samples_single_bootstrap example_numerics
             self' (example_series 8) None
           = (fst (resample_block_indices_and_data br
                     (BlockBootstrap.rng self')),
              BlockBootstrap.with_rng self'
                (snd (resample_block_indices_and_data br
                        (BlockBootstrap.rng self'))))
        /\ forall k return_indices,
             let it := @BaseTimeSeriesBootstrap.generate_samples_loop _
                         (@BlockBootstrap.methods example_numerics)
                         k self' (example_series 8) return_indices None in
             BlockBootstrap.blocks (final it) = Some bs
             /\ BlockBootstrap.block_resampler (final it) = Some br)
  /\ (BlockBootstrap.combine_generation_and_sampling_flag example_bootstrap_kept
      = false
      /\ BlockBootstrap.blocks example_bootstrap_kept = Some example_blocks
      /\ BlockBootstrap.block_resampler example_bootstrap_kept
         = Some example_resampler
      /\ forall k return_indices,
           let it := @BaseTimeSeriesBootstrap.generate_samples_loop _
                       (@BlockBootstrap.methods example_numerics)
                       k example_bootstrap_kept (example_series 20)
                       return_indices None in
           BlockBootstrap.blocks (final it) = Some example_blocks
           /\ BlockBootstrap.block_resampler (final it) = Some example_resampler).
Proof.
  split.
  - split; [ reflexivity | split; [ reflexivity | ] ].
    split; [ exact example_setup_valid | ].
    split; [ vm_compute; reflexivity | ].
    exact (proj1 (proj2 (@partition_and_resampler_kept example_numerics
                           (example_bootstrap (Some 3) false)
                           (example_series 8) None 1))
                 eq_refl eq_refl example_setup_valid).
  - split; [ reflexivity | split; [ reflexivity | split; [ reflexivity | ] ] ].
    exact (proj2 (proj1 (proj2 (proj2
             (@partition_and_resampler_kept example_numerics
                example_bootstrap_kept (example_series 20) None 1)))
                        example_blocks example_resampler
                        eq_refl eq_refl eq_refl)).
Defined.

(* ================================================================== *)
(** * The training split *)
(* ================================================================== *)





(* ================================================================== *)
(** * validate_integers *)
(* ================================================================== *)

(** X1.  Validating values together is validating them one group after the
    other: the first failing value decides the outcome. *)
Theorem validate_integers_app (values1 values2 : list pyobj)
        (min_value : option Z) :
  validate_integers (values1 ++ values2) min_value
  = match validate_integers values1 min_value with
    | inl e => raise e
    | inr _ => validate_integers values2 min_value
    end.
Proof.
  induction values1 as [ | v rest IH]; simpl; [ reflexivity | ].
  destruct (validate_integers_value min_value v); [ reflexivity | exact IH ].
Qed.

Lemma validate_integers_ok_iff (values : list pyobj) (min_value : option Z) :
  validate_integers values min_value = ok tt
  <-> Forall (fun v => validate_integers_value min_value v = ok tt) values.
Proof.
  induction values as [ | v rest IH]; simpl.
  - split; [ constructor | reflexivity ].
  - destruct (validate_integers_value min_value v) as [e | []] eqn:Hv.
    + split; [ discriminate | ]. intro Hall. inversion Hall; subst.
      unfold ok in *. congruence.
    + rewrite IH. split.
      * intro Hall. constructor; [ exact Hv | exact Hall ].
      * intro Hall. inversion Hall; subst. assumption.
Qed.

(** X2.  Whether a group of values is accepted does not depend on their order
    (which error is raised does). *)
Theorem validate_integers_permutation (values values' : list pyobj)
        (min_value : option Z) (Hperm : Permutation values values') :
  validate_integers values min_value = ok tt
  <-> validate_integers values' min_value = ok tt.
Proof.
  rewrite !validate_integers_ok_iff. split.
  - apply Permutation_Forall. exact Hperm.
  - apply Permutation_Forall. symmetry. exact Hperm.
Qed.

Lemma validate_integers_permutation_witness :
  Permutation [PyInt 3; PyList [PyInt 1; PyBool true]]
              [PyList [PyInt 1; PyBool true]; PyInt 3]
  /\ (validate_integers [PyInt 3; PyList [PyInt 1; PyBool true]] (Some 1)
      = ok tt
      <-> validate_integers [PyList [PyInt 1; PyBool true]; PyInt 3] (Some 1)
          = ok tt).
Proof.
  assert (Hperm : Permutation [PyInt 3; PyList [PyInt 1; PyBool true]]
                              [PyList [PyInt 1; PyBool true]; PyInt 3])
    by apply perm_swap.
  split; [ exact Hperm | ].
  exact (validate_integers_permutation _ _ (Some 1) Hperm).
Defined.

Lemma below_min_weaker (m m' z : Z) :
  m' <= m -> below_min (Some m) z = false -> below_min (Some m') z = false.
Proof.
  simpl. intros Hle Hz. apply Z.ltb_ge in Hz. apply Z.ltb_ge. lia.
Qed.

Lemma existsb_weaker {A : Type} (f g : A -> bool) (l : list A) :
  (forall a, f a = false -> g a = false) ->
  existsb f l = false -> existsb g l = false.
Proof.
  intro Hfg. induction l as [ | a l IH]; simpl; [ reflexivity | ].
  intro Hl. apply orb_false_iff in Hl. destruct Hl as [Ha Hl].
  rewrite (Hfg a Ha), (IH Hl). reflexivity.
Qed.

Lemma validate_integers_value_weaker (min_value min_value' : option Z)
      (v : pyobj) :
  (forall z, below_min min_value z = false -> below_min min_value' z = false) ->
  validate_integers_value min_value v = ok tt ->
  validate_integers_value min_value' v = ok tt.
Proof.
  intro Hweak. unfold validate_integers_value.
  destruct (integral_value v) as [z | ].
  - destruct (below_min min_value z) eqn:Hz; [ discriminate | ].
    rewrite (Hweak z Hz). reflexivity.
  - destruct v; try discriminate.
    + destruct (size a =? 0)%nat; [ discriminate | ].
      destruct (negb (ndim a =? 1)%nat || negb (is_integer_dtype a));
        [ discriminate | ].
      unfold array_any_below_min. destruct (data a) as [l | l | l];
        try (intros _; reflexivity).
      destruct (existsb (below_min min_value) l) eqn:Hl; [ discriminate | ].
      rewrite (existsb_weaker _ (below_min min_value') l Hweak Hl).
      reflexivity.
    + destruct (List.length l =? 0)%nat; [ discriminate | ].
      destruct (negb (all_integral l)); [ discriminate | ].
      unfold any_below_min.
      destruct (existsb _ l) eqn:Hl; [ discriminate | ].
      rewrite (existsb_weaker
                 (fun x => match integral_value x with
                           | Some z => below_min min_value z
                           | None => false
                           end)
                 (fun x => match integral_value x with
                           | Some z => below_min min_value' z
                           | None => false
                           end) l) ; [ reflexivity | | exact Hl ].
      intros x. destruct (integral_value x); [ apply Hweak | reflexivity ].
Qed.

(** X3.  What passes with a minimum passes with every smaller minimum, and
    without one. *)
Theorem validate_integers_smaller_min (values : list pyobj) (m m' : Z)
        (Hle : m' <= m)
        (Hok : validate_integers values (Some m) = ok tt) :
  validate_integers values (Some m') = ok tt
  /\ validate_integers values None = ok tt.
Proof.
  apply validate_integers_ok_iff in Hok.
  split; apply validate_integers_ok_iff;
    (eapply Forall_impl; [ | exact Hok ]); intros v Hv;
    apply (validate_integers_value_weaker (Some m)); try exact Hv.
  - intros z Hz. apply (below_min_weaker m m' z Hle Hz).
  - intros z _. reflexivity.
Qed.

Lemma validate_integers_smaller_min_witness :
  0 <= 2
  /\ validate_integers
       [PyInt 5; PyArray (mk_ndarray [2%nat] (IntBuf [2; 7]))] (Some 2) = ok tt
  /\ validate_integers
       [PyInt 5; PyArray (mk_ndarray [2%nat] (IntBuf [2; 7]))] (Some 0) = ok tt
  /\ validate_integers
       [PyInt 5; PyArray (mk_ndarray [2%nat] (IntBuf [2; 7]))] None = ok tt.
Proof.
  split; [ lia | split; [ reflexivity | ] ].
  apply (validate_integers_smaller_min _ 2 0); [ lia | reflexivity ].
Defined.

(** X4.  The error classes: without a minimum every failure is a TypeError; for
    values that pass without a minimum, a failure with a minimum is a
    ValueError. *)
Theorem validate_integers_error_classes (values : list pyobj) :
  (forall e, validate_integers values None = raise e ->
             exists msg, e = TypeError msg)
  /\ (forall m, validate_integers values None = ok tt ->
                validate_integers values (Some m) = ok tt
                \/ exists msg,
                     validate_integers values (Some m) = raise (ValueError msg)).
Proof.
  split.
  - induction values as [ | v rest IH]; intros e He; simpl in He;
      [ discriminate He | ].
    destruct (validate_integers_value None v) as [e' | []] eqn:Hv;
      [ | apply IH; exact He ].
    injection He as <-. unfold validate_integers_value in Hv.
    destruct (integral_value v); [ simpl in Hv; discriminate Hv | ].
    destruct v; try (injection Hv as <-; eexists; reflexivity).
    + destruct (size a =? 0)%nat; [ injection Hv as <-; eexists; reflexivity | ].
      destruct (negb (ndim a =? 1)%nat || negb (is_integer_dtype a));
        [ injection Hv as <-; eexists; reflexivity | ].
      unfold array_any_below_min in Hv.
      destruct (data a) as [l | l | l]; try discriminate Hv.
      assert (Hl : existsb (below_min None) l = false)
        by (clear; induction l; simpl; auto).
      rewrite Hl in Hv. discriminate Hv.
    + destruct (List.length l =? 0)%nat;
        [ injection Hv as <-; eexists; reflexivity | ].
      destruct (negb (all_integral l));
        [ injection Hv as <-; eexists; reflexivity | ].
      assert (Hl : any_below_min None l = false).
      { clear. unfold any_below_min.
        induction l as [ | x l IH]; cbn [existsb]; [ reflexivity | ].
        rewrite IH. destruct (integral_value x); reflexivity. }
      rewrite Hl in Hv. discriminate Hv.
  - intro m. induction values as [ | v rest IH]; intro Hok; simpl in *;
      [ left; reflexivity | ].
    destruct (validate_integers_value None v) as [e | []] eqn:Hv;
      [ discriminate Hok | ].
    assert (Hone : validate_integers_value (Some m) v = ok tt
                   \/ exists msg, validate_integers_value (Some m) v
                                  = raise (ValueError msg)).
    { unfold validate_integers_value in Hv |- *.
      destruct (integral_value v) as [z | ].
      - destruct (below_min (Some m) z);
          [ right; eexists; reflexivity | left; reflexivity ].
      - destruct v; try discriminate Hv.
        + destruct (size a =? 0)%nat; [ discriminate Hv | ].
          destruct (negb (ndim a =? 1)%nat || negb (is_integer_dtype a));
            [ discriminate Hv | ].
          destruct (array_any_below_min (Some m) a);
            [ right; eexists; reflexivity | left; reflexivity ].
        + destruct (List.length l =? 0)%nat; [ discriminate Hv | ].
          destruct (negb (all_integral l)); [ discriminate Hv | ].
          destruct (any_below_min (Some m) l);
            [ right; eexists; reflexivity | left; reflexivity ]. }
    destruct Hone as [Hone | [msg Hone]]; rewrite Hone.
    + apply IH. exact Hok.
    + right. exists msg. reflexivity.
Qed.

(* ================================================================== *)
(** * Names compared in lower case *)
(* ================================================================== *)

Lemma ascii_lower_not_upper (c : Ascii.ascii) :
  ((65 <=? Ascii.nat_of_ascii (ascii_lower c))%nat
   && (Ascii.nat_of_ascii (ascii_lower c) <=? 90)%nat) = false.
Proof.
  destruct c as [[] [] [] [] [] [] [] []]; reflexivity.
Qed.

Lemma str_lower_no_upper (s : string) : has_upper (str_lower s) = false.
Proof.
  induction s as [ | c s IH]; [ reflexivity | ].
  cbn [str_lower has_upper]. rewrite ascii_lower_not_upper, IH. reflexivity.
Qed.

Lemma str_lower_fixed (s : string) :
  has_upper s = false -> str_lower s = s.
Proof.
  induction s as [ | c s IH]; [ reflexivity | ].
  cbn [str_lower has_upper]. intro Hs. apply orb_false_iff in Hs.
  destruct Hs as [Hc Hs]. rewrite (IH Hs). unfold ascii_lower.
  cbv zeta. rewrite Hc. reflexivity.
Qed.

Lemma str_lower_idempotent (s : string) :
  str_lower (str_lower s) = str_lower s.
Proof. apply str_lower_fixed, str_lower_no_upper. Qed.

Lemma ascii_lower_ascii (c : Ascii.ascii) :
  (Ascii.nat_of_ascii c <? 128)%nat = true ->
  (Ascii.nat_of_ascii (ascii_lower c) <? 128)%nat = true.
Proof.
  destruct c as [[] [] [] [] [] [] [] []]; intro Hc;
    try reflexivity; discriminate Hc.
Qed.

Lemma str_lower_ascii (s : string) :
  is_ascii s = true -> is_ascii (str_lower s) = true.
Proof.
  induction s as [ | c s IH]; [ reflexivity | ].
  cbn [str_lower is_ascii]. intro Hs. apply andb_true_iff in Hs.
  destruct Hs as [Hc Hs]. rewrite (ascii_lower_ascii c Hc), (IH Hs).
  reflexivity.
Qed.

Lemma str_in_In (name : string) (names : list string) :
  str_in name names = true <-> In name names.
Proof.
  unfold str_in. rewrite existsb_exists. split.
  - intros [x [Hin Heq]]. apply String.eqb_eq in Heq. subst. exact Hin.
  - intro Hin. exists name. split; [ exact Hin | apply String.eqb_refl ].
Qed.

Lemma str_in_upper_false (name : string) (names : list string) :
  has_upper name = false ->
  Forall (fun v => has_upper v = true) names ->
  str_in name names = false.
Proof.
  intros Hname Hall. destruct (str_in name names) eqn:Hin; [ | reflexivity ].
  apply str_in_In in Hin. rewrite Forall_forall in Hall.
  specialize (Hall name Hin). congruence.
Qed.

(** X5.  The input is lowered, the valid names are not: when every valid name
    has a capital letter, every input raises, the valid names themselves
    included. *)
Theorem validate_literal_type_capital_names (input_value : pyobj)
        (valid_types : list string)
        (Hupper : Forall (fun v => has_upper v = true) valid_types) :
  raises (validate_literal_type input_value valid_types).
Proof.
  unfold validate_literal_type.
  destruct input_value; try (eexists; reflexivity).
  rewrite (str_in_upper_false _ _ (str_lower_no_upper s) Hupper).
  eexists. reflexivity.
Qed.

Lemma validate_literal_type_capital_names_witness :
  Forall (fun v => has_upper v = true) ["AR"; "Var"]%string
  /\ raises (validate_literal_type (PyStr "AR") ["AR"; "Var"]%string).
Proof.
  assert (Hupper : Forall (fun v => has_upper v = true) ["AR"; "Var"]%string)
    by (repeat constructor).
  split; [ exact Hupper | ].
  exact (validate_literal_type_capital_names (PyStr "AR") _ Hupper).
Defined.

(** X6.  For a string of ASCII characters, the outcome is the outcome for
    its lower-case form, and the string is accepted exactly when its
    lower-case form is one of the valid names. *)
Theorem validate_literal_type_case_insensitive (s : string)
        (valid_types : list string) (Hascii : is_ascii s = true) :
  is_ascii (str_lower s) = true
  /\ validate_literal_type (PyStr (str_lower s)) valid_types
     = validate_literal_type (PyStr s) valid_types
  /\ (validate_literal_type (PyStr s) valid_types = ok tt
      <-> In (str_lower s) valid_types).
Proof.
  split; [ apply str_lower_ascii; exact Hascii | ].
  unfold validate_literal_type. rewrite str_lower_idempotent.
  split; [ reflexivity | ].
  rewrite <- str_in_In.
  destruct (str_in (str_lower s) valid_types); simpl; split;
    try reflexivity; discriminate.
Qed.

Lemma validate_literal_type_case_insensitive_witness :
  is_ascii "MoViNg" = true
  /\ is_ascii (str_lower "MoViNg") = true
  /\ validate_literal_type (PyStr (str_lower "MoViNg"))
       ["moving"; "circular"]%string
     = validate_literal_type (PyStr "MoViNg") ["moving"; "circular"]%string
  /\ (validate_literal_type (PyStr "MoViNg") ["moving"; "circular"]%string
      = ok tt
      <-> In (str_lower "MoViNg") ["moving"; "circular"]%string).
Proof.
  split; [ reflexivity | ].
  apply validate_literal_type_case_insensitive. reflexivity.
Defined.

(* ================================================================== *)
(** * The setters of the residual bootstraps *)
(* ================================================================== *)

Lemma lowered_name_setter (names : list string) (s m : string) (e : exn) :
  (if negb (str_in (str_lower s) names) then raise e else ok (str_lower s))
  = ok m ->
  In m names /\ has_upper m = false /\ str_lower m = m.
Proof.
  destruct (str_in (str_lower s) names) eqn:Hin; simpl; [ | discriminate ].
  intro Hm. injection Hm as <-. split; [ | split ].
  - apply str_in_In. exact Hin.
  - apply str_lower_no_upper.
  - apply str_lower_idempotent.
Qed.

(** X7.  What the [model_type] setter stores is one of the four names, in lower
    case, and assigning the stored value again stores it again. *)
Theorem model_type_setter_normal_form (value : pyobj) (m : string)
        (Hset : model_type_setter value = ok m) :
  In m model_types
  /\ has_upper m = false
  /\ model_type_setter (PyStr m) = ok m.
Proof.
  unfold model_type_setter in Hset |- *.
  destruct value; try discriminate Hset.
  apply lowered_name_setter in Hset. destruct Hset as [Hin [Hup Hfix]].
  split; [ exact Hin | split; [ exact Hup | ] ].
  rewrite Hfix. apply str_in_In in Hin. rewrite Hin. reflexivity.
Qed.

Lemma model_type_setter_normal_form_witness :
  model_type_setter (PyStr "SARIMA") = ok "sarima"%string
  /\ In "sarima"%string model_types
  /\ has_upper "sarima" = false
  /\ model_type_setter (PyStr "sarima") = ok "sarima"%string.
Proof.
  split; [ reflexivity | ].
  apply (model_type_setter_normal_form (PyStr "SARIMA")). reflexivity.
Defined.

(** X8.  The [resids_model_type] setter takes what the [model_type] setter takes
    and stores the same; so [arch], which its annotation lists, raises a
    ValueError in every spelling. *)
Theorem resids_model_type_setter_without_arch (value : pyobj) :
  (forall m, resids_model_type_setter value = ok m
             <-> model_type_setter value = ok m)
  /\ (forall s, value = PyStr s -> str_lower s = "arch"%string ->
                exists msg,
                  resids_model_type_setter value = raise (ValueError msg)).
Proof.
  split.
  - intro m. unfold resids_model_type_setter, model_type_setter, model_types.
    destruct value; try (split; discriminate).
    destruct (negb _); split; try discriminate; intro Hm;
      injection Hm as <-; reflexivity.
  - intros s -> Hs. unfold resids_model_type_setter. rewrite Hs.
    eexists. reflexivity.
Qed.

(** X9.  What the [distribution] setter stores is a key of
    [distribution_methods], in lower case, and assigning the stored value
    again stores it again. *)
Theorem distribution_setter_normal_form (value : pyobj) (m : string)
        (Hset : distribution_setter value = ok m) :
  In m distribution_methods
  /\ has_upper m = false
  /\ distribution_setter (PyStr m) = ok m.
Proof.
  unfold distribution_setter in Hset |- *.
  destruct value; try discriminate Hset.
  apply lowered_name_setter in Hset. destruct Hset as [Hin [Hup Hfix]].
  split; [ exact Hin | split; [ exact Hup | ] ].
  rewrite Hfix. apply str_in_In in Hin. rewrite Hin. reflexivity.
Qed.

Lemma distribution_setter_normal_form_witness :
  distribution_setter (PyStr "LogNormal") = ok "lognormal"%string
  /\ In "lognormal"%string distribution_methods
  /\ has_upper "lognormal" = false
  /\ distribution_setter (PyStr "lognormal") = ok "lognormal"%string.
Proof.
  split; [ reflexivity | ].
  apply (distribution_setter_normal_form (PyStr "LogNormal")). reflexivity.
Defined.

Lemma order_sequence_accepted (l : list py_scalar) :
  order_sequence_fails l = ok false
  <-> all_Integral l = true \/ all_gt0 l = ok true.
Proof.
  unfold order_sequence_fails.
  destruct (all_Integral l).
  - split; [ left; reflexivity | reflexivity ].
  - destruct (all_gt0 l) as [e | [ | ]]; simpl; split;
      try discriminate; try reflexivity.
    + intros [Hl | Hl]; discriminate Hl.
    + intros _. right. reflexivity.
    + intros [Hl | Hl]; discriminate Hl.
Qed.

(** X10.  The values the two order setters accept, and store as given: None, an
    integer from 0 on, and a list or tuple whose elements are all integers
    (of any sign) or all above 0 (of any type that compares). *)
Theorem order_setter_accepts (name : string) (value stored : order_value) :
  order_setter_for name value = ok stored
  <-> stored = value
      /\ match value with
         | OScalar SNone => True
         | OScalar v => exists z, scalar_integral v = Some z /\ 0 <= z
         | OList l | OTuple l =>
             all_Integral l = true \/ all_gt0 l = ok true
         end.
Proof.
  assert (Hseq : forall (l : list py_scalar) (v : order_value) (e : exn),
             match order_sequence_fails l with
             | inl e' => raise e'
             | inr true => raise e
             | inr false => ok v
             end = ok stored
             <-> stored = v
                 /\ (all_Integral l = true \/ all_gt0 l = ok true)).
  { intros l v e. rewrite <- order_sequence_accepted.
    destruct (order_sequence_fails l) as [e' | [ | ]]; split;
      try discriminate.
    - intros [_ Hl]; discriminate Hl.
    - intros [_ Hl]; discriminate Hl.
    - intro Hs. injection Hs as <-. split; reflexivity.
    - intros [-> _]. reflexivity. }
  destruct value as [v | l | l]; [ | apply Hseq | apply Hseq ].
  assert (Hint : forall z : Z,
             (if z <? 0
              then raise (ValueError (name ++ " must be a positive integer."))
              else ok (OScalar v)) = ok stored
             <-> stored = OScalar v /\ 0 <= z).
  { intro z. destruct (Z.ltb_spec z 0); split.
    - discriminate.
    - intros [_ Hz]. lia.
    - intro Hs. injection Hs as <-. split; [ reflexivity | lia ].
    - intros [-> _]. reflexivity. }
  destruct v as [ | b | z | x | s]; cbn [order_setter_for scalar_integral].
  - split; [ intro Hs; injection Hs as <-; split; [ reflexivity | exact I ]
           | intros [-> _]; reflexivity ].
  - rewrite Hint. split.
    + intros [-> Hz]. split; [ reflexivity | eexists; split; [ reflexivity | exact Hz ] ].
    + intros [-> [z [Hz Hpos]]]. injection Hz as <-. split; [ reflexivity | exact Hpos ].
  - rewrite Hint. split.
    + intros [-> Hz]. split; [ reflexivity | eexists; split; [ reflexivity | exact Hz ] ].
    + intros [-> [z' [Hz Hpos]]]. injection Hz as <-. split; [ reflexivity | exact Hpos ].
  - split; [ discriminate | intros [_ [z [Hz _]]]; discriminate Hz ].
  - split; [ discriminate | intros [_ [z [Hz _]]]; discriminate Hz ].
Qed.

(** X11.  The error classes of the two order setters: a list or a tuple only ever
    fails with a TypeError, and a ValueError comes from a negative integer
    alone. *)
Theorem order_setter_error_classes (name : string) (value : order_value)
        (e : exn) (Hfail : order_setter_for name value = raise e) :
  (exists msg, e = TypeError msg)
  \/ (exists msg z, e = ValueError msg /\ z < 0
                    /\ exists v, value = OScalar v
                                 /\ scalar_integral v = Some z).
Proof.
  assert (Hgt : forall l e', all_gt0 l = raise e' ->
                             exists msg, e' = TypeError msg).
  { induction l as [ | v l IH]; intros e' He'; cbn [all_gt0] in He';
      [ discriminate He' | ].
    destruct v as [ | b | z | [q | | | ] | s]; cbn [scalar_gt0] in He';
      unfold ok, raise in He'; cbv beta iota in He';
      try (injection He' as <-; eexists; reflexivity);
      try discriminate He';
      try (apply IH; exact He').
    - destruct b; [ apply IH; exact He' | discriminate He' ].
    - destruct (0 <? z); [ apply IH; exact He' | discriminate He' ].
    - destruct (Qltb 0 q); [ apply IH; exact He' | discriminate He' ]. }
  assert (Hseq : forall (l : list py_scalar) (v : order_value) (msg : string),
             match order_sequence_fails l with
             | inl e' => raise e'
             | inr true => raise (TypeError msg)
             | inr false => ok v
             end = raise e -> exists msg', e = TypeError msg').
  { intros l v msg. unfold order_sequence_fails.
    destruct (all_Integral l); [ discriminate | ].
    destruct (all_gt0 l) as [e' | [ | ]] eqn:Hl; simpl.
    - intro He. injection He as <-. apply (Hgt l). exact Hl.
    - discriminate.
    - intro He. injection He as <-. eexists. reflexivity. }
  destruct value as [v | l | l];
    [ | left; apply (Hseq _ _ _ Hfail) | left; apply (Hseq _ _ _ Hfail) ].
  destruct v as [ | b | z | x | s];
    cbn [order_setter_for scalar_integral] in Hfail;
    try discriminate Hfail;
    try (injection Hfail as <-; left; eexists; reflexivity).
  - destruct b; discriminate Hfail.
  - destruct (Z.ltb_spec z 0); [ | discriminate Hfail ].
    injection Hfail as <-. right. eexists. exists z.
    split; [ reflexivity | split; [ assumption | ] ].
    exists (SInt z). split; reflexivity.
Qed.

Lemma order_setter_error_classes_witness :
  order_setter (OList [SInt 2; SStr "1"]) 
  = raise (TypeError "'>' not supported between instances of these types")
  /\ ((exists msg,
         TypeError "'>' not supported between instances of these types"
         = TypeError msg)
      \/ (exists msg z,
            TypeError "'>' not supported between instances of these types"
            = ValueError msg /\ z < 0
            /\ exists v, OList [SInt 2; SStr "1"] = OScalar v
                         /\ scalar_integral v = Some z)).
Proof.
  split; [ reflexivity | ].
  apply (order_setter_error_classes "order" (OList [SInt 2; SStr "1"])).
  reflexivity.
Defined.

(* ================================================================== *)
(** * More on the validators of blocks and weights *)
(* ================================================================== *)

(** X12.  Weights that pass validation are all at least 0 and their sum is above
    0: dividing by the sum, as normalising does, is defined. *)
Theorem validate_weights_positive_sum (w : ndarray)
        (Hok : validate_weights w = ok tt) :
  Forall (fun q => (0 <= q)%Q) (real_values w)
  /\ (0 < Qsum (real_values w))%Q.
Proof.
  destruct (validated_weights_positive w Hok) as [Hnonneg [q [Hin Hq]]].
  split; [ exact Hnonneg | ].
  pose proof (Qsum_ge_element _ q Hnonneg Hin) as Hle. lra.
Qed.

Lemma validate_weights_positive_sum_witness :
  validate_weights
    (mk_ndarray [3%nat; 1%nat] (FloatBuf [Finite 0; Finite (1 # 2); Finite 2]))
  = ok tt
  /\ Forall (fun q => (0 <= q)%Q)
            (real_values (mk_ndarray [3%nat; 1%nat]
                            (FloatBuf [Finite 0; Finite (1 # 2); Finite 2])))
  /\ (0 < Qsum (real_values
                  (mk_ndarray [3%nat; 1%nat]
                     (FloatBuf [Finite 0; Finite (1 # 2); Finite 2]))))%Q.
Proof.
  split; [ reflexivity | ].
  apply validate_weights_positive_sum. reflexivity.
Defined.

Lemma as_arrays_Some (l : list pyobj) (bs : list ndarray) :
  as_arrays l = Some bs <-> l = map PyArray bs.
Proof.
  revert bs. induction l as [ | o l IH]; intro bs; simpl.
  - split.
    + intro Hs. injection Hs as <-. reflexivity.
    + intro Hl. destruct bs; [ reflexivity | discriminate Hl ].
  - destruct o; try (split; [ discriminate | ];
                     intro Hl; destruct bs; discriminate Hl).
    destruct (as_arrays l) as [r | ] eqn:Hr.
    + split.
      * intro Hs. injection Hs as <-. simpl. f_equal. apply IH. reflexivity.
      * intro Hl. destruct bs as [ | b bs]; [ discriminate Hl | ].
        simpl in Hl. injection Hl as -> Hl. apply IH in Hl.
        injection Hl as ->. reflexivity.
    + split; [ discriminate | ].
      intro Hl. destruct bs as [ | b bs]; [ discriminate Hl | ].
      simpl in Hl. injection Hl as -> Hl. apply IH in Hl. discriminate Hl.
Qed.

Lemma as_arrays_app (l1 l2 : list pyobj) :
  as_arrays (l1 ++ l2)
  = match as_arrays l1, as_arrays l2 with
    | Some bs1, Some bs2 => Some (bs1 ++ bs2)
    | _, _ => None
    end.
Proof.
  induction l1 as [ | o l1 IH]; simpl.
  - destruct (as_arrays l2); reflexivity.
  - destruct o; try reflexivity.
    rewrite IH. destruct (as_arrays l1), (as_arrays l2); reflexivity.
Qed.

Lemma result_unit_ok (r : result unit) : is_raise r = false <-> r = ok tt.
Proof.
  destruct r as [e | []]; simpl; split; try discriminate; reflexivity.
Qed.

Lemma validate_block_indices_ok (block_indices : pyobj) (n : Z) :
  validate_block_indices block_indices n = ok tt
  <-> exists bs, block_indices = PyList (map PyArray bs)
                 /\ block_indices_accepted bs n = true.
Proof.
  split.
  - intro Hok. destruct block_indices; try discriminate Hok.
    destruct (as_arrays l) as [bs | ] eqn:Harr.
    + exists bs. split; [ f_equal; apply as_arrays_Some; exact Harr | ].
      pose proof (validate_block_indices_accepted l bs n Harr) as Hacc.
      rewrite Hok in Hacc. simpl in Hacc.
      destruct (block_indices_accepted bs n); [ reflexivity | discriminate ].
    + unfold validate_block_indices in Hok. rewrite Harr in Hok.
      destruct (List.length l =? 0)%nat; discriminate Hok.
  - intros [bs [-> Hacc]]. apply result_unit_ok.
    rewrite (validate_block_indices_accepted _ bs n);
      [ rewrite Hacc; reflexivity | apply as_arrays_Some; reflexivity ].
Qed.

Lemma all_ltZ_larger (b : ndarray) (n n' : Z) :
  is_integer_dtype b = true -> n <= n' ->
  all_ltZ b n = true -> all_ltZ b n' = true.
Proof.
  unfold is_integer_dtype, all_ltZ. destruct (data b); try discriminate.
  intros _ Hle Hall. rewrite forallb_forall in Hall |- *.
  intros z Hz. specialize (Hall z Hz). apply Z.ltb_lt in Hall.
  apply Z.ltb_lt. lia.
Qed.

(** X14.  Block indices that are valid for an input length are valid for every
    longer input. *)
Theorem validate_block_indices_longer_input (block_indices : pyobj)
        (input_length input_length' : Z)
        (Hle : input_length <= input_length')
        (Hok : validate_block_indices block_indices input_length = ok tt) :
  validate_block_indices block_indices input_length' = ok tt.
Proof.
  apply validate_block_indices_ok in Hok. destruct Hok as [bs [-> Hacc]].
  apply validate_block_indices_ok. exists bs. split; [ reflexivity | ].
  unfold block_indices_accepted in Hacc |- *.
  apply andb_true_iff in Hacc. destruct Hacc as [Hacc Hlt].
  apply andb_true_iff in Hacc. destruct Hacc as [Hacc Hsize].
  apply andb_true_iff in Hacc. destruct Hacc as [Hlen Hint].
  rewrite Hlen, Hint, Hsize. simpl.
  rewrite forallb_forall in Hint, Hlt |- *. intros b Hb.
  specialize (Hint b Hb). apply andb_true_iff in Hint.
  apply (all_ltZ_larger b input_length input_length');
    [ apply Hint | exact Hle | apply Hlt; exact Hb ].
Qed.

Lemma validate_block_indices_longer_input_witness :
  8 <= 20
  /\ validate_block_indices (PyList (map block_array example_blocks)) 8 = ok tt
  /\ validate_block_indices (PyList (map block_array example_blocks)) 20
     = ok tt.
Proof.
  split; [ lia | split; [ reflexivity | ] ].
  apply (validate_block_indices_longer_input _ 8 20); [ lia | reflexivity ].
Defined.

(** X15.  Two non-empty lists of block indices are valid together exactly when
    each of them is. *)
Theorem validate_block_indices_app (l1 l2 : list pyobj) (input_length : Z)
        (Hl1 : l1 <> []) (Hl2 : l2 <> []) :
  validate_block_indices (PyList (l1 ++ l2)) input_length = ok tt
  <-> validate_block_indices (PyList l1) input_length = ok tt
      /\ validate_block_indices (PyList l2) input_length = ok tt.
Proof.
  assert (Hne : forall bs : list ndarray,
             bs <> [] -> negb (List.length bs =? 0)%nat = true)
    by (intros [ | b bs] Hbs; [ contradiction | reflexivity ]).
  assert (Hmap : forall bs : list ndarray, map PyArray bs <> [] -> bs <> [])
    by (intros [ | b bs] Hbs; [ contradiction | discriminate ]).
  rewrite !validate_block_indices_ok. split.
  - intros [bs [Heq Hacc]]. injection Heq as Heq.
    assert (Harr : as_arrays (l1 ++ l2) = Some bs)
      by (apply as_arrays_Some; exact Heq).
    rewrite as_arrays_app in Harr.
    destruct (as_arrays l1) as [bs1 | ] eqn:H1; [ | discriminate Harr ].
    destruct (as_arrays l2) as [bs2 | ] eqn:H2; [ | discriminate Harr ].
    injection Harr as <-.
    apply as_arrays_Some in H1, H2. subst l1 l2.
    unfold block_indices_accepted in Hacc.
    rewrite !forallb_app in Hacc.
    repeat (apply andb_true_iff in Hacc; destruct Hacc as [Hacc ?]).
    repeat match goal with
           | Hc : _ && _ = true |- _ =>
               apply andb_true_iff in Hc; destruct Hc
           end.
    pose proof (Hne bs1 (Hmap _ Hl1)) as Hn1.
    pose proof (Hne bs2 (Hmap _ Hl2)) as Hn2.
    split; [ exists bs1 | exists bs2 ]; (split; [ reflexivity | ]);
      unfold block_indices_accepted;
      repeat (apply andb_true_iff; split); assumption.
  - intros [[bs1 [Heq1 Hacc1]] [bs2 [Heq2 Hacc2]]].
    injection Heq1 as ->. injection Heq2 as ->.
    exists (bs1 ++ bs2). split; [ rewrite map_app; reflexivity | ].
    unfold block_indices_accepted in *.
    rewrite !forallb_app.
    repeat (apply andb_true_iff in Hacc1; destruct Hacc1 as [Hacc1 ?]).
    repeat (apply andb_true_iff in Hacc2; destruct Hacc2 as [Hacc2 ?]).
    assert (Hn : negb (List.length (bs1 ++ bs2) =? 0)%nat = true).
    { apply Hne. apply Hmap in Hl1.
      destruct bs1; [ contradiction | discriminate ]. }
    repeat (apply andb_true_iff; split); assumption.
Qed.

Lemma validate_block_indices_app_witness :
  [block_array [0; 1]] <> []
  /\ [block_array [2; 3; 4]] <> []
  /\ (validate_block_indices
        (PyList ([block_array [0; 1]] ++ [block_array [2; 3; 4]])) 5 = ok tt
      <-> validate_block_indices (PyList [block_array [0; 1]]) 5 = ok tt
          /\ validate_block_indices (PyList [block_array [2; 3; 4]]) 5
             = ok tt).
Proof.
  split; [ discriminate | split; [ discriminate | ] ].
  apply validate_block_indices_app; discriminate.
Defined.

Lemma forallb_andb {A : Type} (f g : A -> bool) (l : list A) :
  forallb (fun a => f a && g a) l = forallb f l && forallb g l.
Proof.
  induction l as [ | a l IH]; simpl; [ reflexivity | ].
  rewrite IH. destruct (f a), (g a), (forallb f l); reflexivity.
Qed.

Lemma block_checks (b : ndarray) (M : nat) :
  (ndim b =? 2)%nat && (0 <? shape_at b 0)%nat && (0 <? shape_at b 1)%nat
  && (shape_at b 1 =? M)%nat && all_isfinite b = true
  <-> (0 < M)%nat
      /\ exists rows, shape b = [S rows; M] /\ all_isfinite b = true.
Proof.
  unfold ndim, shape_at. split.
  - intro Hb.
    repeat (apply andb_true_iff in Hb; destruct Hb as [Hb ?]).
    destruct (shape b) as [ | r [ | c [ | x rest]]]; try discriminate Hb.
    cbn [nth] in *.
    match goal with Hc : (c =? M)%nat = true |- _ =>
      apply Nat.eqb_eq in Hc; subst c end.
    match goal with Hc : (0 <? M)%nat = true |- _ =>
      apply Nat.ltb_lt in Hc end.
    match goal with Hc : (0 <? r)%nat = true |- _ =>
      apply Nat.ltb_lt in Hc end.
    split; [ assumption | ].
    destruct r as [ | rows]; [ lia | ].
    exists rows. split; [ reflexivity | assumption ].
  - intros [HM [rows [Hshape Hfin]]]. rewrite Hshape, Hfin. cbn [List.length nth].
    rewrite !Nat.eqb_refl. apply Nat.ltb_lt in HM. rewrite HM.
    assert (Hrows : (0 <? S rows)%nat = true) by (apply Nat.ltb_lt; lia).
    rewrite Hrows. reflexivity.
Qed.

Lemma block_checks_forallb (M : nat) (bs : list ndarray) :
  forallb (fun b =>
             (ndim b =? 2)%nat && (0 <? shape_at b 0)%nat
             && (0 <? shape_at b 1)%nat && (shape_at b 1 =? M)%nat
             && all_isfinite b) bs
  = forallb (fun b => (ndim b =? 2)%nat) bs
    && forallb (fun b => (0 <? shape_at b 0)%nat) bs
    && forallb (fun b => (0 <? shape_at b 1)%nat) bs
    && forallb (fun b => (shape_at b 1 =? M)%nat) bs
    && forallb all_isfinite bs.
Proof.
  rewrite <- !forallb_andb. reflexivity.
Qed.

Lemma validate_blocks_arrays (bs : list ndarray) :
  validate_blocks (PyList (map PyArray bs)) = ok tt
  <-> exists b0 rest,
        bs = b0 :: rest
        /\ forallb (fun b =>
                      (ndim b =? 2)%nat && (0 <? shape_at b 0)%nat
                      && (0 <? shape_at b 1)%nat
                      && (shape_at b 1 =? shape_at b0 1)%nat
                      && all_isfinite b) bs = true.
Proof.
  unfold validate_blocks.
  rewrite (proj2 (as_arrays_Some (map PyArray bs) bs) eq_refl), length_map.
  destruct bs as [ | b0 rest].
  - simpl. split; [ discriminate | intros [b [r [Hbs _]]]; discriminate Hbs ].
  - cbn [List.length Nat.eqb].
    pose proof (block_checks_forallb (shape_at b0 1) (b0 :: rest)) as Hall.
    set (bs := b0 :: rest) in *.
    assert (Hiff : (exists b1 rest1,
                       bs = b1 :: rest1
                       /\ forallb (fun b =>
                                     (ndim b =? 2)%nat
                                     && (0 <? shape_at b 0)%nat
                                     && (0 <? shape_at b 1)%nat
                                     && (shape_at b 1 =? shape_at b1 1)%nat
                                     && all_isfinite b) bs = true)
                   <-> forallb (fun b =>
                                  (ndim b =? 2)%nat
                                  && (0 <? shape_at b 0)%nat
                                  && (0 <? shape_at b 1)%nat
                                  && (shape_at b 1 =? shape_at b0 1)%nat
                                  && all_isfinite b) bs = true).
    { split.
      - intros [b1 [rest1 [Hbs Hc]]]. subst bs. injection Hbs as <- <-.
        exact Hc.
      - intro Hc. exists b0, rest. split; [ reflexivity | exact Hc ]. }
    rewrite Hiff, Hall. clear Hiff Hall. clearbody bs.
    destruct (forallb (fun b => (ndim b =? 2)%nat) bs); simpl;
      [ | split; discriminate ].
    destruct (forallb (fun b => (0 <? shape_at b 0)%nat) bs); simpl;
      [ | split; discriminate ].
    destruct (forallb (fun b => (0 <? shape_at b 1)%nat) bs); simpl;
      [ | split; discriminate ].
    destruct (forallb (fun b => (shape_at b 1 =? shape_at b0 1)%nat) bs);
      simpl; [ | split; discriminate ].
    destruct (forallb all_isfinite bs); simpl; split;
      try discriminate; reflexivity.
Qed.

(** X13.  What [validate_blocks] accepts: a non-empty list of arrays that are all
    2-D with at least one row, with one common number of columns, at least
    one, and with finite values only. *)
Theorem validate_blocks_accepted (blocks : pyobj) :
  validate_blocks blocks = ok tt
  <-> exists (b0 : ndarray) (rest : list ndarray) (M : nat),
        blocks = PyList (map PyArray (b0 :: rest))
        /\ (0 < M)%nat
        /\ Forall (fun b => exists rows,
                              shape b = [S rows; M]
                              /\ all_isfinite b = true) (b0 :: rest).
Proof.
  split.
  - intro Hok. destruct blocks; try discriminate Hok.
    destruct (as_arrays l) as [bs | ] eqn:Harr.
    + apply as_arrays_Some in Harr. subst l.
      apply validate_blocks_arrays in Hok.
      destruct Hok as [b0 [rest [-> Hall]]].
      exists b0, rest, (shape_at b0 1). split; [ reflexivity | ].
      rewrite forallb_forall in Hall. split.
      * apply (block_checks b0 (shape_at b0 1)). apply Hall. left. reflexivity.
      * apply Forall_forall. intros b Hb.
        apply (block_checks b (shape_at b0 1)). apply Hall. exact Hb.
    + unfold validate_blocks in Hok. rewrite Harr in Hok.
      destruct (List.length l =? 0)%nat; discriminate Hok.
  - intros [b0 [rest [M [-> [HM Hall]]]]].
    apply validate_blocks_arrays. exists b0, rest. split; [ reflexivity | ].
    rewrite Forall_forall in Hall.
    assert (HM0 : shape_at b0 1 = M).
    { destruct (Hall b0 (or_introl eq_refl)) as [rows [Hshape _]].
      unfold shape_at. rewrite Hshape. reflexivity. }
    rewrite HM0. apply forallb_forall. intros b Hb.
    apply block_checks. split; [ exact HM | apply Hall; exact Hb ].
Qed.

(* ================================================================== *)
(** * What drawing leaves in place *)
(* ================================================================== *)

Lemma same_configuration_refl (s : BlockBootstrap.t) : same_configuration s s.
Proof. destruct s; reflexivity. Qed.

Lemma same_configuration_trans (s1 s2 s3 : BlockBootstrap.t) :
  same_configuration s1 s2 -> same_configuration s2 s3 ->
  same_configuration s1 s3.
Proof.
  unfold same_configuration. intros H12 H23. rewrite H23.
  rewrite H12. destruct s1; reflexivity.
Qed.

Lemma same_configuration_fields (s1 s2 : BlockBootstrap.t) :
  same_configuration s1 s2 ->
  BlockBootstrap.n_bootstraps s2 = BlockBootstrap.n_bootstraps s1
  /\ BlockBootstrap.block_length s2 = BlockBootstrap.block_length s1
  /\ BlockBootstrap.block_length_distribution s2
     = BlockBootstrap.block_length_distribution s1
  /\ BlockBootstrap.wrap_around_flag s2 = BlockBootstrap.wrap_around_flag s1
  /\ BlockBootstrap.overlap_flag s2 = BlockBootstrap.overlap_flag s1
  /\ BlockBootstrap.combine_generation_and_sampling_flag s2
     = BlockBootstrap.combine_generation_and_sampling_flag s1
  /\ BlockBootstrap.block_weights s2 = BlockBootstrap.block_weights s1
  /\ BlockBootstrap.tapered_weights s2 = BlockBootstrap.tapered_weights s1
  /\ BlockBootstrap.overlap_length s2 = BlockBootstrap.overlap_length s1
  /\ BlockBootstrap.min_block_length s2 = BlockBootstrap.min_block_length s1.
Proof.
  unfold same_configuration. intro Hsc. rewrite Hsc.
  destruct s1; repeat split; reflexivity.
Qed.

Section Configuration.
Context `{Numerics} `{Utilities}.

Lemma single_bootstrap_configuration (self : BlockBootstrap.t) (X : matrix)
      (exog : option matrix) :
  let self' :=
    snd (BlockBootstrap._generate_samples_single_bootstrap self X exog) in
  same_configuration self self'
  /\ (BlockBootstrap.combine_generation_and_sampling_flag self = true ->
      BlockBootstrap.blocks self' = BlockBootstrap.blocks self
      /\ BlockBootstrap.block_resampler self'
         = BlockBootstrap.block_resampler self).
Proof.
  cbv zeta.
  unfold BlockBootstrap._generate_samples_single_bootstrap,
    BlockBootstrap.blocks_and_resampler.
  pose proof (_generate_blocks_only_draws self X) as Hgen.
  destruct (BlockBootstrap._generate_blocks self X) as [rb self1].
  cbn [snd] in Hgen.
  assert (Hpath :
    forall r : result (list block * option BlockResampler),
      let self' :=
        snd (match r with
             | inl e => (raise e, self1)
             | inr (bs, None) => (raise AttributeError, self1)
             | inr (bs, Some br) =>
                 let (r0, g) :=
                   resample_block_indices_and_data br
                     (BlockBootstrap.rng self1) in
                 let self2 := BlockBootstrap.with_rng self1 g in
                 match r0 with
                 | inl e => (raise e, self2)
                 | inr (block_indices, block_data) =>
                     (ok (block_indices, block_data),
                      if BlockBootstrap.combine_generation_and_sampling_flag
                           self2
                      then self2
                      else BlockBootstrap.with_cache self2 bs br)
                 end
             end : result (list block * list matrix) * BlockBootstrap.t) in
      same_configuration self self'
      /\ (BlockBootstrap.combine_generation_and_sampling_flag self = true ->
          BlockBootstrap.blocks self' = BlockBootstrap.blocks self
          /\ BlockBootstrap.block_resampler self'
             = BlockBootstrap.block_resampler self)).
  { intro r. cbv zeta. rewrite Hgen.
    destruct self as [k g0 bl dist wrap ov comb bw tw ol ml cbs cbr].
    instance_fields.
    destruct r as [e | [bs [br | ]]]; cbv beta iota delta [raise ok].
    - cbn [snd]. split; [ reflexivity | intros _; split; reflexivity ].
    - destruct (resample_block_indices_and_data br _) as [r0 g].
      destruct r0 as [e | [bi bd]]; cbn [snd].
      + split; [ reflexivity | intros _; split; reflexivity ].
      + destruct comb; cbn [snd].
        * split; [ reflexivity | intros _; split; reflexivity ].
        * split; [ reflexivity | discriminate ].
    - cbn [snd]. split; [ reflexivity | intros _; split; reflexivity ]. }
  destruct (BlockBootstrap.combine_generation_and_sampling_flag self) eqn:Hc;
    [ | destruct (BlockBootstrap.blocks self) as [kept | ] eqn:Hb ].
  - destruct rb as [e | bs]; cbv beta iota delta [raise ok].
    + specialize (Hpath (raise e)). apply Hpath.
    + destruct (BlockResampler_init X bs _ _) as [e | br].
      * specialize (Hpath (raise e)). apply Hpath.
      * specialize (Hpath (ok (bs, Some br))). apply Hpath.
  - cbv beta iota delta [raise ok].
    destruct (BlockBootstrap.block_resampler self) as [br | ] eqn:Hr.
    + destruct (resample_block_indices_and_data br _) as [r0 g].
      destruct self as [k g0 bl dist wrap ov comb bw tw ol ml cbs cbr].
      instance_fields. subst comb cbs cbr.
      destruct r0 as [e | [bi bd]]; cbn [snd];
        (split; [ reflexivity | discriminate ]).
    + cbn [snd]. split; [ apply same_configuration_refl | discriminate ].
  - destruct rb as [e | bs]; cbv beta iota delta [raise ok].
    + specialize (Hpath (raise e)). apply Hpath.
    + destruct (BlockResampler_init X bs _ _) as [e | br].
      * specialize (Hpath (raise e)). apply Hpath.
      * specialize (Hpath (ok (bs, Some br))). apply Hpath.
Qed.

Lemma generate_samples_loop_configuration (k : nat) :
  forall (self : BlockBootstrap.t) (X : matrix) (return_indices : bool)
         (exog : option matrix),
    let self' :=
      final (BaseTimeSeriesBootstrap.generate_samples_loop
               k self X return_indices exog) in
    same_configuration self self'
    /\ (BlockBootstrap.combine_generation_and_sampling_flag self = true ->
        BlockBootstrap.blocks self' = BlockBootstrap.blocks self
        /\ BlockBootstrap.block_resampler self'
           = BlockBootstrap.block_resampler self).
Proof.
  induction k as [ | k IH]; intros self X ri exog; cbv zeta.
  - cbn [BaseTimeSeriesBootstrap.generate_samples_loop final].
    split; [ apply same_configuration_refl | intros _; split; reflexivity ].
  - cbn [BaseTimeSeriesBootstrap.generate_samples_loop
         BaseTimeSeriesBootstrap._generate_samples_single_bootstrap
         BlockBootstrap.methods].
    pose proof (single_bootstrap_configuration self X exog) as Hone.
    cbv zeta in Hone.
    destruct (BlockBootstrap._generate_samples_single_bootstrap self X exog)
      as [r self1].
    cbn [snd] in Hone. destruct Hone as [Hsc Hkeep].
    destruct r as [e | [indices data]]; [ split; assumption | ].
    destruct (np_concatenate data) as [e | d]; [ split; assumption | ].
    cbn [final].
    specialize (IH self1 X ri exog). cbv zeta in IH.
    destruct IH as [Hsc' Hkeep']. split.
    + apply (same_configuration_trans _ self1); assumption.
    + intro Hc.
      destruct (same_configuration_fields _ _ Hsc)
        as [_ [_ [_ [_ [_ [Hc1 _]]]]]].
      rewrite Hc in Hc1. destruct (Hkeep Hc) as [Hb Hr].
      destruct (Hkeep' Hc1) as [Hb' Hr'].
      split; congruence.
Qed.

Lemma split_configuration (self : BlockBootstrap.t) (X : array_like)
      (return_indices : bool) (exog : option matrix) :
  let self' :=
    final (BaseTimeSeriesBootstrap.split self X return_indices exog) in
  same_configuration self self'
  /\ (BlockBootstrap.combine_generation_and_sampling_flag self = true ->
      BlockBootstrap.blocks self' = BlockBootstrap.blocks self
      /\ BlockBootstrap.block_resampler self'
         = BlockBootstrap.block_resampler self).
Proof.
  cbv zeta. unfold BaseTimeSeriesBootstrap.split.
  assert (Hstay : same_configuration self self
                  /\ (BlockBootstrap.combine_generation_and_sampling_flag self
                      = true ->
                      BlockBootstrap.blocks self = BlockBootstrap.blocks self
                      /\ BlockBootstrap.block_resampler self
                         = BlockBootstrap.block_resampler self))
    by (split; [ apply same_configuration_refl | intros _; split; reflexivity ]).
  destruct (BaseTimeSeriesBootstrap.check_input self (as_2d X));
    [ exact Hstay | ].
  destruct (time_series_split (as_2d X) (1 # 5)) as [X_train X_test].
  destruct exog as [ex | ].
  - destruct (BaseTimeSeriesBootstrap.check_input self ex); [ exact Hstay | ].
    destruct (time_series_split ex (1 # 5)) as [exog_train exog_test].
    apply generate_samples_loop_configuration.
  - apply generate_samples_loop_configuration.
Qed.

End Configuration.

(** X16.  Bootstrapping never changes the configuration of a [BlockBootstrap]:
    after [split], run to its end or to its exception, the ten settings are
    what they were; only the generator, the kept partition and the kept
    resampler can differ, and with
    [combine_generation_and_sampling_flag] on the last two do not either. *)
Theorem split_keeps_configuration `{Numerics} `{Utilities}
        (self : BlockBootstrap.t) (X : array_like) (return_indices : bool)
        (exog : option matrix) :
  let self' :=
    final (BaseTimeSeriesBootstrap.split self X return_indices exog) in
  (BlockBootstrap.n_bootstraps self' = BlockBootstrap.n_bootstraps self
   /\ BlockBootstrap.block_length self' = BlockBootstrap.block_length self
   /\ BlockBootstrap.block_length_distribution self'
      = BlockBootstrap.block_length_distribution self
   /\ BlockBootstrap.wrap_around_flag self'
      = BlockBootstrap.wrap_around_flag self
   /\ BlockBootstrap.overlap_flag self' = BlockBootstrap.overlap_flag self
   /\ BlockBootstrap.combine_generation_and_sampling_flag self'
      = BlockBootstrap.combine_generation_and_sampling_flag self
   /\ BlockBootstrap.block_weights self' = BlockBootstrap.block_weights self
   /\ BlockBootstrap.tapered_weights self'
      = BlockBootstrap.tapered_weights self
   /\ BlockBootstrap.overlap_length self' = BlockBootstrap.overlap_length self
   /\ BlockBootstrap.min_block_length self'
      = BlockBootstrap.min_block_length self)
  /\ (BlockBootstrap.combine_generation_and_sampling_flag self = true ->
      BlockBootstrap.blocks self' = BlockBootstrap.blocks self
      /\ BlockBootstrap.block_resampler self'
         = BlockBootstrap.block_resampler self).
Proof.
  cbv zeta.
  destruct (split_configuration self X return_indices exog) as [Hsc Hkeep].
  split; [ apply same_configuration_fields; exact Hsc | exact Hkeep ].
Qed.

Lemma split_keeps_configuration_witness :
  BlockBootstrap.combine_generation_and_sampling_flag
    (example_bootstrap (Some 3) true) = true
  /\ BlockBootstrap.blocks
       (final (@BaseTimeSeriesBootstrap.split
                 _ (@BlockBootstrap.methods example_numerics) example_utilities
                 (example_bootstrap (Some 3) true)
                 (Array2 (example_series 10)) false None))
     = BlockBootstrap.blocks (example_bootstrap (Some 3) true)
  /\ BlockBootstrap.block_resampler
       (final (@BaseTimeSeriesBootstrap.split
                 _ (@BlockBootstrap.methods example_numerics) example_utilities
                 (example_bootstrap (Some 3) true)
                 (Array2 (example_series 10)) false None))
     = BlockBootstrap.block_resampler (example_bootstrap (Some 3) true).
Proof.
  split; [ reflexivity | ].
  exact (proj2 (@split_keeps_configuration example_numerics example_utilities
                  (example_bootstrap (Some 3) true)
                  (Array2 (example_series 10)) false None) eq_refl).
Defined.

(* ================================================================== *)
(** * The constructors of the block bootstraps *)
(* ================================================================== *)

Section Constructors.
Context `{Numerics} `{Utilities}.

Lemma BlockBootstrap_new_fields (kwargs : block_kwargs)
      (self : BlockBootstrap.t) :
  BlockBootstrap_new kwargs = ok self ->
  BaseTimeSeriesBootstrap.n_bootstraps_setter (kw_n_bootstraps kwargs)
  = ok (BlockBootstrap.n_bootstraps self)
  /\ BlockBootstrap.block_length_setter (kw_block_length kwargs)
     = ok (BlockBootstrap.block_length self)
  /\ BlockBootstrap.combine_generation_and_sampling_flag self
     = kw_combine_generation_and_sampling_flag kwargs
  /\ BlockBootstrap.blocks self = None
  /\ BlockBootstrap.block_resampler self = None.
Proof.
  unfold BlockBootstrap_new, BlockBootstrap.__init__.
  destruct (BaseTimeSeriesBootstrap.n_bootstraps_setter _) as [e | n];
    [ discriminate | ].
  destruct (BaseTimeSeriesBootstrap.rng_setter _) as [e | g];
    [ discriminate | ].
  destruct (BlockBootstrap.block_length_distribution_setter _) as [e | d];
    [ discriminate | ].
  destruct (BlockBootstrap.block_length_setter _) as [e | b];
    [ discriminate | ].
  intro Hself. injection Hself as <-. repeat split; reflexivity.
Qed.

Lemma n_bootstraps_setter_positive (value : pyobj) (n : Z) :
  BaseTimeSeriesBootstrap.n_bootstraps_setter value = ok n -> 0 < n.
Proof.
  unfold BaseTimeSeriesBootstrap.n_bootstraps_setter.
  destruct (integral_value value) as [v | ]; [ | discriminate ].
  destruct (Z.ltb_spec 0 v); simpl; [ | discriminate ].
  intro Hn. injection Hn as <-. assumption.
Qed.

Lemma block_length_setter_at_least_1 (value : pyobj) (b : Z) :
  BlockBootstrap.block_length_setter value = ok (Some b) -> 1 <= b.
Proof.
  unfold BlockBootstrap.block_length_setter.
  destruct value; cbn [integral_value]; try discriminate;
    match goal with
    | |- context [?v <? 1] =>
        destruct (Z.ltb_spec v 1); [ discriminate | ];
        intro Hb; injection Hb as <-; assumption
    end.
Qed.

Lemma block_variant_made (overlap wrap : bool) (distribution : pyobj)
      (kwargs : block_kwargs) (self : BlockBootstrap.t) :
  block_variant overlap wrap distribution kwargs = ok self ->
  exists (made : BlockBootstrap.t) (d : option string),
    BlockBootstrap_new kwargs = ok made
    /\ BlockBootstrap.block_length_distribution_setter distribution = ok d
    /\ self = with_flags made overlap wrap d.
Proof.
  unfold block_variant.
  destruct (BlockBootstrap_new kwargs) as [e | made]; [ discriminate | ].
  destruct (BlockBootstrap.block_length_distribution_setter distribution)
    as [e | d]; [ discriminate | ].
  intro Hself. injection Hself as <-. exists made, d.
  repeat split; reflexivity.
Qed.

Lemma block_variant_flags (overlap wrap : bool) (distribution : pyobj)
      (d : option string) (kwargs : block_kwargs) (self : BlockBootstrap.t)
      (X : array_like) (return_indices : bool) (exog : option matrix) :
  BlockBootstrap.block_length_distribution_setter distribution = ok d ->
  block_variant overlap wrap distribution kwargs = ok self ->
  let self' :=
    final (BaseTimeSeriesBootstrap.split self X return_indices exog) in
  BlockBootstrap.overlap_flag self' = overlap
  /\ BlockBootstrap.wrap_around_flag self' = wrap
  /\ BlockBootstrap.block_length_distribution self' = d
  /\ BlockBootstrap.combine_generation_and_sampling_flag self'
     = kw_combine_generation_and_sampling_flag kwargs.
Proof.
  intros Hd Hself. cbv zeta.
  destruct (block_variant_made _ _ _ _ _ Hself) as [made [d' [Hnew [Hd' ->]]]].
  rewrite Hd in Hd'. injection Hd' as Heq. subst d'.
  destruct (BlockBootstrap_new_fields _ _ Hnew) as [_ [_ [Hc _]]].
  destruct (split_configuration (with_flags made overlap wrap d)
                                X return_indices exog) as [Hsc _].
  destruct (same_configuration_fields _ _ Hsc)
    as [_ [_ [Hdist [Hwrap [Hov [Hcomb _]]]]]].
  rewrite Hdist, Hwrap, Hov, Hcomb.
  destruct made; repeat split; try reflexivity. exact Hc.
Qed.

End Constructors.

(** X17.  An instance made by the constructor stays well formed however it is
    used: [n_bootstraps] is above 0 and [block_length] is None or at least
    1, before and after [split]; and it starts without a kept partition or
    resampler. *)
Theorem constructed_instance_stays_valid `{Numerics} `{Utilities}
        (kwargs : block_kwargs) (self : BlockBootstrap.t)
        (X : array_like) (return_indices : bool) (exog : option matrix)
        (Hnew : BlockBootstrap_new kwargs = ok self) :
  let self' :=
    final (BaseTimeSeriesBootstrap.split self X return_indices exog) in
  (BlockBootstrap.blocks self = None
   /\ BlockBootstrap.block_resampler self = None)
  /\ 0 < BlockBootstrap.n_bootstraps self'
  /\ (forall b, BlockBootstrap.block_length self' = Some b -> 1 <= b).
Proof.
  cbv zeta.
  destruct (BlockBootstrap_new_fields _ _ Hnew) as [Hn [Hb [_ [Hbs Hbr]]]].
  destruct (split_configuration self X return_indices exog) as [Hsc _].
  destruct (same_configuration_fields _ _ Hsc) as [Hn' [Hb' _]].
  rewrite Hn', Hb'. split; [ split; assumption | split ].
  - apply (n_bootstraps_setter_positive _ _ Hn).
  - intros b Hsome. rewrite Hsome in Hb.
    apply (block_length_setter_at_least_1 _ _ Hb).
Qed.

Lemma constructed_instance_stays_valid_witness :
  @BlockBootstrap_new example_numerics example_kwargs
  = ok example_block_bootstrap
  /\ (BlockBootstrap.blocks example_block_bootstrap = None
      /\ BlockBootstrap.block_resampler example_block_bootstrap = None)
  /\ 0 < BlockBootstrap.n_bootstraps
           (final (@BaseTimeSeriesBootstrap.split
                     _ (@BlockBootstrap.methods example_numerics) example_utilities
                     example_block_bootstrap
                     (Array2 (example_series 10)) true None))
  /\ (forall b,
         BlockBootstrap.block_length
           (final (@BaseTimeSeriesBootstrap.split
                     _ (@BlockBootstrap.methods example_numerics) example_utilities
                     example_block_bootstrap
                     (Array2 (example_series 10)) true None)) = Some b ->
         1 <= b).
Proof.
  split; [ reflexivity | ].
  exact (@constructed_instance_stays_valid example_numerics example_utilities example_kwargs
           example_block_bootstrap (Array2 (example_series 10)) true None
           eq_refl).
Defined.

(** X18.  The four block bootstraps fix their flags whatever the caller passes,
    and bootstrapping keeps them: moving and stationary overlap without
    wrap-around, circular overlaps with wrap-around, non-overlapping does
    neither; the block length distribution is None, and geometric for the
    stationary one.  [combine_generation_and_sampling_flag] is not fixed:
    it is the caller's. *)
Theorem block_bootstrap_classes_flags `{Numerics} `{Utilities}
        (kwargs : block_kwargs) (self : BlockBootstrap.t)
        (X : array_like) (return_indices : bool) (exog : option matrix) :
  let self' :=
    final (BaseTimeSeriesBootstrap.split self X return_indices exog) in
  let flags (overlap wrap : bool) (distribution : option string) :=
    BlockBootstrap.overlap_flag self' = overlap
    /\ BlockBootstrap.wrap_around_flag self' = wrap
    /\ BlockBootstrap.block_length_distribution self' = distribution
    /\ BlockBootstrap.combine_generation_and_sampling_flag self'
       = kw_combine_generation_and_sampling_flag kwargs in
  (MovingBlockBootstrap kwargs = ok self -> flags true false None)
  /\ (StationaryBlockBootstrap kwargs = ok self ->
      flags true false (Some "geometric"%string))
  /\ (CircularBlockBootstrap kwargs = ok self -> flags true true None)
  /\ (NonOverlappingBlockBootstrap kwargs = ok self ->
      flags false false None).
Proof.
  cbv zeta.
  split; [ | split; [ | split ] ]; intro Hself;
    eapply block_variant_flags; try exact Hself; reflexivity.
Qed.

Lemma block_bootstrap_classes_flags_witness :
  @MovingBlockBootstrap example_numerics example_kwargs = ok example_moving
  /\ BlockBootstrap.overlap_flag
       (final (@BaseTimeSeriesBootstrap.split
                 _ (@BlockBootstrap.methods example_numerics) example_utilities
                 example_moving (Array2 (example_series 10)) false None))
     = true
  /\ BlockBootstrap.wrap_around_flag
       (final (@BaseTimeSeriesBootstrap.split
                 _ (@BlockBootstrap.methods example_numerics) example_utilities
                 example_moving (Array2 (example_series 10)) false None))
     = false
  /\ BlockBootstrap.block_length_distribution
       (final (@BaseTimeSeriesBootstrap.split
                 _ (@BlockBootstrap.methods example_numerics) example_utilities
                 example_moving (Array2 (example_series 10)) false None))
     = None
  /\ BlockBootstrap.combine_generation_and_sampling_flag
       (final (@BaseTimeSeriesBootstrap.split
                 _ (@BlockBootstrap.methods example_numerics) example_utilities
                 example_moving (Array2 (example_series 10)) false None))
     = kw_combine_generation_and_sampling_flag example_kwargs.
Proof.
  split; [ reflexivity | ].
  exact (proj1 (@block_bootstrap_classes_flags example_numerics example_utilities example_kwargs
                  example_moving (Array2 (example_series 10)) false None)
               eq_refl).
Defined.

(* ================================================================== *)
(** * BaseBlockBootstrap *)
(* ================================================================== *)

Section Delegation.
Context `{Numerics}.

Lemma _check_input_block_length (s1 s2 : BlockBootstrap.t) (X : matrix) :
  BlockBootstrap.block_length s1 = BlockBootstrap.block_length s2 ->
  BlockBootstrap._check_input s1 X = BlockBootstrap._check_input s2 X.
Proof.
  intro Hb. unfold BlockBootstrap._check_input. rewrite Hb. reflexivity.
Qed.

(** With an inner instance, the loop of the outer instance is the loop of
    the inner one; the outer one changes in its generator at most. *)
Lemma delegate_loop (k : nat) :
  forall (outer : BaseBlockBootstrap.t) (inst : BlockBootstrap.t)
         (X : matrix) (return_indices : bool) (exog : option matrix),
    BaseBlockBootstrap.bootstrap_instance outer = Some inst ->
    let r := BaseTimeSeriesBootstrap.generate_samples_loop
               k outer X return_indices exog in
    let r' := BaseTimeSeriesBootstrap.generate_samples_loop
                k inst X return_indices exog in
    yielded r = yielded r'
    /\ raised r = raised r'
    /\ BaseBlockBootstrap.bootstrap_instance (final r) = Some (final r')
    /\ BlockBootstrap.blocks (BaseBlockBootstrap.base (final r))
       = BlockBootstrap.blocks (BaseBlockBootstrap.base outer)
    /\ BlockBootstrap.block_resampler (BaseBlockBootstrap.base (final r))
       = BlockBootstrap.block_resampler (BaseBlockBootstrap.base outer).
Proof.
  induction k as [ | k IH]; intros outer inst X ri exog Hinst; cbv zeta.
  - cbn [BaseTimeSeriesBootstrap.generate_samples_loop yielded raised final].
    repeat split; try reflexivity. exact Hinst.
  - cbn [BaseTimeSeriesBootstrap.generate_samples_loop
         BaseTimeSeriesBootstrap._generate_samples_single_bootstrap
         BaseBlockBootstrap.methods BlockBootstrap.methods].
    unfold BaseBlockBootstrap._generate_samples_single_bootstrap.
    rewrite Hinst.
    destruct (BlockBootstrap._generate_samples_single_bootstrap inst X exog)
      as [r inst1].
    set (outer1 := BaseBlockBootstrap.mk _ (Some inst1) _).
    assert (Hbase :
              BlockBootstrap.blocks (BaseBlockBootstrap.base outer1)
              = BlockBootstrap.blocks (BaseBlockBootstrap.base outer)
              /\ BlockBootstrap.block_resampler (BaseBlockBootstrap.base outer1)
                 = BlockBootstrap.block_resampler
                     (BaseBlockBootstrap.base outer)).
    { subst outer1. cbn [BaseBlockBootstrap.base].
      destruct (BaseBlockBootstrap.shares_rng outer);
        [ destruct (BaseBlockBootstrap.base outer) | ];
        split; reflexivity. }
    destruct Hbase as [Hbs Hbr].
    destruct r as [e | [indices data]];
      [ cbn [yielded raised final]; repeat split; assumption || reflexivity | ].
    destruct (np_concatenate data) as [e | d];
      [ cbn [yielded raised final]; repeat split; assumption || reflexivity | ].
    cbn [yielded raised final].
    specialize (IH outer1 inst1 X ri exog eq_refl). cbv zeta in IH.
    destruct IH as [Hy [Hr [Hi [Hb1 Hb2]]]].
    rewrite Hy, Hr, Hi, Hb1, Hb2. repeat split; assumption || reflexivity.
Qed.

(** Without an inner instance, the loop of the outer instance is the loop of
    [BlockBootstrap] on it. *)
Lemma inherit_loop (k : nat) :
  forall (outer : BaseBlockBootstrap.t) (X : matrix) (return_indices : bool)
         (exog : option matrix),
    BaseBlockBootstrap.bootstrap_instance outer = None ->
    let r := BaseTimeSeriesBootstrap.generate_samples_loop
               k outer X return_indices exog in
    let r' := BaseTimeSeriesBootstrap.generate_samples_loop
                k (BaseBlockBootstrap.base outer) X return_indices exog in
    yielded r = yielded r'
    /\ raised r = raised r'
    /\ BaseBlockBootstrap.base (final r) = final r'
    /\ BaseBlockBootstrap.bootstrap_instance (final r) = None.
Proof.
  induction k as [ | k IH]; intros outer X ri exog Hnone; cbv zeta.
  - cbn [BaseTimeSeriesBootstrap.generate_samples_loop yielded raised final].
    repeat split; try reflexivity. exact Hnone.
  - cbn [BaseTimeSeriesBootstrap.generate_samples_loop
         BaseTimeSeriesBootstrap._generate_samples_single_bootstrap
         BaseBlockBootstrap.methods BlockBootstrap.methods].
    unfold BaseBlockBootstrap._generate_samples_single_bootstrap.
    rewrite Hnone.
    destruct (BlockBootstrap._generate_samples_single_bootstrap
                (BaseBlockBootstrap.base outer) X exog) as [r base1].
    destruct r as [e | [indices data]];
      [ cbn [yielded raised final]; repeat split; reflexivity | ].
    destruct (np_concatenate data) as [e | d];
      [ cbn [yielded raised final]; repeat split; reflexivity | ].
    cbn [yielded raised final].
    specialize (IH (BaseBlockBootstrap.mk base1 None
                      (BaseBlockBootstrap.shares_rng outer))
                   X ri exog eq_refl).
    cbv zeta in IH. cbn [BaseBlockBootstrap.base] in IH.
    destruct IH as [Hy [Hr [Hb Hi]]].
    rewrite Hy, Hr, Hb, Hi. repeat split; reflexivity.
Qed.

Lemma block_variant_same_base (overlap wrap : bool) (distribution : pyobj)
      (kwargs : block_kwargs) (made self : BlockBootstrap.t) :
  BlockBootstrap_new kwargs = ok made ->
  block_variant overlap wrap distribution kwargs = ok self ->
  BlockBootstrap.n_bootstraps self = BlockBootstrap.n_bootstraps made
  /\ BlockBootstrap.block_length self = BlockBootstrap.block_length made.
Proof.
  intros Hmade Hself.
  destruct (block_variant_made _ _ _ _ _ Hself) as [made' [d [Hnew [_ ->]]]].
  rewrite Hmade in Hnew. injection Hnew as <-.
  destruct made; split; reflexivity.
Qed.

Lemma bootstrap_type_dict_variant (name : string)
      (cls : block_kwargs -> result BlockBootstrap.t) :
  BaseBlockBootstrap.bootstrap_type_dict name = Some cls ->
  In name ["nonoverlapping"; "moving"; "stationary"; "circular"]%string
  /\ exists overlap wrap distribution d,
       cls = block_variant overlap wrap distribution
       /\ BlockBootstrap.block_length_distribution_setter distribution = ok d.
Proof.
  unfold BaseBlockBootstrap.bootstrap_type_dict.
  destruct (String.eqb_spec name "nonoverlapping");
    [ intro Hc; injection Hc as <-; subst name; split;
      [ simpl; tauto
      | exists false, false, PyNone, None; split; reflexivity ] | ].
  destruct (String.eqb_spec name "moving");
    [ intro Hc; injection Hc as <-; subst name; split;
      [ simpl; tauto
      | exists true, false, PyNone, None; split; reflexivity ] | ].
  destruct (String.eqb_spec name "stationary");
    [ intro Hc; injection Hc as <-; subst name; split;
      [ simpl; tauto
      | exists true, false, (PyStr "geometric"), (Some "geometric"%string);
        split; reflexivity ] | ].
  destruct (String.eqb_spec name "circular");
    [ intro Hc; injection Hc as <-; subst name; split;
      [ simpl; tauto
      | exists true, true, PyNone, None; split; reflexivity ] | ].
  discriminate.
Qed.

End Delegation.

(** X19.  A [BaseBlockBootstrap] with a [bootstrap_type] bootstraps through its
    inner instance alone: [split] yields what [split] of the inner instance
    yields from its present state, ends as it ends, and leaves the inner
    instance as it leaves it; the outer instance never keeps a partition or
    a resampler of its own.  When a seed or a generator was given, the inner
    instance is the one the named class makes of the same keyword
    arguments. *)
Theorem BaseBlockBootstrap_delegates `{Numerics} `{Utilities}
        (name : string) (kwargs : block_kwargs) (outer : BaseBlockBootstrap.t)
        (Hinit : BaseBlockBootstrap.__init__ (Some name) kwargs = ok outer) :
  exists (cls : block_kwargs -> result BlockBootstrap.t)
         (inst : BlockBootstrap.t),
    BaseBlockBootstrap.bootstrap_type_dict name = Some cls
    /\ BaseBlockBootstrap.bootstrap_instance outer = Some inst
    /\ (kw_rng kwargs <> PyNone -> cls kwargs = ok inst)
    /\ forall (X : array_like) (return_indices : bool) (exog : option matrix),
         let r := BaseTimeSeriesBootstrap.split outer X return_indices exog in
         let r' := BaseTimeSeriesBootstrap.split inst X return_indices exog in
         yielded r = yielded r'
         /\ raised r = raised r'
         /\ BaseBlockBootstrap.bootstrap_instance (final r) = Some (final r')
         /\ BlockBootstrap.blocks (BaseBlockBootstrap.base (final r)) = None
         /\ BlockBootstrap.block_resampler (BaseBlockBootstrap.base (final r))
            = None.
Proof.
  unfold BaseBlockBootstrap.__init__ in Hinit.
  destruct (BlockBootstrap_new kwargs) as [e | made] eqn:Hmade;
    [ discriminate Hinit | ].
  destruct (BaseBlockBootstrap.bootstrap_type_dict name) as [cls | ] eqn:Hcls;
    [ | discriminate Hinit ].
  destruct (cls kwargs) as [e | inst] eqn:Hinst; [ discriminate Hinit | ].
  injection Hinit as <-.
  exists cls, inst. split; [ reflexivity | ].
  split; [ reflexivity | ]. split; [ intros _; exact Hinst | ].
  destruct (bootstrap_type_dict_variant _ _ Hcls)
    as [_ [overlap [wrap [distribution [d [-> _]]]]]].
  destruct (block_variant_same_base _ _ _ _ _ _ Hmade Hinst) as [Hn Hb].
  destruct (BlockBootstrap_new_fields _ _ Hmade) as [_ [_ [_ [Hbs Hbr]]]].
  set (outer := BaseBlockBootstrap.mk made (Some inst) _).
  intros X ri exog. cbv zeta.
  unfold BaseTimeSeriesBootstrap.split.
  cbn [BaseTimeSeriesBootstrap.check_input BaseBlockBootstrap.methods
       BlockBootstrap.methods].
  assert (Hcheck : forall M : matrix,
             BlockBootstrap._check_input (BaseBlockBootstrap.base outer) M
             = BlockBootstrap._check_input inst M).
  { intro M. apply _check_input_block_length. symmetry. exact Hb. }
  assert (Hloop : forall (M : matrix) (ex : option matrix),
             let r := BaseTimeSeriesBootstrap._generate_samples
                        outer M ri ex in
             let r' := BaseTimeSeriesBootstrap._generate_samples
                         inst M ri ex in
             yielded r = yielded r'
             /\ raised r = raised r'
             /\ BaseBlockBootstrap.bootstrap_instance (final r)
                = Some (final r')
             /\ BlockBootstrap.blocks (BaseBlockBootstrap.base (final r))
                = None
             /\ BlockBootstrap.block_resampler
                  (BaseBlockBootstrap.base (final r)) = None).
  { intros M ex. cbv zeta. unfold BaseTimeSeriesBootstrap._generate_samples.
    cbn [BaseTimeSeriesBootstrap.n_bootstraps BaseBlockBootstrap.methods
         BlockBootstrap.methods].
    replace (BlockBootstrap.n_bootstraps (BaseBlockBootstrap.base outer))
      with (BlockBootstrap.n_bootstraps inst)
      by exact Hn.
    destruct (delegate_loop (Z.to_nat (BlockBootstrap.n_bootstraps inst))
                outer inst M ri ex eq_refl) as [Hy [Hr [Hi [Hb1 Hb2]]]].
    rewrite Hy, Hr, Hi, Hb1, Hb2. repeat split; assumption || reflexivity. }
  assert (Hstay : yielded (mk_iteration [] (@None exn) outer) = []
                  /\ BaseBlockBootstrap.bootstrap_instance outer = Some inst
                  /\ BlockBootstrap.blocks (BaseBlockBootstrap.base outer)
                     = None
                  /\ BlockBootstrap.block_resampler
                       (BaseBlockBootstrap.base outer) = None)
    by (repeat split; assumption || reflexivity).
  destruct Hstay as [_ [Hi0 [Hb0 Hr0]]].
  rewrite Hcheck.
  destruct (BlockBootstrap._check_input inst (as_2d X));
    [ cbn [yielded raised final]; repeat split; assumption || reflexivity | ].
  destruct (time_series_split (as_2d X) (1 # 5)) as [X_train X_test].
  destruct exog as [ex | ]; [ | apply Hloop ].
  rewrite Hcheck.
  destruct (BlockBootstrap._check_input inst ex);
    [ cbn [yielded raised final]; repeat split; assumption || reflexivity | ].
  destruct (time_series_split ex (1 # 5)) as [exog_train exog_test].
  apply Hloop.
Qed.

Lemma BaseBlockBootstrap_delegates_witness :
  @BaseBlockBootstrap.__init__ example_numerics (Some "moving"%string)
    example_kwargs = ok example_outer
  /\ exists (cls : block_kwargs -> result BlockBootstrap.t)
            (inst : BlockBootstrap.t),
       @BaseBlockBootstrap.bootstrap_type_dict example_numerics "moving"
       = Some cls
       /\ BaseBlockBootstrap.bootstrap_instance example_outer = Some inst
       /\ (kw_rng example_kwargs <> PyNone -> cls example_kwargs = ok inst)
       /\ forall (X : array_like) (return_indices : bool)
                 (exog : option matrix),
            let r := @BaseTimeSeriesBootstrap.split
                       _ (@BaseBlockBootstrap.methods example_numerics) example_utilities
                       example_outer X return_indices exog in
            let r' := @BaseTimeSeriesBootstrap.split
                        _ (@BlockBootstrap.methods example_numerics) example_utilities
                        inst X return_indices exog in
            yielded r = yielded r'
            /\ raised r = raised r'
            /\ BaseBlockBootstrap.bootstrap_instance (final r)
               = Some (final r')
            /\ BlockBootstrap.blocks (BaseBlockBootstrap.base (final r)) = None
            /\ BlockBootstrap.block_resampler
                 (BaseBlockBootstrap.base (final r)) = None.
Proof.
  split; [ reflexivity | ].
  exact (@BaseBlockBootstrap_delegates example_numerics example_utilities "moving"
           example_kwargs example_outer eq_refl).
Defined.

(** X20.  A [BaseBlockBootstrap] without a [bootstrap_type] bootstraps as the
    [BlockBootstrap] it is: [split] yields and ends as the inherited method
    does on its own attributes, and leaves them as that leaves them. *)
Theorem BaseBlockBootstrap_without_type `{Numerics} `{Utilities}
        (kwargs : block_kwargs) (outer : BaseBlockBootstrap.t)
        (Hinit : BaseBlockBootstrap.__init__ None kwargs = ok outer) :
  BlockBootstrap_new kwargs = ok (BaseBlockBootstrap.base outer)
  /\ BaseBlockBootstrap.bootstrap_instance outer = None
  /\ forall (X : array_like) (return_indices : bool) (exog : option matrix),
       let r := BaseTimeSeriesBootstrap.split outer X return_indices exog in
       let r' := BaseTimeSeriesBootstrap.split
                   (BaseBlockBootstrap.base outer) X return_indices exog in
       yielded r = yielded r'
       /\ raised r = raised r'
       /\ BaseBlockBootstrap.base (final r) = final r'
       /\ BaseBlockBootstrap.bootstrap_instance (final r) = None.
Proof.
  unfold BaseBlockBootstrap.__init__ in Hinit.
  destruct (BlockBootstrap_new kwargs) as [e | made] eqn:Hmade;
    [ discriminate Hinit | ].
  injection Hinit as <-. cbn [BaseBlockBootstrap.base
                                BaseBlockBootstrap.bootstrap_instance].
  split; [ reflexivity | ]. split; [ reflexivity | ].
  set (outer := BaseBlockBootstrap.mk made None false).
  intros X ri exog. cbv zeta.
  unfold BaseTimeSeriesBootstrap.split.
  cbn [BaseTimeSeriesBootstrap.check_input BaseBlockBootstrap.methods
       BlockBootstrap.methods].
  change (BaseBlockBootstrap.base outer) with made.
  assert (Hloop : forall (M : matrix) (ex : option matrix),
             let r := BaseTimeSeriesBootstrap._generate_samples
                        outer M ri ex in
             let r' := BaseTimeSeriesBootstrap._generate_samples
                         made M ri ex in
             yielded r = yielded r'
             /\ raised r = raised r'
             /\ BaseBlockBootstrap.base (final r) = final r'
             /\ BaseBlockBootstrap.bootstrap_instance (final r) = None).
  { intros M ex. cbv zeta. unfold BaseTimeSeriesBootstrap._generate_samples.
    cbn [BaseTimeSeriesBootstrap.n_bootstraps BaseBlockBootstrap.methods
         BlockBootstrap.methods].
    change (BaseBlockBootstrap.base outer) with made.
    apply (inherit_loop (Z.to_nat (BlockBootstrap.n_bootstraps made))
             outer M ri ex eq_refl). }
  destruct (BlockBootstrap._check_input made (as_2d X));
    [ cbn [yielded raised final]; repeat split; reflexivity | ].
  destruct (time_series_split (as_2d X) (1 # 5)) as [X_train X_test].
  destruct exog as [ex | ]; [ | apply Hloop ].
  destruct (BlockBootstrap._check_input made ex);
    [ cbn [yielded raised final]; repeat split; reflexivity | ].
  destruct (time_series_split ex (1 # 5)) as [exog_train exog_test].
  apply Hloop.
Qed.

Lemma BaseBlockBootstrap_without_type_witness :
  @BaseBlockBootstrap.__init__ example_numerics None example_kwargs
  = ok (BaseBlockBootstrap.mk example_block_bootstrap None false)
  /\ @BlockBootstrap_new example_numerics example_kwargs
     = ok example_block_bootstrap.
Proof.
  split; [ reflexivity | ].
  exact (proj1 (@BaseBlockBootstrap_without_type example_numerics example_utilities
                  example_kwargs
                  (BaseBlockBootstrap.mk example_block_bootstrap None false)
                  eq_refl)).
Defined.

(** X21.  [BaseBlockBootstrap] can be constructed exactly when [BlockBootstrap]
    can be from the same keyword arguments and [bootstrap_type] is None or
    one of the four names; an exception of [BlockBootstrap] comes before the
    one for an unknown type. *)
Theorem BaseBlockBootstrap_init_succeeds `{Numerics}
        (bootstrap_type : option string) (kwargs : block_kwargs) :
  ((exists outer, BaseBlockBootstrap.__init__ bootstrap_type kwargs = ok outer)
   <-> (exists self, BlockBootstrap_new kwargs = ok self)
       /\ match bootstrap_type with
          | None => True
          | Some name =>
              In name
                 ["nonoverlapping"; "moving"; "stationary"; "circular"]%string
          end)
  /\ (forall e, BlockBootstrap_new kwargs = raise e ->
                BaseBlockBootstrap.__init__ bootstrap_type kwargs = raise e).
Proof.
  unfold BaseBlockBootstrap.__init__.
  destruct (BlockBootstrap_new kwargs) as [e | made] eqn:Hmade.
  - split.
    + split; [ intros [outer Ho]; discriminate Ho
             | intros [[self Hs] _]; discriminate Hs ].
    + intros e' He. unfold raise in He. injection He as <-. reflexivity.
  - split; [ | intros e' He; discriminate He ].
    destruct bootstrap_type as [name | ].
    + destruct (BaseBlockBootstrap.bootstrap_type_dict name) as [cls | ]
        eqn:Hcls.
      * destruct (bootstrap_type_dict_variant _ _ Hcls)
          as [Hin [overlap [wrap [distribution [d [-> Hd]]]]]].
        unfold block_variant. rewrite Hmade, Hd.
        split.
        -- intros _. split; [ exists made; reflexivity | exact Hin ].
        -- intros _. eexists. reflexivity.
      * split; [ intros [outer Ho]; discriminate Ho | ].
        intros [_ Hin]. exfalso.
        unfold BaseBlockBootstrap.bootstrap_type_dict in Hcls.
        simpl in Hin.
        destruct Hin as [<- | [<- | [<- | [<- | []]]]]; discriminate Hcls.
    + split.
      * intros _. split; [ exists made; reflexivity | exact I ].
      * intros _. eexists. reflexivity.
Qed.

Lemma BaseBlockBootstrap_init_succeeds_witness :
  @BlockBootstrap_new example_numerics
    (mk_block_kwargs (PyInt 0) PyNone PyNone false false false (PyInt 7)
                     None None None None)
  = raise (ValueError "The number of bootstrap iterations must be greater than 0.")
  /\ @BaseBlockBootstrap.__init__ example_numerics (Some "sliding"%string)
       (mk_block_kwargs (PyInt 0) PyNone PyNone false false false (PyInt 7)
                        None None None None)
     = raise (ValueError "The number of bootstrap iterations must be greater than 0.").
Proof.
  split; [ reflexivity | ].
  exact (proj2 (@BaseBlockBootstrap_init_succeeds example_numerics
                  (Some "sliding"%string)
                  (mk_block_kwargs (PyInt 0) PyNone PyNone false false false
                                   (PyInt 7) None None None None))
               _ eq_refl).
Defined.

Lemma validate_integers_error_classes_witness :
  validate_integers [PyInt (-1); PyList [PyInt 2]] None = ok tt
  /\ (validate_integers [PyInt (-1); PyList [PyInt 2]] (Some 0) = ok tt
      \/ exists msg,
           validate_integers [PyInt (-1); PyList [PyInt 2]] (Some 0)
           = raise (ValueError msg)).
Proof.
  split; [ reflexivity | ].
  exact (proj2 (validate_integers_error_classes
                  [PyInt (-1); PyList [PyInt 2]]) 0 eq_refl).
Defined.

Lemma resids_model_type_setter_without_arch_witness :
  str_lower "ARCH" = "arch"%string
  /\ exists msg,
       resids_model_type_setter (PyStr "ARCH") = raise (ValueError msg).
Proof.
  split; [ reflexivity | ].
  exact (proj2 (resids_model_type_setter_without_arch (PyStr "ARCH"))
               "ARCH"%string eq_refl eq_refl).
Defined.
